(** * BLCM hardware sales and inventory: product, report and sales-route logic

    A shallow embedding of
    - [backend/controllers/product.controller.js] ([createProduct],
      [updateProduct]),
    - the report controller ([getSalesReport], [getInventoryReport],
      [getTopProducts], [getRevenueTrends]),
    - [backend/routes/sales.routes.js] (the middleware chains of the create
      and void routes),
    and of the sale transaction of the design document, whose controller is
    not part of the sources.

    Conventions.  JavaScript numbers are exact integers here ([Z]: amounts in
    the smallest currency unit, quantities, counts); the rounding of binary
    floating point is outside the model.  Instants ([Date]) are milliseconds
    since the epoch.  Object ids are natural numbers ([N]); [toString] on
    them is injective and is left implicit.  A collection keyed by [_id] is a
    [gmap]; the sales collection is the list of its documents. *)

From Stdlib Require Import ZArith String Ascii List Lia.
From stdpp Require Import base list gmap strings sorting pretty.

Local Open Scope Z_scope.

(** ** JavaScript and MongoDB primitives *)

Abbreviation ObjectId := N.
Abbreviation Date := Z.

(** [x || 0] on a numeric field that may be [null]; the same reading is what
    [null * n] uses. *)
Definition orZero (x : option Z) : Z := default 0 x.

(** [$sum] over the documents of a group. *)
Definition sumZ (l : list Z) : Z := foldr Z.add 0 l.

(** What a controller does with the response. *)
Inductive Response (A : Type) : Type :=
| Ok (data : A)
| Fail (status : nat) (message : string)
| NextError.
Arguments Ok {A} data.
Arguments Fail {A} status message.
Arguments NextError {A}.

(** The result of [parseInt] on a query parameter. *)
Inductive Parsed : Type :=
| NaN
| Int (n : Z).

(** [$sort] and [.sort(...)]: the server returns the documents in an order
    that respects the sort key; the order of documents with equal keys is
    not specified. *)
Class DocumentSort : Type := {
  sortDocs : ∀ {A : Type}, (A → A → bool) → list A → list A;
  sortDocs_perm : ∀ {A : Type} (le : A → A → bool) (l : list A),
    sortDocs le l ≡ₚ l;
  sortDocs_sorted : ∀ {A : Type} (le : A → A → bool) (l : list A),
    (∀ x y, le x y ∨ le y x) →
    (∀ x y z, le x y → le y z → le x z) →
    StronglySorted (λ x y, le x y) (sortDocs le l)
}.

(** Two servers: a merge sort of the documents as stored, and the same sort
    run over the documents read in the opposite order. *)
Definition sortStored {A : Type} (le : A → A → bool) (l : list A) : list A :=
  merge_sort (λ x y, Is_true (le x y)) l.

Definition sortStoredBackwards {A : Type} (le : A → A → bool) (l : list A)
  : list A :=
  merge_sort (λ x y, Is_true (le x y)) (reverse l).

(** The server that sorts the documents as stored, and the one that reads
    them backwards before it sorts. *)
Definition storedOrder : DocumentSort := {|
  sortDocs := @sortStored;
  sortDocs_perm := λ A le l, merge_sort_Permutation _ l;
  sortDocs_sorted := λ A le l Htotal Htrans,
    @StronglySorted_merge_sort A (λ x y, Is_true (le x y)) _ Htrans Htotal l
|}.

Definition backwardsOrder : DocumentSort := {|
  sortDocs := @sortStoredBackwards;
  sortDocs_perm := λ A le l,
    transitivity (merge_sort_Permutation _ (reverse l)) (reverse_Permutation l);
  sortDocs_sorted := λ A le l Htotal Htrans,
    @StronglySorted_merge_sort A (λ x y, Is_true (le x y)) _ Htrans Htotal
      (reverse l)
|}.

(** [$group]: one accumulator per distinct key, started at [init] and fed
    every document of the key. *)
Definition group {K D A : Type} `{Countable K}
    (key : D → K) (init : A) (step : A → D → A) (docs : list D) : gmap K A :=
  fold_left (λ g d, <[key d := step (default init (g !! key d)) d]> g) docs ∅.

(** ** Data model *)

Module PricingEntry.
Record t : Type := mk {
  basePrice : Z;
  markupPercentage : Z;
  updatedAt : Date
}.
End PricingEntry.

Module Product.
Record t : Type := mk {
  name : string;
  category : option string;
  supplier : ObjectId;
  price : option Z;              (* [None]: null *)
  markupPercentage : option Z;   (* [None]: null *)
  stockQuantity : Z;
  lowStockThreshold : Z;
  isActive : bool;
  pricingHistory : list PricingEntry.t;   (* [[]]: absent or empty *)
  createdAt : option Date
}.
End Product.

Module Item.
Record t : Type := mk {
  product : ObjectId;
  quantity : Z;
  price : Z;
  subtotal : Z
}.
End Item.

Module Sale.
Record t : Type := mk {
  saleNumber : string;
  items : list Item.t;
  discount : Z;
  tax : Z;
  total : Z;
  cashier : ObjectId;
  isVoid : bool;
  createdAt : Date
}.
End Sale.

Record DB : Type := mkDB {
  products : gmap ObjectId Product.t;
  suppliers : gset ObjectId;
  sales : list Sale.t
}.

(** ** Product controller ([product.controller.js]) *)

(** A numeric field of a request body, as the controller tells its values
    apart. *)
Inductive Field : Type :=
| Missing          (* the key is absent, or its value is [undefined] *)
| Blank            (* [null] or the empty string *)
| Val (z : Z).     (* a number *)

(** [req.body] of the product routes.  The body is handed to the model as it
    is, so it has every key of the document that a client can send,
    [pricingHistory] included. *)
Module Body.
Record t : Type := mk {
  supplier : option ObjectId;
  name : option string;
  category : option string;
  price : Field;
  markupPercentage : Field;
  stockQuantity : option Z;      (* [None]: absent, [null] or [''] *)
  lowStockThreshold : option Z;
  isActive : option bool;
  pricingHistory : option (list PricingEntry.t)
}.

Definition setPricingHistory (h : list PricingEntry.t) (b : t) : t :=
  mk (supplier b) (name b) (category b) (price b) (markupPercentage b)
     (stockQuantity b) (lowStockThreshold b) (isActive b) (Some h).
End Body.

(** [productData.price] after the defaulting step of [createProduct]:
    [0] when the key is absent, [undefined], [null] or [''] *)
Definition defaulted (f : Field) : Z :=
  match f with
  | Missing | Blank => 0
  | Val z => z
  end.

(** [parseFloat(x) || 0] *)
Definition parseFloatOrZero (f : Field) : Z :=
  match f with
  | Missing | Blank => 0      (* NaN || 0 *)
  | Val z => z                (* z || 0 = z, also at z = 0 *)
  end.

(** The value Mongoose stores for a numeric key of an update. *)
Definition castNumber (f : Field) (old : option Z) : option Z :=
  match f with
  | Missing => old
  | Blank => None
  | Val z => Some z
  end.

(** [Model.findByIdAndUpdate(id, body)]: every key of the body replaces the
    stored one. *)
Definition applyBody (b : Body.t) (p : Product.t) : Product.t :=
  Product.mk
    (default (Product.name p) (Body.name b))
    (match Body.category b with Some c => Some c | None => Product.category p end)
    (default (Product.supplier p) (Body.supplier b))
    (castNumber (Body.price b) (Product.price p))
    (castNumber (Body.markupPercentage b) (Product.markupPercentage p))
    (default (Product.stockQuantity p) (Body.stockQuantity b))
    (default (Product.lowStockThreshold p) (Body.lowStockThreshold b))
    (default (Product.isActive p) (Body.isActive b))
    (default (Product.pricingHistory p) (Body.pricingHistory b))
    (Product.createdAt p).

Definition setProducts (m : gmap ObjectId Product.t) (db : DB) : DB :=
  mkDB m (suppliers db) (sales db).

Section ProductController.
(** [new Date()] at the time of the request, and the values the product
    schema (not among the sources) gives to the keys a body leaves out. *)
Variable now : Date.
Variable schemaDefault : Product.t.

Definition createProduct (db : DB) (body : Body.t)
  : DB * Response (ObjectId * Product.t) :=
  match Body.supplier body with
  | None => (db, Fail 404 "Supplier not found")
  | Some supplierId =>
    if decide (supplierId ∈ suppliers db) then
      let price := defaulted (Body.price body) in
      let markupPercentage := defaulted (Body.markupPercentage body) in
      let stockQuantity := default 0 (Body.stockQuantity body) in
      let pricingHistory :=
        [PricingEntry.mk price markupPercentage now] in
      let product :=
        Product.mk
          (default (Product.name schemaDefault) (Body.name body))
          (match Body.category body with
           | Some c => Some c
           | None => Product.category schemaDefault
           end)
          supplierId
          (Some price) (Some markupPercentage) stockQuantity
          (default (Product.lowStockThreshold schemaDefault)
                   (Body.lowStockThreshold body))
          (default (Product.isActive schemaDefault) (Body.isActive body))
          pricingHistory
          (Some now) in
      let id := fresh (dom (products db)) in
      (setProducts (<[id := product]> (products db)) db, Ok (id, product))
    else (db, Fail 404 "Supplier not found")
  end.

Definition updateProduct (db : DB) (id : ObjectId) (body : Body.t)
  : DB * Response Product.t :=
  match products db !! id with
  | None => (db, Fail 404 "Product not found")
  | Some product =>
    if match Body.supplier body with
       | Some s => bool_decide (s ∈ suppliers db)
       | None => true
       end
    then
      let oldPrice := orZero (Product.price product) in
      let oldMarkupPercentage := orZero (Product.markupPercentage product) in
      let newPrice :=
        match Body.price body with
        | Missing => oldPrice
        | f => parseFloatOrZero f
        end in
      let newMarkupPercentage :=
        match Body.markupPercentage body with
        | Missing => oldMarkupPercentage
        | f => parseFloatOrZero f
        end in
      let priceChanged :=
        negb (newPrice =? oldPrice)
        || negb (newMarkupPercentage =? oldMarkupPercentage) in
      let body' :=
        if priceChanged then
          let history :=
            match Product.pricingHistory product with
            | [] => [PricingEntry.mk oldPrice oldMarkupPercentage
                       (default now (Product.createdAt product))]
            | h => h
            end in
          Body.setPricingHistory
            (history ++ [PricingEntry.mk newPrice newMarkupPercentage now])
            body
        else body in
      let updatedProduct := applyBody body' product in
      (setProducts (<[id := updatedProduct]> (products db)) db,
       Ok updatedProduct)
    else (db, Fail 404 "Supplier not found")
  end.

(** [DELETE /api/products/:id] *)
Definition deleteProduct (db : DB) (id : ObjectId) : DB * Response unit :=
  match products db !! id with
  | None => (db, Fail 404 "Product not found")
  | Some _ => (setProducts (delete id (products db)) db, Ok ())
  end.
End ProductController.

(** The price and markup in effect for a product: what the controller and
    the reports read, [null] counting as [0]. *)
Definition effectivePrice (p : Product.t) : Z := orZero (Product.price p).
Definition effectiveMarkup (p : Product.t) : Z :=
  orZero (Product.markupPercentage p).


(** ** Report controller *)

(** [req.query]: the dates as the instants [new Date(...)] reads them
    ([None]: the parameter is absent or empty; a string that is no date is
    outside the model), [limit] as [parseInt] reads it ([None]: absent). *)
Module Query.
Record t : Type := mk {
  startDate : option Date;
  endDate : option Date;
  limit : option Parsed;
  groupBy : option string
}.
End Query.

Module Summary.
Record t : Type := mk { totalSales : Z; totalRevenue : Z; totalVAT : Z }.
End Summary.

Module DayBucket.
Record t : Type := mk { count : Z; revenue : Z }.
End DayBucket.

(** A sale item after [populate('items.product', 'name')]: the product is
    [null] when its id no longer resolves. *)
Module PItem.
Record t : Type := mk {
  product : option (ObjectId * string);
  quantity : Z;
  subtotal : Z
}.
End PItem.

Module PSale.
Record t : Type := mk { sale : Sale.t; items : list PItem.t }.
End PSale.

Module SalesReport.
Record t : Type := mk {
  totalSales : Z;
  totalRevenue : Z;
  totalVAT : Z;
  totalCOGS : Z;
  profit : Z;
  salesByDate : gmap string DayBucket.t;
  data : list PSale.t
}.
End SalesReport.

Module CategoryBucket.
Record t : Type := mk { count : Z; totalValue : Z }.
End CategoryBucket.

Module InventoryReport.
Record t : Type := mk {
  totalProducts : nat;
  totalStockValue : Z;
  lowStockCount : nat;
  outOfStockCount : nat;
  byCategory : gmap string CategoryBucket.t;
  lowStockProducts : list (ObjectId * Product.t);
  outOfStockProducts : list (ObjectId * Product.t);
  data : list (ObjectId * Product.t)
}.
End InventoryReport.

Module TopRow.
Record t : Type := mk {
  productId : ObjectId;
  productName : string;
  totalQuantity : Z;
  totalRevenue : Z;
  saleCount : Z
}.
End TopRow.

Module TopGroup.
Record t : Type := mk { totalQuantity : Z; totalRevenue : Z; saleCount : Z }.
End TopGroup.

Module Trend.
Record t : Type := mk { date : string; revenue : Z; sales : Z }.
End Trend.

Definition msPerDay : Z := 86400000.

(** The [$match] stage of the reports. *)
Definition matchSale (start end_ : Date) (s : Sale.t) : bool :=
  (start <=? Sale.createdAt s) && (Sale.createdAt s <=? end_)
  && negb (Sale.isVoid s).

(** The sort keys. *)
Definition createdAtDesc (a b : Sale.t) : bool :=
  Sale.createdAt b <=? Sale.createdAt a.

Definition optionStringLe (a b : option string) : bool :=
  match a, b with
  | None, _ => true
  | Some _, None => false
  | Some x, Some y => String.leb x y
  end.

Definition categoryNameLe (a b : ObjectId * Product.t) : bool :=
  if decide (Product.category a.2 = Product.category b.2)
  then String.leb (Product.name a.2) (Product.name b.2)
  else optionStringLe (Product.category a.2) (Product.category b.2).

Definition totalQuantityDesc (a b : TopRow.t) : bool :=
  TopRow.totalQuantity b <=? TopRow.totalQuantity a.

Definition populate (db : DB) (s : Sale.t) : PSale.t :=
  PSale.mk s
    (map (λ i,
       PItem.mk
         (match products db !! Item.product i with
          | Some p => Some (Item.product i, Product.name p)
          | None => None
          end)
         (Item.quantity i) (Item.subtotal i))
       (Sale.items s)).

(** [product.category || 'Uncategorized'] *)
Definition categoryOf (p : Product.t) : string :=
  match Product.category p with
  | None => "Uncategorized"
  | Some c => if decide (c = "") then "Uncategorized" else c
  end.

Definition stockValue (p : Product.t) : Z :=
  orZero (Product.price p) * Product.stockQuantity p.

Section Reports.
Context `{DocumentSort}.
(** The offset of the server's local time from UTC in milliseconds (taken as
    constant), [process.env.TZ], and [$dateToString] of the database
    (format, time zone, instant). *)
Variable localOffset : Z.
Variable TZ : option string.
Variable dateToString : string → string → Date → string.

(** [end.setHours(23, 59, 59, 999)] *)
Definition setHoursEndOfDay (t : Date) : Date :=
  (t + localOffset) `div` msPerDay * msPerDay + (msPerDay - 1) - localOffset.

(** [process.env.TZ || 'Asia/Manila'] *)
Definition timezone : string :=
  match TZ with
  | None => "Asia/Manila"
  | Some tz => if decide (tz = "") then "Asia/Manila" else tz
  end.

(** The bodies of the two loops over [sale.items] that compute the cost of
    goods sold. *)
Definition addProductId (productIds : list ObjectId) (item : PItem.t)
  : list ObjectId :=
  match PItem.product item with
  | Some (productId, _) =>
    if bool_decide (productId ∈ productIds) then productIds
    else productIds ++ [productId]
  | None => productIds
  end.

Definition addItemCost (productMap : gmap ObjectId Product.t) (totalCOGS : Z)
    (item : PItem.t) : Z :=
  match PItem.product item with
  | Some (productId, _) =>
    match productMap !! productId with
    | Some product =>
      totalCOGS + orZero (Product.price product) * PItem.quantity item
    | None => totalCOGS
    end
  | None => totalCOGS
  end.

Definition collectProductIds (sales : list PSale.t) : list ObjectId :=
  fold_left (λ productIds sale,
    fold_left addProductId (PSale.items sale) productIds) sales [].

Definition costOfGoodsSold (db : DB) (sales : list PSale.t) : Z :=
  match sales with
  | [] => 0
  | _ =>
    let productIds := collectProductIds sales in
    match productIds with
    | [] => 0
    | _ =>
      let found :=
        filter (λ p, p.1 ∈ productIds) (map_to_list (products db)) in
      let productMap : gmap ObjectId Product.t := list_to_map found in
      fold_left (λ totalCOGS sale,
        fold_left (addItemCost productMap) (PSale.items sale) totalCOGS)
        sales 0
    end
  end.

Definition getSalesReport (db : DB) (q : Query.t) : Response SalesReport.t :=
  match Query.startDate q, Query.endDate q with
  | Some startDate, Some endDate =>
    let start := startDate in
    let end_ := setHoursEndOfDay endDate in
    let matched := filter (λ s, matchSale start end_ s) (sales db) in
    let summaryResult :=
      map_to_list
        (group (λ _ : Sale.t, ()) (Summary.mk 0 0 0)
           (λ a s, Summary.mk (Summary.totalSales a + 1)
                     (Summary.totalRevenue a + Sale.total s)
                     (Summary.totalVAT a + Sale.tax s))
           matched) in
    let salesByDateResult :=
      sortDocs (λ a b : string * DayBucket.t, String.leb a.1 b.1)
        (map_to_list
           (group (λ s, dateToString "%Y-%m-%d" timezone (Sale.createdAt s))
              (DayBucket.mk 0 0)
              (λ a s, DayBucket.mk (DayBucket.count a + 1)
                        (DayBucket.revenue a + Sale.total s))
              matched)) in
    let sales :=
      map (populate db) (take 100 (sortDocs createdAtDesc matched)) in
    let summary :=
      match summaryResult with
      | [] => Summary.mk 0 0 0
      | r :: _ => r.2
      end in
    let salesByDate :=
      fold_left (λ o item, <[item.1 := item.2]> o) salesByDateResult ∅ in
    let totalCOGS := costOfGoodsSold db sales in
    let profit := Summary.totalRevenue summary - totalCOGS in
    Ok (SalesReport.mk (Summary.totalSales summary)
          (Summary.totalRevenue summary) (Summary.totalVAT summary)
          totalCOGS profit salesByDate sales)
  | _, _ => Fail 400 "Start date and end date are required"
  end.

(** [byCategory] of the inventory report is a plain object, [{}], read with
    [byCategory[category]].  Under a key that names a member of
    [Object.prototype] the read finds the inherited member, which is truthy:
    no bucket is made, and the two updates that follow are written to that
    member, not to [byCategory], so that the response, which holds the own
    keys of [byCategory], shows nothing of them. *)
Definition objectPrototypeMembers : list string :=
  ["constructor"; "__defineGetter__"; "__defineSetter__"; "hasOwnProperty";
   "__lookupGetter__"; "__lookupSetter__"; "isPrototypeOf";
   "propertyIsEnumerable"; "toString"; "valueOf"; "__proto__";
   "toLocaleString"].

Definition getInventoryReport (db : DB) : Response InventoryReport.t :=
  let products :=
    sortDocs categoryNameLe
      (filter (λ p, Product.isActive p.2 = true) (map_to_list (products db))) in
  let totalProducts := length products in
  let totalStockValue :=
    fold_left (λ sum p, sum + stockValue p.2) products 0 in
  let lowStockProducts :=
    filter (λ p, Product.stockQuantity p.2 ≤ Product.lowStockThreshold p.2)
      products in
  let outOfStockProducts :=
    filter (λ p, Product.stockQuantity p.2 = 0) products in
  let byCategory :=
    fold_left (λ (byCategory : gmap string CategoryBucket.t) product,
      let category := categoryOf product.2 in
      if bool_decide (category ∈ objectPrototypeMembers) then byCategory
      else
        let byCategory :=
          match byCategory !! category with
          | None => <[category := CategoryBucket.mk 0 0]> byCategory
          | Some _ => byCategory
          end in
        alter (λ b, CategoryBucket.mk (CategoryBucket.count b + 1)
                      (CategoryBucket.totalValue b + stockValue product.2))
          category byCategory) products ∅ in
  Ok (InventoryReport.mk totalProducts totalStockValue
        (length lowStockProducts) (length outOfStockProducts)
        byCategory lowStockProducts outOfStockProducts products).

(** The stages of the top-products pipeline before [$sort]. *)
Definition topProductRows (db : DB) (matched : list Sale.t) : list TopRow.t :=
  let unwound := flat_map Sale.items matched in
  let grouped :=
    map_to_list
      (group Item.product (TopGroup.mk 0 0 0)
         (λ a i, TopGroup.mk (TopGroup.totalQuantity a + Item.quantity i)
                   (TopGroup.totalRevenue a + Item.subtotal i)
                   (TopGroup.saleCount a + 1))
         unwound) in
  omap (λ g : ObjectId * TopGroup.t,
    match products db !! g.1 with
    | Some product =>
      Some (TopRow.mk g.1 (Product.name product)
              (TopGroup.totalQuantity g.2) (TopGroup.totalRevenue g.2)
              (TopGroup.saleCount g.2))
    | None => None
    end) grouped.

Definition topProductsMatch (q : Query.t) (s : Sale.t) : bool :=
  match Query.startDate q, Query.endDate q with
  | Some startDate, Some endDate =>
    matchSale startDate (setHoursEndOfDay endDate) s
  | _, _ => negb (Sale.isVoid s)
  end.

Definition getTopProducts (db : DB) (q : Query.t) : Response (list TopRow.t) :=
  let limit := default (Int 10) (Query.limit q) in
  let matched := filter (λ s, topProductsMatch q s) (sales db) in
  let sorted := sortDocs totalQuantityDesc (topProductRows db matched) in
  match limit with
  | Int n => if 0 <? n then Ok (take (Z.to_nat n) sorted) else NextError
  | NaN => NextError
  end.

Definition dateFormat (groupBy : option string) : string :=
  let groupBy := default "day" groupBy in
  if decide (groupBy = "day") then "%Y-%m-%d"
  else if decide (groupBy = "week") then "%Y-%U"
  else if decide (groupBy = "month") then "%Y-%m"
  else "%Y-%m-%d".

Definition getRevenueTrends (db : DB) (q : Query.t) : Response (list Trend.t) :=
  match Query.startDate q, Query.endDate q with
  | Some startDate, Some endDate =>
    let start := startDate in
    let end_ := setHoursEndOfDay endDate in
    let dateFormat := dateFormat (Query.groupBy q) in
    let grouped :=
      map_to_list
        (group (λ s, dateToString dateFormat timezone (Sale.createdAt s))
           (DayBucket.mk 0 0)
           (λ a s, DayBucket.mk (DayBucket.count a + 1)
                     (DayBucket.revenue a + Sale.total s))
           (filter (λ s, matchSale start end_ s) (sales db))) in
    let projected :=
      map (λ g : string * DayBucket.t,
             Trend.mk g.1 (DayBucket.revenue g.2) (DayBucket.count g.2))
          grouped in
    Ok (sortDocs (λ a b, String.leb (Trend.date a) (Trend.date b)) projected)
  | _, _ => Fail 400 "Start date and end date are required"
  end.
End Reports.


(** ** Sales routes ([sales.routes.js]) *)

Module User.
Record t : Type := mk { id : ObjectId; role : string }.
End User.

Module ItemBody.
Record t : Type := mk {
  product : string;
  quantity : option Z      (* [None]: not an integer *)
}.
End ItemBody.

(** [req.body] of the sales routes: [None] is an absent key; for [items] it
    is also a value that is not an array, and for [discount] and [tax]
    [Some None] is a value that is not a number. *)
Module SaleBody.
Record t : Type := mk {
  customerName : option string;
  customerEmail : option string;
  customerPhone : option string;
  items : option (list ItemBody.t);
  paymentMethod : option string;
  discount : option (option Z);
  tax : option (option Z);
  superAdminCode : option string
}.
End SaleBody.

(** [req]: [user] is what the session carries ([None]: no valid session). *)
Module Req.
Record t : Type := mk { user : option User.t; body : SaleBody.t }.
End Req.

Inductive Rejection : Type :=
| NotAuthenticated
| Unauthorized
| ValidationFailed (errors : list string).

Inductive Controller : Type :=
| getSales | createSale | voidSale | getSale | exportSalePDF.

(** A middleware either ends the request or calls [next()] ([None]). *)
Definition Middleware : Type := Req.t → option Rejection.

(** Modelled from the spec: [protect] of [middleware/auth.middleware.js],
    which is not among the sources.  Every request carries an authenticated
    actor; a request without one goes no further. *)
Definition protect : Middleware :=
  λ req, match Req.user req with
         | Some _ => None
         | None => Some NotAuthenticated
         end.

(** Modelled from the spec: [authorize(...roles)] of
    [middleware/auth.middleware.js], which is not among the sources.  The
    operation is permitted for the listed roles and for no other. *)
Definition authorize (roles : list string) : Middleware :=
  λ req, match Req.user req with
         | Some u => if bool_decide (User.role u ∈ roles) then None
                     else Some Unauthorized
         | None => Some NotAuthenticated
         end.

(** Modelled from the spec: [handleValidationErrors] of
    [utils/validationHandler.js], which is not among the sources.  The
    controller runs only on a body that passed every rule before it. *)
Definition handleValidationErrors (errors : list string) : option Rejection :=
  match errors with
  | [] => None
  | _ => Some (ValidationFailed errors)
  end.

(** The sanitizers and validators of express-validator that the routes use.
    Strings are ASCII here, and so is the white space [trim] removes. *)
Fixpoint dropSpaces (s : string) : string :=
  match s with
  | EmptyString => EmptyString
  | String c s' => if Ascii.is_space c then dropSpaces s' else s
  end.

Definition trim (s : string) : string :=
  String.rev (dropSpaces (String.rev (dropSpaces s))).

Definition isDigit (c : ascii) : bool :=
  (48 <=? nat_of_ascii c)%nat && (nat_of_ascii c <=? 57)%nat.

Definition isHexDigit (c : ascii) : bool :=
  isDigit c
  || (65 <=? nat_of_ascii c)%nat && (nat_of_ascii c <=? 70)%nat
  || (97 <=? nat_of_ascii c)%nat && (nat_of_ascii c <=? 102)%nat.

(** [isHexadecimal] of validator.js, the pattern [/^(0x|0h)?[0-9A-F]+$/i]:
    hexadecimal digits, at least one, after an optional [0x] or [0h] in
    either case. *)
Definition hexDigits (s : string) : bool :=
  negb (String.length s =? 0)%nat
  && forallb isHexDigit (list_ascii_of_string s).

Definition isHexadecimal (s : string) : bool :=
  hexDigits s
  || match s with
     | String zero (String c rest) =>
       bool_decide (zero = "0"%char)
       && bool_decide (c ∈ ["x"; "X"; "h"; "H"]%char) && hexDigits rest
     | _ => false
     end.

(** [isMongoId] of validator.js: [isHexadecimal(str) && str.length === 24]. *)
Definition isMongoId (s : string) : bool :=
  isHexadecimal s && (String.length s =? 24)%nat.

(** [matches(/^\d+$/)] *)
Definition allDigits (s : string) : bool :=
  negb (String.length s =? 0)%nat && forallb isDigit (list_ascii_of_string s).

Definition rule (holds : bool) (message : string) : list string :=
  if holds then [] else [message].

Section SalesRoutes.
(** [isEmail] of validator.js. *)
Variable isEmail : string → bool.

Definition createSaleErrors (b : SaleBody.t) : list string :=
  match SaleBody.customerEmail b with
  | None => []
  | Some e => rule (isEmail e) "Please provide a valid email"
  end
  ++ match SaleBody.customerPhone b with
     | None => []
     | Some p =>
       rule (String.length (trim p) <=? 11)%nat
            "Phone number must be maximum 11 digits"
       ++ rule (allDigits (trim p)) "Phone number must contain only digits"
     end
  ++ rule (match SaleBody.items b with
           | Some l => (1 <=? length l)%nat
           | None => false
           end) "At least one item is required"
  ++ flat_map (λ i, rule (isMongoId (ItemBody.product i))
                      "Valid product ID is required")
       (default [] (SaleBody.items b))
  ++ flat_map (λ i, rule (match ItemBody.quantity i with
                          | Some n => 1 <=? n
                          | None => false
                          end) "Quantity must be at least 1")
       (default [] (SaleBody.items b))
  ++ rule (match SaleBody.paymentMethod b with
           | Some m =>
             bool_decide (m ∈ ["cash"; "card"; "mobile_payment"; "other"])
           | None => false
           end) "Invalid payment method"
  ++ match SaleBody.discount b with
     | None => []
     | Some d => rule (match d with Some x => 0 <=? x | None => false end)
                   "Discount cannot be negative"
     end
  ++ match SaleBody.tax b with
     | None => []
     | Some d => rule (match d with Some x => 0 <=? x | None => false end)
                   "Tax cannot be negative"
     end.

(** [body('superAdminCode').trim().notEmpty()] *)
Definition voidSaleErrors (b : SaleBody.t) : list string :=
  rule (negb (String.length (trim (default "" (SaleBody.superAdminCode b)))
              =? 0)%nat)
       "SuperAdmin code is required".

Record Route : Type := mkRoute {
  middlewares : list Middleware;
  controller : Controller
}.

(** [router.use(protect)] comes before every route. *)
Definition postSale : Route :=
  mkRoute
    [protect; authorize ["supplier"; "staff"; "admin"];
     λ req, handleValidationErrors (createSaleErrors (Req.body req))]
    createSale.

Definition patchVoid : Route :=
  mkRoute
    [protect; authorize ["admin"; "staff"];
     λ req, handleValidationErrors (voidSaleErrors (Req.body req))]
    voidSale.

Fixpoint runChain (ms : list Middleware) (req : Req.t) : option Rejection :=
  match ms with
  | [] => None
  | m :: rest =>
    match m req with
    | Some r => Some r
    | None => runChain rest req
    end
  end.

(** The controller a request reaches, or the rejection that ends it. *)
Definition dispatch (r : Route) (req : Req.t) : Rejection + Controller :=
  match runChain (middlewares r) req with
  | Some rej => inl rej
  | None => inr (controller r)
  end.
End SalesRoutes.


(** ** Sale transaction engine *)

Module SaleEngine.

(** Modelled from the spec: the errors of sale creation and its request
    ([controllers/sales.controller.js] is not among the sources). *)
Inductive Error : Type :=
| ProductNotFound (productId : ObjectId)
| InsufficientStock (productId : ObjectId) (shortfall : Z)
| InvalidAmount.

Module Line.
Record t : Type := mk { productId : ObjectId; quantity : Z }.
End Line.

Module SaleRequest.
Record t : Type := mk {
  items : list Line.t;
  discount : Z;
  tax : Z;
  cashier : ObjectId
}.
End SaleRequest.

(** Modelled from the spec: the write of the stock field, the only field the
    ledger touches. *)
Definition setStock (q : Z) (p : Product.t) : Product.t :=
  Product.mk (Product.name p) (Product.category p) (Product.supplier p)
    (Product.price p) (Product.markupPercentage p) q
    (Product.lowStockThreshold p) (Product.isActive p)
    (Product.pricingHistory p) (Product.createdAt p).

(** Modelled from the spec: [reserveAndDecrement] of the inventory ledger
    (the sales controller is not among the sources).  It checks
    [stockQuantity ≥ quantity] and decrements; it fails with
    [ProductNotFound] when the id does not resolve to an active product and
    with [InsufficientStock], naming the product and the shortfall, when the
    quantity exceeds the stock. *)
Definition reserveAndDecrement (productId : ObjectId) (quantity : Z)
    (ps : gmap ObjectId Product.t) : Error + gmap ObjectId Product.t :=
  match ps !! productId with
  | None => inl (ProductNotFound productId)
  | Some p =>
    if Product.isActive p then
      if quantity <=? Product.stockQuantity p then
        inr (<[productId := setStock (Product.stockQuantity p - quantity) p]> ps)
      else inl (InsufficientStock productId (quantity - Product.stockQuantity p))
    else inl (ProductNotFound productId)
  end.

(** Modelled from the spec: [increment] of the inventory ledger, which
    restores stock and always succeeds. *)
Definition increment (productId : ObjectId) (quantity : Z)
    (ps : gmap ObjectId Product.t) : gmap ObjectId Product.t :=
  match ps !! productId with
  | None => ps
  | Some p => <[productId := setStock (Product.stockQuantity p + quantity) p]> ps
  end.

(** Modelled from the spec: the selling price of the pricing snapshot, the
    base price raised by the markup percentage (price 100 at 20% sells
    at 120). *)
Definition sellingPrice (p : Product.t) : Z :=
  effectivePrice p + (effectivePrice p * effectiveMarkup p) `div` 100.

(** Modelled from the spec: steps 1 and 2 of [createSale] for one line,
    resolving the product, checking the stock and pricing the line. *)
Definition priceLine (ps : gmap ObjectId Product.t) (l : Line.t)
  : Error + Item.t :=
  match ps !! Line.productId l with
  | None => inl (ProductNotFound (Line.productId l))
  | Some p =>
    if Product.stockQuantity p <? Line.quantity l then
      inl (InsufficientStock (Line.productId l)
             (Line.quantity l - Product.stockQuantity p))
    else
      inr (Item.mk (Line.productId l) (Line.quantity l) (sellingPrice p)
             (sellingPrice p * Line.quantity l))
  end.

(** Modelled from the spec: steps 1 and 2 over the lines in order, stopping
    at the first that fails. *)
Fixpoint priceLines (ps : gmap ObjectId Product.t) (ls : list Line.t)
  : Error + list Item.t :=
  match ls with
  | [] => inr []
  | l :: rest =>
    match priceLine ps l with
    | inl e => inl e
    | inr i =>
      match priceLines ps rest with
      | inl e => inl e
      | inr priced => inr (i :: priced)
      end
    end
  end.

(** Modelled from the spec: the rollback of step 5, which gives back the
    stock of every line already decremented, the latest first. *)
Definition rollback (applied : list Line.t) (ps : gmap ObjectId Product.t)
  : gmap ObjectId Product.t :=
  fold_left (λ ps l, increment (Line.productId l) (Line.quantity l) ps)
    applied ps.

(** Modelled from the spec: the stock side of step 5, one
    [reserveAndDecrement] per line; when a line fails the lines before it
    are rolled back.  The result is the stock after the step, with the error
    when it failed. *)
Fixpoint decrementLines (ls applied : list Line.t)
    (ps : gmap ObjectId Product.t)
  : gmap ObjectId Product.t * option Error :=
  match ls with
  | [] => (ps, None)
  | l :: rest =>
    match reserveAndDecrement (Line.productId l) (Line.quantity l) ps with
    | inl e => (rollback applied ps, Some e)
    | inr ps' => decrementLines rest (l :: applied) ps'
    end
  end.

(** Modelled from the spec: [createSale], steps 1 to 6.  [saleNumber] is the
    number step 4 generated and [now] the time of the request.  The sale is
    persisted only when every line was decremented. *)
Definition createSale (saleNumber : string) (now : Date) (db : DB)
    (req : SaleRequest.t) : DB * (Error + Sale.t) :=
  match priceLines (products db) (SaleRequest.items req) with
  | inl e => (db, inl e)
  | inr items =>
    let total :=
      sumZ (map Item.subtotal items) - SaleRequest.discount req
      + SaleRequest.tax req in
    if total <? 0 then (db, inl InvalidAmount)
    else
      match decrementLines (SaleRequest.items req) [] (products db) with
      | (ps, Some e) => (mkDB ps (suppliers db) (sales db), inl e)
      | (ps, None) =>
        let sale :=
          Sale.mk saleNumber items (SaleRequest.discount req)
            (SaleRequest.tax req) total (SaleRequest.cashier req) false now in
        (mkDB ps (suppliers db) (sales db ++ [sale]), inr sale)
      end
  end.

End SaleEngine.


(** ** Product controller, the reads *)

(** [req.query] of [GET /api/products].  [supplier] is the id the parameter
    is cast to ([None]: absent or empty); the other three are the strings as
    sent ([None]: absent). *)
Module ProductQuery.
Record t : Type := mk {
  category : option string;
  supplier : option ObjectId;
  lowStock : option string;
  isActive : option string
}.
End ProductQuery.

Module ProductList.
Record t : Type := mk { count : nat; data : list (ObjectId * Product.t) }.
End ProductList.

(** The filter [getProducts] builds from the query. *)
Definition productFilter (q : ProductQuery.t) (p : Product.t) : bool :=
  match ProductQuery.supplier q with
  | Some supplier => bool_decide (Product.supplier p = supplier)
  | None => true
  end
  && match ProductQuery.category q with
     | Some category =>
       if decide (category = "") then true
       else bool_decide (Product.category p = Some category)
     | None => true
     end
  && match ProductQuery.isActive q with
     | Some isActive =>
       bool_decide (Product.isActive p = bool_decide (isActive = "true"))
     | None => true
     end
  && (if decide (ProductQuery.lowStock q = Some "true")
      then Product.stockQuantity p <=? Product.lowStockThreshold p
      else true).

Definition nameLe (a b : ObjectId * Product.t) : bool :=
  String.leb (Product.name a.2) (Product.name b.2).

Section ProductReads.
Context `{DocumentSort}.

Definition getProducts (db : DB) (q : ProductQuery.t) : Response ProductList.t :=
  let products :=
    sortDocs nameLe
      (filter (λ p, productFilter q p.2) (map_to_list (products db))) in
  Ok (ProductList.mk (length products) products).

Definition getProduct (db : DB) (id : ObjectId) : Response Product.t :=
  match products db !! id with
  | None => Fail 404 "Product not found"
  | Some product => Ok product
  end.
End ProductReads.

(** ** The other sales routes *)

(** [GET /], [GET /:id] and [GET /:id/pdf] have no middleware of their own
    after [router.use(protect)]. *)
Definition getSalesRoute : Route := mkRoute [protect] getSales.
Definition getSaleRoute : Route := mkRoute [protect] getSale.
Definition exportSalePDFRoute : Route := mkRoute [protect] exportSalePDF.

(** The routes of the router, in the order of the file. *)
Definition salesRouter (isEmail : string → bool) : list Route :=
  [getSalesRoute; postSale isEmail; patchVoid; getSaleRoute;
   exportSalePDFRoute].

(** ** Product units ([utils], the units of products) *)

Module Unit.
Record t : Type := mk { value : string; label : string; abbreviation : string }.
End Unit.

Definition STANDARD_UNITS : list Unit.t :=
  [Unit.mk "Kilogram" "Kilogram (Kg)" "Kg";
   Unit.mk "Gram" "Gram (g)" "g";
   Unit.mk "Liter" "Liter (L)" "L";
   Unit.mk "Milliliter" "Milliliter (mL)" "mL";
   Unit.mk "Meter" "Meter (m)" "m";
   Unit.mk "Centimeter" "Centimeter (cm)" "cm";
   Unit.mk "Piece" "Piece" "pc";
   Unit.mk "Gallon" "Gallon (gal)" "gal";
   Unit.mk "Pound" "Pound (lb)" "lb";
   Unit.mk "Ounce" "Ounce (oz)" "oz";
   Unit.mk "Feet" "Feet (ft)" "ft";
   Unit.mk "Inch" "Inch (in)" "in"].

Definition SUB_CATEGORIES : list (string * string) :=
  [("Bottle", "Bottle"); ("Piece", "Piece"); ("Box", "Box");
   ("Gallon", "Gallon"); ("Sachet/Pouch", "Sachet/Pouch"); ("Pack", "Pack");
   ("Carton", "Carton"); ("Bag", "Bag"); ("Can", "Can"); ("Tube", "Tube")].

Definition getUnitAbbreviation (unitValue : string) : string :=
  match find (λ u, bool_decide (Unit.value u = unitValue)) STANDARD_UNITS with
  | Some unit => Unit.abbreviation unit
  | None => unitValue
  end.

(** The product a description is made for: [None] is [undefined] or [null];
    the amount is a number. *)
Module Described.
Record t : Type := mk {
  name : option string;
  amount : option Z;
  unit : option string;
  subCategory : option string
}.
End Described.

(** Truthiness of a string and of a number. *)
Definition truthyString (s : option string) : bool :=
  match s with
  | Some s => negb (bool_decide (s = ""))
  | None => false
  end.

Definition truthyNumber (n : option Z) : bool :=
  match n with
  | Some n => negb (n =? 0)
  | None => false
  end.

(** [parts.join(sep)] *)
Fixpoint join (sep : string) (parts : list string) : string :=
  match parts with
  | [] => ""
  | [part] => part
  | part :: rest => part +:+ sep +:+ join sep rest
  end.

Definition formatProductDescription (product : Described.t) : string :=
  if truthyString (Described.name product) then
    let parts := [] in
    let parts :=
      if truthyNumber (Described.amount product)
         && truthyString (Described.unit product)
      then
        let unitAbbr := getUnitAbbreviation (default "" (Described.unit product)) in
        parts ++ [pretty (default 0 (Described.amount product)) +:+ unitAbbr]
      else parts in
    let parts := parts ++ [default "" (Described.name product)] in
    let parts :=
      if truthyString (Described.subCategory product)
      then parts ++ ["(" +:+ default "" (Described.subCategory product) +:+ ")"]
      else parts in
    join " " parts
  else "".


(** ** Stock history model ([StockHistory.model.js]) *)

(** The values handed to the model: [None] is an absent key. *)
Module StockHistoryInput.
Record t : Type := mk {
  transactionId : option string;
  product : option ObjectId;
  productName : option string;
  stockQuantity : option Z;
  dateDelivered : option Date;
  totalCost : option Z;
  addedBy : option ObjectId
}.
End StockHistoryInput.

(** A stored delivery, with the two dates of [timestamps: true]. *)
Module StockHistory.
Record t : Type := mk {
  transactionId : string;
  product : ObjectId;
  productName : string;
  stockQuantity : Z;
  dateDelivered : Date;
  totalCost : Z;
  addedBy : ObjectId;
  createdAt : Date;
  updatedAt : Date
}.
End StockHistory.

Inductive SchemaError : Type :=
| ValidatorError (path message : string)
| DuplicateKey (path : string).

(** [required] on a path: with the message of the schema, or the one of the
    library when the schema gives none. *)
Definition requiredError (path : string) (message : option string)
  : SchemaError :=
  ValidatorError path
    (default ("Path `" +:+ path +:+ "` is required.") message).

(** [required] on a string path, after [trim: true]: the empty string does
    not satisfy it. *)
Definition requiredString (path : string) (v : option string)
  : list SchemaError :=
  match v with
  | Some s => if decide (trim s = "") then [requiredError path None] else []
  | None => [requiredError path None]
  end.

Definition requiredValue {A : Type} (path : string) (message : option string)
    (v : option A) : list SchemaError :=
  match v with
  | Some _ => []
  | None => [requiredError path message]
  end.

(** [min] on a number path; it does not run on an absent value. *)
Definition minNumber (path : string) (bound : Z) (message : string)
    (v : option Z) : list SchemaError :=
  match v with
  | Some n => if n <? bound then [ValidatorError path message] else []
  | None => []
  end.

(** The validators of [stockHistorySchema], path by path. *)
Definition validateStockHistory (d : StockHistoryInput.t) : list SchemaError :=
  requiredString "transactionId" (StockHistoryInput.transactionId d)
  ++ requiredValue "product" (Some "Product is required")
       (StockHistoryInput.product d)
  ++ requiredString "productName" (StockHistoryInput.productName d)
  ++ requiredValue "stockQuantity" (Some "Stock quantity is required")
       (StockHistoryInput.stockQuantity d)
  ++ minNumber "stockQuantity" 1 "Stock quantity must be at least 1"
       (StockHistoryInput.stockQuantity d)
  ++ requiredValue "dateDelivered" (Some "Date delivered is required")
       (StockHistoryInput.dateDelivered d)
  ++ requiredValue "totalCost" None (StockHistoryInput.totalCost d)
  ++ minNumber "totalCost" 0 "Total cost cannot be negative"
       (StockHistoryInput.totalCost d)
  ++ requiredValue "addedBy" None (StockHistoryInput.addedBy d).

(** [StockHistory.create(d)] on a collection: the strings are trimmed, the
    validators run, and the unique index on [transactionId] refuses an id
    that is already stored. *)
Definition createStockHistory (now : Date) (stored : list StockHistory.t)
    (d : StockHistoryInput.t)
  : list StockHistory.t * (list SchemaError + StockHistory.t) :=
  match validateStockHistory d with
  | [] =>
    match StockHistoryInput.transactionId d, StockHistoryInput.product d,
          StockHistoryInput.productName d, StockHistoryInput.stockQuantity d,
          StockHistoryInput.dateDelivered d, StockHistoryInput.totalCost d,
          StockHistoryInput.addedBy d with
    | Some transactionId, Some product, Some productName, Some stockQuantity,
      Some dateDelivered, Some totalCost, Some addedBy =>
      if bool_decide (trim transactionId
                      ∈ map StockHistory.transactionId stored)
      then (stored, inl [DuplicateKey "transactionId"])
      else
        let doc :=
          StockHistory.mk (trim transactionId) product (trim productName)
            stockQuantity dateDelivered totalCost addedBy now now in
        (stored ++ [doc], inr doc)
    | _, _, _, _, _, _, _ => (stored, inl (validateStockHistory d))
    end
  | errors => (stored, inl errors)
  end.

(** ** Profile page *)

Module Profile.

(** The user of the session as the page reads it: [None] is an absent
    field. *)
Module AuthUser.
Record t : Type := mk {
  username : option string;
  firstName : option string;
  lastName : option string;
  email : option string;
  phone : option string;
  role : option string
}.
End AuthUser.

(** The state of the component; the two forms are objects keyed by the names
    of their inputs. *)
Record State : Type := mkState {
  isEditing : bool;
  isPasswordModalOpen : bool;
  loading : bool;
  passwordLoading : bool;
  formData : gmap string string;
  passwordData : gmap string string
}.

(** What a handler does besides setting state. *)
Inductive Effect : Type :=
| Toast (message : string)
| UpdateProfile (formData : gmap string string)
| FetchUser
| ResetPassword (currentPassword newPassword : string).

(** How a call to the session context ends: with [success], with a failure
    and perhaps a message, or by throwing. *)
Inductive Outcome : Type :=
| Succeeded
| Failed (message : option string)
| Threw.

Definition emptyPasswordData : gmap string string :=
  <["currentPassword" := ""]> (<["newPassword" := ""]>
    (<["confirmPassword" := ""]> ∅)).

Definition initialState : State :=
  mkState false false false false
    (<["username" := ""]> (<["firstName" := ""]> (<["lastName" := ""]>
       (<["email" := ""]> (<["phone" := ""]> ∅)))))
    emptyPasswordData.

(** [x || ''] *)
Definition orEmpty (x : option string) : string := default "" x.

Definition formOfUser (user : AuthUser.t) : gmap string string :=
  <["username" := orEmpty (AuthUser.username user)]>
    (<["firstName" := orEmpty (AuthUser.firstName user)]>
       (<["lastName" := orEmpty (AuthUser.lastName user)]>
          (<["email" := orEmpty (AuthUser.email user)]>
             (<["phone" := orEmpty (AuthUser.phone user)]> ∅)))).

Definition setFormData (f : gmap string string) (st : State) : State :=
  mkState (isEditing st) (isPasswordModalOpen st) (loading st)
    (passwordLoading st) f (passwordData st).

Definition setPasswordData (f : gmap string string) (st : State) : State :=
  mkState (isEditing st) (isPasswordModalOpen st) (loading st)
    (passwordLoading st) (formData st) f.

(** The effect hook on [user]. *)
Definition syncUser (user : option AuthUser.t) (st : State) : State :=
  match user with
  | Some user => setFormData (formOfUser user) st
  | None => st
  end.

(** [value.replace(/\D/g, '')] *)
Definition digitsOnly (value : string) : string :=
  string_of_list_ascii (List.filter isDigit (list_ascii_of_string value)).

Definition handleInputChange (name value : string) (st : State) : State :=
  if decide (name = "phone") then
    let digitsOnly := digitsOnly value in
    if (String.length digitsOnly <=? 11)%nat
    then setFormData (<[name := digitsOnly]> (formData st)) st
    else st
  else setFormData (<[name := value]> (formData st)) st.

Definition handlePasswordChange (name value : string) (st : State) : State :=
  setPasswordData (<[name := value]> (passwordData st)) st.

(** A field of a form read as a condition: absent and empty are false. *)
Definition filled (f : gmap string string) (name : string) : bool :=
  negb (bool_decide (orEmpty (f !! name) = "")).

Definition handleSave (updateProfile fetchUser : Outcome) (st : State)
  : State * list Effect :=
  let phone := orEmpty (formData st !! "phone") in
  if filled (formData st) "phone" && (11 <? String.length phone)%nat then
    (st, [Toast "Phone number must be maximum 11 digits"])
  else if filled (formData st) "phone" && negb (allDigits phone) then
    (st, [Toast "Phone number must contain only digits"])
  else
    let called := [UpdateProfile (formData st)] in
    match updateProfile with
    | Succeeded =>
      let st := mkState false (isPasswordModalOpen st) false
                  (passwordLoading st) (formData st) (passwordData st) in
      match fetchUser with
      | Threw =>
        (st, called ++ [FetchUser;
                        Toast "An error occurred while updating profile"])
      | _ => (st, called ++ [FetchUser])
      end
    | Failed message =>
      (mkState (isEditing st) (isPasswordModalOpen st) false
         (passwordLoading st) (formData st) (passwordData st),
       called ++ [Toast (match message with
                         | Some m => if decide (m = "")
                                     then "Failed to update profile" else m
                         | None => "Failed to update profile"
                         end)])
    | Threw =>
      (mkState (isEditing st) (isPasswordModalOpen st) false
         (passwordLoading st) (formData st) (passwordData st),
       called ++ [Toast "An error occurred while updating profile"])
    end.

Definition handleCancel (user : option AuthUser.t) (st : State) : State :=
  let st := syncUser user st in
  mkState false (isPasswordModalOpen st) (loading st) (passwordLoading st)
    (formData st) (passwordData st).

Definition handleResetPassword (resetPassword : Outcome) (st : State)
  : State * list Effect :=
  let currentPassword := orEmpty (passwordData st !! "currentPassword") in
  let newPassword := orEmpty (passwordData st !! "newPassword") in
  let confirmPassword := orEmpty (passwordData st !! "confirmPassword") in
  if negb (filled (passwordData st) "currentPassword")
     || negb (filled (passwordData st) "newPassword")
     || negb (filled (passwordData st) "confirmPassword") then
    (st, [Toast "All password fields are required"])
  else if (String.length newPassword <? 8)%nat then
    (st, [Toast "New password must be at least 8 characters"])
  else if negb (bool_decide (newPassword = confirmPassword)) then
    (st, [Toast "New passwords do not match"])
  else
    let called := [ResetPassword currentPassword newPassword] in
    match resetPassword with
    | Succeeded =>
      (mkState (isEditing st) false (loading st) false (formData st)
         emptyPasswordData, called)
    | Failed message =>
      (mkState (isEditing st) (isPasswordModalOpen st) (loading st) false
         (formData st) (passwordData st),
       called ++ [Toast (match message with
                         | Some m => if decide (m = "")
                                     then "Failed to reset password" else m
                         | None => "Failed to reset password"
                         end)])
    | Threw =>
      (mkState (isEditing st) (isPasswordModalOpen st) (loading st) false
         (formData st) (passwordData st),
       called ++ [Toast "An error occurred while resetting password"])
    end.

Definition handleClosePasswordModal (st : State) : State :=
  mkState (isEditing st) false (loading st) (passwordLoading st)
    (formData st) emptyPasswordData.

End Profile.


(** ** Vocabulary of the properties *)

(** The active products, which the inventory report reads. *)
Definition activeProducts (db : DB) : list (ObjectId * Product.t) :=
  filter (λ p, Product.isActive p.2 = true) (map_to_list (products db)).

(** The active products whose category gets a bucket in [byCategory]: those
    whose category does not name a member of [Object.prototype]. *)
Definition bucketed (db : DB) : list (ObjectId * Product.t) :=
  filter (λ p, categoryOf p.2 ∉ objectPrototypeMembers) (activeProducts db).

(** What one populated item adds to the cost of goods sold, and the same
    read from the sale item before [populate]. *)
Definition itemCost (db : DB) (item : PItem.t) : Z :=
  match PItem.product item with
  | Some (productId, _) =>
    match products db !! productId with
    | Some product => orZero (Product.price product) * PItem.quantity item
    | None => 0
    end
  | None => 0
  end.

Definition lineCost (db : DB) (i : Item.t) : Z :=
  match products db !! Item.product i with
  | Some product => orZero (Product.price product) * Item.quantity i
  | None => 0
  end.

Section ReportVocabulary.
Context `{DocumentSort}.
Variables (localOffset : Z) (TZ : option string).
Variable dateToString : string → string → Date → string.

(** The sales a report over the two dates counts, and the ones it lists. *)
Definition matchedSales (db : DB) (startDate endDate : Date) : list Sale.t :=
  filter (λ s, matchSale startDate (setHoursEndOfDay localOffset endDate) s)
    (sales db).

Definition listedSales (db : DB) (startDate endDate : Date) : list Sale.t :=
  take 100 (sortDocs createdAtDesc (matchedSales db startDate endDate)).

Definition listedCost (db : DB) (startDate endDate : Date) : Z :=
  sumZ (map (λ s, sumZ (map (lineCost db) (Sale.items s)))
          (listedSales db startDate endDate)).

Definition dayOf (s : Sale.t) : string :=
  dateToString "%Y-%m-%d" (timezone TZ) (Sale.createdAt s).

End ReportVocabulary.


(** The last entry of the history holds the price and markup in effect. *)
Definition historyUpToDate (p : Product.t) : Prop :=
  ∃ e, last (Product.pricingHistory p) = Some e
       ∧ PricingEntry.basePrice e = effectivePrice p
       ∧ PricingEntry.markupPercentage e = effectiveMarkup p.

(** The price an update asks for: the one of the body, [0] for a blank one,
    the current one when the body has none. *)
Definition requested (f : Field) (current : Z) : Z :=
  match f with
  | Missing => current
  | Blank => 0
  | Val z => z
  end.

(** The supplier check of [updateProduct]. *)
Definition supplierKnown (db : DB) (body : Body.t) : bool :=
  match Body.supplier body with
  | Some s => bool_decide (s ∈ suppliers db)
  | None => true
  end.

(** The product an update stores. *)
Definition updated (now : Date) (body : Body.t) (p : Product.t) : Product.t :=
  applyBody
    (if negb (requested (Body.price body) (effectivePrice p)
              =? effectivePrice p)
        || negb (requested (Body.markupPercentage body) (effectiveMarkup p)
                 =? effectiveMarkup p)
     then
       Body.setPricingHistory
         (match Product.pricingHistory p with
          | [] => [PricingEntry.mk (effectivePrice p) (effectiveMarkup p)
                     (default now (Product.createdAt p))]
          | h => h
          end
          ++ [PricingEntry.mk
                (requested (Body.price body) (effectivePrice p))
                (requested (Body.markupPercentage body) (effectiveMarkup p))
                now])
         body
     else body) p.

(** The stock history a collection may hold under the schema: no two
    deliveries with one [transactionId], no empty id or product name, at
    least one unit delivered, no negative cost. *)
Definition schemaHolds (stored : list StockHistory.t) : Prop :=
  NoDup (map StockHistory.transactionId stored)
  ∧ Forall (λ h, StockHistory.transactionId h ≠ ""
                 ∧ StockHistory.productName h ≠ ""
                 ∧ 1 ≤ StockHistory.stockQuantity h
                 ∧ 0 ≤ StockHistory.totalCost h) stored.

(** What the create route takes for an ObjectId: 24 characters that are
    hexadecimal digits, the first two of which may also be [0x] or [0h], in
    either case. *)
Definition mongoId (s : string) : Prop :=
  String.length s = 24%nat
  ∧ (forallb isHexDigit (list_ascii_of_string s)
     ∨ ∃ c rest,
         s = String "0" (String c rest)
         ∧ c ∈ ["x"; "X"; "h"; "H"]%char
         ∧ forallb isHexDigit (list_ascii_of_string rest)).

(** A phone number the profile form accepts: at most 11 characters, all of
    them digits.  A form has a valid phone when its [phone], if any, is
    one. *)
Definition phoneNumber (phone : string) : Prop :=
  (String.length phone ≤ 11)%nat
  ∧ forallb isDigit (list_ascii_of_string phone).

Definition validPhone (formData : gmap string string) : Prop :=
  ∀ phone, formData !! "phone" = Some phone → phoneNumber phone.

(** The changes a user types into the profile form, one after the other. *)
Definition typeAll (changes : list (string * string)) (st : Profile.State)
  : Profile.State :=
  fold_left (λ st change, Profile.handleInputChange change.1 change.2 st)
    changes st.

(** The range of the sales report as the design document words it: from the
    start of the day of [startDate] to the end of the day of [endDate], the
    days being read at the offset [dayOffset] from UTC. *)
Definition startOfDay (dayOffset : Z) (t : Date) : Date :=
  (t + dayOffset) `div` msPerDay * msPerDay - dayOffset.

Definition documentedSales (dayOffset : Z) (db : DB)
    (startDate endDate : Date) : list Sale.t :=
  filter (λ s, matchSale (startOfDay dayOffset startDate)
                 (setHoursEndOfDay dayOffset endDate) s) (sales db).

(** The cost of goods sold as the design document words it: over every line
    item of every sale of the range that is not void. *)
Definition documentedCOGS (localOffset : Z) (db : DB)
    (startDate endDate : Date) : Z :=
  sumZ (map (λ s, sumZ (map (lineCost db) (Sale.items s)))
          (matchedSales localOffset db startDate endDate)).


(** ** Sample data *)

(** A sample [$dateToString] for the three formats of the reports, with
    Manila at UTC+8 and any other zone read as UTC. *)
Definition civilFromDays (z : Z) : Z * Z * Z :=
  let z := z + 719468 in
  let era := z `div` 146097 in
  let doe := z - era * 146097 in
  let yoe :=
    (doe - doe `div` 1460 + doe `div` 36524 - doe `div` 146096) `div` 365 in
  let doy := doe - (365 * yoe + yoe `div` 4 - yoe `div` 100) in
  let mp := (5 * doy + 2) `div` 153 in
  let d := doy - (153 * mp + 2) `div` 5 + 1 in
  let m := if mp <? 10 then mp + 3 else mp - 9 in
  (if m <=? 2 then yoe + era * 400 + 1 else yoe + era * 400, m, d).

Definition daysFromCivil (y m d : Z) : Z :=
  let y := if m <=? 2 then y - 1 else y in
  let era := y `div` 400 in
  let yoe := y - era * 400 in
  let doy := (153 * (if 2 <? m then m - 3 else m + 9) + 2) `div` 5 + d - 1 in
  era * 146097 + (yoe * 365 + yoe `div` 4 - yoe `div` 100 + doy) - 719468.

Definition twoDigits (n : Z) : string :=
  if n <? 10 then "0" +:+ pretty n else pretty n.

Definition sampleDateToString (format timezone : string) (t : Date) : string :=
  let offset := if decide (timezone = "Asia/Manila") then 28800000 else 0 in
  let days := (t + offset) `div` msPerDay in
  let '(y, m, d) := civilFromDays days in
  let yday := days - daysFromCivil y 1 1 in
  let wday := (days + 4) `mod` 7 in
  if decide (format = "%Y-%m-%d")
  then pretty y +:+ "-" +:+ twoDigits m +:+ "-" +:+ twoDigits d
  else if decide (format = "%Y-%m") then pretty y +:+ "-" +:+ twoDigits m
  else if decide (format = "%Y-%U")
  then pretty y +:+ "-" +:+ twoDigits ((yday + 7 - wday) `div` 7)
  else format.

(** 2024-01-15T00:00:00Z, the instant of [new Date('2024-01-15')]. *)
Definition jan15 : Date := 1705276800000.
Definition hour : Z := 3600000.
Definition manilaOffset : Z := 28800000.

Definition hammer : Product.t :=
  Product.mk "Hammer" (Some "Tools") 7 (Some 100) (Some 20) 7 5 true
    [PricingEntry.mk 100 20 0] (Some 0).
Definition nails : Product.t :=
  Product.mk "Nails" None 7 (Some 5) (Some 20) 0 10 true
    [PricingEntry.mk 5 20 0] (Some 0).
Definition oldSaw : Product.t :=
  Product.mk "Saw" (Some "Tools") 7 (Some 80) (Some 10) 2 5 false [] None.

Definition shopProducts : gmap ObjectId Product.t :=
  <[1%N := hammer]> (<[2%N := nails]> (<[3%N := oldSaw]> ∅)).

Definition shopSales : list Sale.t :=
  [Sale.mk "S-1" [Item.mk 1 3 120 360] 0 0 360 9 false (jan15 + hour);
   Sale.mk "S-2" [Item.mk 2 5 6 30; Item.mk 1 2 120 240] 0 10 280 9 false
     (jan15 + 2 * hour);
   Sale.mk "S-3" [Item.mk 1 1 120 120] 0 0 120 9 true (jan15 + 3 * hour);
   Sale.mk "S-4" [Item.mk 2 4 6 24] 0 0 24 9 false (jan15 + 30 * hour)].

Definition shopDB : DB := mkDB shopProducts {[7%N]} shopSales.

Definition jan15Query : Query.t :=
  Query.mk (Some jan15) (Some jan15) None None.

(** A sale made at 07:00 on 15 January in Manila, and one made at 20:00 UTC
    that day. *)
Definition earlySale : Sale.t :=
  Sale.mk "S-0" [Item.mk 1 3 120 360] 0 0 360 9 false (jan15 - hour).

Definition lateSale : Sale.t :=
  Sale.mk "S-5" [Item.mk 2 4 6 24] 0 0 24 9 false (jan15 + 20 * hour).

Definition earlyDB : DB := mkDB shopProducts {[7%N]} [earlySale; lateSale].

(** A day with 101 sales of one nail each, a minute apart. *)
Definition busySales : list Sale.t :=
  map (λ k, Sale.mk ("B-" +:+ pretty k) [Item.mk 2 1 6 6] 0 0 6 9 false
              (jan15 + k * 60000))
    (seqZ 0 101).

Definition busyDB : DB := mkDB shopProducts {[7%N]} busySales.

(** A shop whose only sale of the day was voided and whose only product is
    inactive. *)
Definition quietDB : DB :=
  mkDB {[3%N := oldSaw]} {[7%N]}
    [Sale.mk "S-3" [Item.mk 1 1 120 120] 0 0 120 9 true (jan15 + 3 * hour);
     Sale.mk "S-4" [Item.mk 2 4 6 24] 0 0 24 9 false (jan15 + 30 * hour)].

(** A body that repeats the hammer's price and markup and carries an empty
    [pricingHistory]. *)
Definition sameValuesBody : Body.t :=
  Body.mk None None None (Val 100) (Val 20) None None None (Some []).

Definition raisePriceBody : Body.t :=
  Body.mk None None None (Val 150) Missing None None None None.

(** A void request of an actor with the given role. *)
Definition voidRequest (role : string) (code : option string) : Req.t :=
  Req.mk (Some (User.mk 9 role))
    (SaleBody.mk None None None None None None None code).

(** Two lines of four hammers against a stock of seven. *)
Definition twoLinesOfHammers : SaleEngine.SaleRequest.t :=
  SaleEngine.SaleRequest.mk
    [SaleEngine.Line.mk 1 4; SaleEngine.Line.mk 1 4] 0 0 9.


(** The values the product schema gives to absent keys, and the body of a
    new product of the shop's supplier. *)
Definition sampleSchemaDefault : Product.t :=
  Product.mk "" None 0 None None 0 10 true [] None.

Definition chiselBody : Body.t :=
  Body.mk (Some 7%N) (Some "Chisel") (Some "Tools") (Val 60) (Val 25)
    (Some 4) None None None.

(** A query with a flag that is not spelled 'true'. *)
Definition yesQuery : ProductQuery.t :=
  ProductQuery.mk None None (Some "yes") (Some "yes").

(** A sale that was voided. *)
Definition voidedSale : Sale.t :=
  Sale.mk "S-6" [Item.mk 1 2 120 240] 0 0 240 9 true (jan15 + 4 * hour).

(** A delivery of nails, its id typed with blanks around it, and the same id
    typed without. *)
Definition nailsDelivery : StockHistoryInput.t :=
  StockHistoryInput.mk (Some " T-1 ") (Some 2%N) (Some "Nails") (Some 50)
    (Some jan15) (Some 200) (Some 9%N).

Definition sameIdDelivery : StockHistoryInput.t :=
  StockHistoryInput.mk (Some "T-1") (Some 1%N) (Some "Hammer") (Some 5)
    (Some jan15) (Some 400) (Some 9%N).

(** What a user types into the profile form: a first name, a phone with
    dashes and a blank, and a phone of 15 digits. *)
Definition typedChanges : list (string * string) :=
  [("firstName", "Ana"); ("phone", "0917-555 1234");
   ("phone", "091755512345678")].

(** The state of the password modal with the three fields typed. *)
Definition typedPasswords (confirmPassword : string) : Profile.State :=
  Profile.mkState false true false false ∅
    (<["currentPassword" := "old-secret"]>
       (<["newPassword" := "new-secret"]>
          (<["confirmPassword" := confirmPassword]> ∅))).

(** A sale body of one hammer paid in cash, with the phone given. *)
Definition cashSale (phone : string) : SaleBody.t :=
  SaleBody.mk (Some "Ana") None (Some phone)
    (Some [ItemBody.mk "65a4b0c2d3e4f5a6b7c8d9e0" (Some 1)]) (Some "cash")
    None None None.


(** A bag of cement as the product form describes it. *)
Definition cement : Described.t :=
  Described.mk (Some "Cement") (Some 5) (Some "Kilogram") (Some "Bag").

(** A body for a product of a supplier the shop does not know. *)
Definition strangerBody : Body.t :=
  Body.mk (Some 8%N) (Some "Drill") None (Val 900) Missing None None None None.


(** The user of the session. *)
Definition ana : Profile.AuthUser.t :=
  Profile.AuthUser.mk (Some "ana") (Some "Ana") (Some "Cruz") None
    (Some "+63 917 555 1234") (Some "staff").


(** A shop with a product whose category is the word "constructor". *)
Definition gear : Product.t :=
  Product.mk "Gear" (Some "constructor") 7 (Some 10) (Some 20) 1 0 true
    [PricingEntry.mk 10 20 0] (Some 0).

Definition gearShopDB : DB :=
  mkDB (<[1%N := hammer]> (<[4%N := gear]> ∅)) {[7%N]} [].





(** The same sale with the product id written [0x] and 22 digits. *)
Definition prefixedSale : SaleBody.t :=
  SaleBody.mk (Some "Ana") None None
    (Some [ItemBody.mk "0x65a4b0c2d3e4f5a6b7c8d9" (Some 1)]) (Some "cash")
    None None None.


(** * Properties *)

(** ** Sums, groups and sorts *)


Lemma fold_left_add {A : Type} (f : A → Z) (l : list A) (a : Z) :
  fold_left (λ acc x, acc + f x) l a = a + sumZ (map f l).
Proof.
  revert a. induction l as [|x l IH]; intros a; simpl; [lia|].
  rewrite IH. lia.
Qed.

Lemma sumZ_perm (l1 l2 : list Z) : l1 ≡ₚ l2 → sumZ l1 = sumZ l2.
Proof. induction 1; simpl; lia. Qed.

Lemma fold_left_pointwise {A B : Type} (f g : A → B → A) (l : list B) (a : A) :
  (∀ a x, f a x = g a x) → fold_left f l a = fold_left g l a.
Proof.
  intros Hfg. revert a. induction l as [|x l IH]; intros a; simpl; [done|].
  by rewrite Hfg, IH.
Qed.

Section Group.
Context {K D A : Type} `{Countable K}.
Variables (key : D → K) (init : A) (step : A → D → A).

Lemma group_from_lookup (docs : list D) (g : gmap K A) (k : K) :
  fold_left (λ g d, <[key d := step (default init (g !! key d)) d]> g) docs g
    !! k
  = match filter (λ d, key d = k) docs with
    | [] => g !! k
    | ds => Some (fold_left step ds (default init (g !! k)))
    end.
Proof.
  revert g. induction docs as [|d docs IH]; intros g; [done|].
  simpl fold_left. rewrite IH. rewrite filter_cons.
  destruct (decide (key d = k)) as [<-|Hne].
  - rewrite lookup_insert_eq. simpl.
    by destruct (filter (λ d0, key d0 = key d) docs).
  - by rewrite lookup_insert_ne.
Qed.

(** A group exists exactly for the keys that occur, and its accumulator has
    seen the documents of the key in their order. *)
Lemma group_lookup (docs : list D) (k : K) :
  group key init step docs !! k
  = match filter (λ d, key d = k) docs with
    | [] => None
    | ds => Some (fold_left step ds init)
    end.
Proof. unfold group. rewrite group_from_lookup. by rewrite lookup_empty. Qed.

Lemma group_nil : group key init step [] = ∅.
Proof. done. Qed.
End Group.

Lemma filter_all {A : Type} (P : A → Prop) `{∀ x, Decision (P x)}
    (l : list A) :
  (∀ x, P x) → filter P l = l.
Proof.
  intros HP. induction l as [|x l IH]; [done|].
  rewrite filter_cons, decide_True by done. by rewrite IH.
Qed.

Lemma filter_all_elem {A : Type} (P : A → Prop) `{∀ x, Decision (P x)}
    (l : list A) :
  (∀ x, x ∈ l → P x) → filter P l = l.
Proof.
  intros HP. induction l as [|x l IH]; [done|].
  rewrite filter_cons, decide_True by (apply HP, list_elem_of_here).
  rewrite IH; [done|]. intros y Hy. by apply HP, list_elem_of_further.
Qed.

Lemma filter_none {A : Type} (P : A → Prop) `{∀ x, Decision (P x)}
    (l : list A) :
  (∀ x, x ∈ l → ¬ P x) → filter P l = [].
Proof.
  intros HP. induction l as [|x l IH]; [done|].
  rewrite filter_cons, decide_False by (apply HP, list_elem_of_here).
  apply IH. intros ??. apply HP. by apply list_elem_of_further.
Qed.

Lemma sumZ_ones {A : Type} (l : list A) :
  sumZ (map (λ _, 1) l) = Z.of_nat (length l).
Proof. induction l as [|x l IH]; [done|]. cbn [map sumZ foldr length].
  fold (sumZ (map (λ _ : A, 1) l)). lia. Qed.

(** The accumulators of [$group] add up to the sum over the documents. *)
Section GroupSum.
Context {K D A : Type} `{Countable K}.
Variables (key : D → K) (init : A) (step : A → D → A).
Variables (measure : A → Z) (weight : D → Z).
Hypothesis measure_init : measure init = 0.
Hypothesis measure_step : ∀ a d, measure (step a d) = measure a + weight d.

Lemma measure_insert (g : gmap K A) (k : K) (d : D) :
  sumZ (map (λ kv, measure kv.2)
          (map_to_list (<[k := step (default init (g !! k)) d]> g)))
  = sumZ (map (λ kv, measure kv.2) (map_to_list g)) + weight d.
Proof.
  destruct (g !! k) as [a|] eqn:Hk.
  - rewrite <- insert_delete_eq.
    rewrite (sumZ_perm _ _ (Permutation_map _
               (map_to_list_insert (delete k g) k _ (lookup_delete_eq g k)))).
    rewrite <- (sumZ_perm _ _ (Permutation_map _
               (map_to_list_delete g k a Hk))).
    cbn [map sumZ foldr snd default id]. rewrite measure_step. lia.
  - rewrite (sumZ_perm _ _ (Permutation_map _
               (map_to_list_insert g k _ Hk))).
    cbn [map sumZ foldr snd default].
    rewrite measure_step, measure_init.
    fold (sumZ (map (λ kv : K * A, measure kv.2) (map_to_list g))). lia.
Qed.

(** The groups split the documents: a measure that adds up along the
    accumulators adds up, over all groups, to the total over the
    documents. *)
Lemma group_sum (docs : list D) :
  sumZ (map (λ kv, measure kv.2) (map_to_list (group key init step docs)))
  = sumZ (map weight docs).
Proof.
  unfold group.
  assert (∀ g : gmap K A,
    sumZ (map (λ kv, measure kv.2)
            (map_to_list
               (fold_left
                  (λ g d, <[key d := step (default init (g !! key d)) d]> g)
                  docs g)))
    = sumZ (map (λ kv, measure kv.2) (map_to_list g))
      + sumZ (map weight docs)) as Hfrom.
  { induction docs as [|d docs IH]; intros g; [simpl; lia|].
    simpl fold_left. rewrite IH, measure_insert. cbn [map sumZ foldr].
    fold (sumZ (map weight docs)). lia. }
  rewrite Hfrom, map_to_list_empty. simpl. lia.
Qed.
End GroupSum.

(** A loop that skips some of its elements is the loop over the others. *)
Lemma fold_left_skip {A B : Type} (skip : B → Prop)
    `{∀ x, Decision (skip x)} (f : A → B → A) (l : list B) (a : A) :
  fold_left (λ a x, if bool_decide (skip x) then a else f a x) l a
  = fold_left f (filter (λ x, ¬ skip x) l) a.
Proof.
  revert a. induction l as [|x l IH]; intros a; [done|].
  cbn [fold_left]. rewrite filter_cons. case_bool_decide as Hx.
  - rewrite decide_False by tauto. apply IH.
  - rewrite decide_True by done. cbn [fold_left]. apply IH.
Qed.

Lemma stringLe_total (x y : string) : String.leb x y ∨ String.leb y x.
Proof. destruct (String.leb_total x y) as [->| ->]; auto. Qed.

Lemma stringLe_trans (x y z : string) :
  String.leb x y → String.leb y z → String.leb x z.
Proof. intros Hxy Hyz. exact (transitivity (R := String.le) Hxy Hyz). Qed.

Lemma filter_perm_length {A : Type} (P : A → Prop) `{∀ x, Decision (P x)}
    (l1 l2 : list A) :
  l1 ≡ₚ l2 → length (filter P l1) = length (filter P l2).
Proof. intros Hp. apply Permutation_length. by rewrite Hp. Qed.

Lemma filter_perm_sum {A : Type} (P : A → Prop) `{∀ x, Decision (P x)}
    (f : A → Z) (l1 l2 : list A) :
  l1 ≡ₚ l2 → sumZ (map f (filter P l1)) = sumZ (map f (filter P l2)).
Proof. intros Hp. apply sumZ_perm. by rewrite Hp. Qed.

(** ** The inventory report *)

Lemma elem_of_activeProducts (db : DB) (id : ObjectId) (p : Product.t) :
  (id, p) ∈ activeProducts db
  ↔ products db !! id = Some p ∧ Product.isActive p = true.
Proof.
  unfold activeProducts. rewrite list_elem_of_filter, elem_of_map_to_list.
  simpl. tauto.
Qed.

Lemma NoDup_activeProducts (db : DB) : NoDup (activeProducts db).
Proof. apply NoDup_filter, NoDup_map_to_list. Qed.

Lemma byCategory_step (m : gmap string CategoryBucket.t) (c : string)
    (f : CategoryBucket.t → CategoryBucket.t) (z : CategoryBucket.t) :
  alter f c (match m !! c with
             | None => <[c := z]> m
             | Some _ => m
             end)
  = <[c := f (default z (m !! c))]> m.
Proof.
  apply map_eq. intros i. destruct (decide (c = i)) as [<-|Hne].
  - rewrite lookup_insert_eq. destruct (m !! c) as [b|] eqn:Hc; simpl.
    + by rewrite lookup_alter_eq, Hc.
    + by rewrite lookup_alter_eq, lookup_insert_eq.
  - rewrite lookup_insert_ne by done. rewrite lookup_alter_ne by done.
    destruct (m !! c); [done|]. by rewrite lookup_insert_ne.
Qed.

Lemma categoryBucket_fold (ds : list (ObjectId * Product.t))
    (b : CategoryBucket.t) :
  fold_left (λ b p, CategoryBucket.mk (CategoryBucket.count b + 1)
                      (CategoryBucket.totalValue b + stockValue p.2)) ds b
  = CategoryBucket.mk (CategoryBucket.count b + Z.of_nat (length ds))
      (CategoryBucket.totalValue b + sumZ (map (λ p, stockValue p.2) ds)).
Proof.
  revert b. induction ds as [|d ds IH]; intros [c v]; simpl fold_left.
  - simpl. f_equal; lia.
  - rewrite IH. cbn [CategoryBucket.count CategoryBucket.totalValue length map].
    unfold sumZ; cbn [foldr]. f_equal; lia.
Qed.

(** The loop that fills [byCategory], as a [$group]-like fold over the
    products that get a bucket. *)
Lemma byCategory_fold (products : list (ObjectId * Product.t)) :
  fold_left (λ (byCategory : gmap string CategoryBucket.t)
               (product : ObjectId * Product.t),
      let category := categoryOf product.2 in
      if bool_decide (category ∈ objectPrototypeMembers) then byCategory
      else
        let byCategory :=
          match byCategory !! category with
          | None => <[category := CategoryBucket.mk 0 0]> byCategory
          | Some _ => byCategory
          end in
        alter (λ b, CategoryBucket.mk (CategoryBucket.count b + 1)
                      (CategoryBucket.totalValue b + stockValue product.2))
          category byCategory) products ∅
  = group (λ p : ObjectId * Product.t, categoryOf p.2) (CategoryBucket.mk 0 0)
      (λ b p, CategoryBucket.mk (CategoryBucket.count b + 1)
                (CategoryBucket.totalValue b + stockValue p.2))
      (filter (λ p, categoryOf p.2 ∉ objectPrototypeMembers) products).
Proof.
  cbv zeta.
  rewrite (fold_left_skip
             (λ p : ObjectId * Product.t,
                categoryOf p.2 ∈ objectPrototypeMembers)
             (λ (g : gmap string CategoryBucket.t) (p : ObjectId * Product.t),
                alter (λ b, CategoryBucket.mk (CategoryBucket.count b + 1)
                              (CategoryBucket.totalValue b + stockValue p.2))
                  (categoryOf p.2)
                  (match g !! categoryOf p.2 with
                   | None => <[categoryOf p.2 := CategoryBucket.mk 0 0]> g
                   | Some _ => g
                   end))).
  unfold group. apply fold_left_pointwise. intros g p.
  apply byCategory_step.
Qed.

(** What the inventory report holds.  It always answers, and it reads the
    active products only: [data] lists them, [totalProducts] counts them,
    [totalStockValue] is the sum of price times stock over them, the
    low-stock rows are the active products with stock at or below their
    threshold, the out-of-stock rows those with stock 0.  [byCategory] has
    one bucket per category in use that does not name a member of
    [Object.prototype], with the count and the value of its products, a
    product without category (absent or empty) counting under
    "Uncategorized"; a category that names such a member has no bucket. *)
Lemma inventory_report_over_active_products `{DocumentSort} (db : DB) :
  ∃ r, getInventoryReport db = Ok r
    ∧ InventoryReport.data r ≡ₚ activeProducts db
    ∧ (∀ id p, (id, p) ∈ InventoryReport.data r
               ↔ products db !! id = Some p ∧ Product.isActive p = true)
    ∧ InventoryReport.totalProducts r = length (activeProducts db)
    ∧ InventoryReport.totalStockValue r
      = sumZ (map (λ p, orZero (Product.price p.2) * Product.stockQuantity p.2)
                (activeProducts db))
    ∧ NoDup (InventoryReport.lowStockProducts r)
    ∧ (∀ id p, (id, p) ∈ InventoryReport.lowStockProducts r
               ↔ products db !! id = Some p ∧ Product.isActive p = true
                 ∧ Product.stockQuantity p ≤ Product.lowStockThreshold p)
    ∧ InventoryReport.lowStockCount r
      = length (InventoryReport.lowStockProducts r)
    ∧ NoDup (InventoryReport.outOfStockProducts r)
    ∧ (∀ id p, (id, p) ∈ InventoryReport.outOfStockProducts r
               ↔ products db !! id = Some p ∧ Product.isActive p = true
                 ∧ Product.stockQuantity p = 0)
    ∧ InventoryReport.outOfStockCount r
      = length (InventoryReport.outOfStockProducts r)
    ∧ (∀ c, InventoryReport.byCategory r !! c
            = if bool_decide (c ∈ objectPrototypeMembers) then None
              else
                match filter (λ p, categoryOf p.2 = c) (activeProducts db) with
                | [] => None
                | ps => Some (CategoryBucket.mk (Z.of_nat (length ps))
                                (sumZ (map (λ p, stockValue p.2) ps)))
                end)
    ∧ (∀ p, Product.category p = None ∨ Product.category p = Some ""
            → categoryOf p = "Uncategorized").
Proof.
  unfold getInventoryReport. rewrite byCategory_fold. cbv zeta.
  fold (activeProducts db).
  set (sorted := sortDocs categoryNameLe (activeProducts db)).
  assert (sorted ≡ₚ activeProducts db) as Hperm by apply sortDocs_perm.
  assert (NoDup sorted) as Hnd.
  { rewrite Hperm. apply NoDup_activeProducts. }
  eexists. split; [reflexivity|].
  cbn [InventoryReport.data InventoryReport.totalProducts
       InventoryReport.totalStockValue InventoryReport.lowStockCount
       InventoryReport.outOfStockCount InventoryReport.byCategory
       InventoryReport.lowStockProducts InventoryReport.outOfStockProducts].
  split_and!.
  - done.
  - intros id p. rewrite Hperm. apply elem_of_activeProducts.
  - by rewrite Hperm.
  - rewrite fold_left_add, Z.add_0_l. apply sumZ_perm. by rewrite Hperm.
  - by apply NoDup_filter.
  - intros id p. rewrite list_elem_of_filter, Hperm, elem_of_activeProducts.
    simpl. tauto.
  - done.
  - by apply NoDup_filter.
  - intros id p. rewrite list_elem_of_filter, Hperm, elem_of_activeProducts.
    simpl. tauto.
  - done.
  - intros c. rewrite group_lookup, list_filter_filter.
    case_bool_decide as Hc.
    + rewrite filter_none; [done|]. intros p _ [<- Hp]. done.
    + rewrite (list_filter_iff _ (λ p : ObjectId * Product.t,
                                    categoryOf p.2 = c))
        by (intros p; split; [tauto|]; intros <-; tauto).
      pose proof (filter_perm_length
        (λ p : ObjectId * Product.t, categoryOf p.2 = c) _ _ Hperm) as Hlen.
      pose proof (filter_perm_sum
        (λ p : ObjectId * Product.t, categoryOf p.2 = c)
        (λ p, stockValue p.2) _ _ Hperm) as Hsum.
      destruct (filter _ sorted) as [|d ds] eqn:Hs;
        destruct (filter _ (activeProducts db)) as [|d' ds'] eqn:Ha;
        try done.
      rewrite categoryBucket_fold.
      cbn [CategoryBucket.count CategoryBucket.totalValue default].
      rewrite Hlen, Hsum. f_equal.
  - intros p [Hc|Hc]; unfold categoryOf; rewrite Hc; [done|].
    by rewrite decide_True.
Qed.

(** The inventory of the sample shop: the hammers are worth 700, the nails
    are out of stock and have no category. *)
Lemma inventory_report_of_sample_shop :
  ∃ r,
    getInventoryReport (H := storedOrder) shopDB = Ok r
    ∧ InventoryReport.data r ≡ₚ activeProducts shopDB
    ∧ InventoryReport.totalProducts r = 2%nat
    ∧ InventoryReport.totalStockValue r = 700
    ∧ InventoryReport.lowStockProducts r = [(2%N, nails)]
    ∧ InventoryReport.outOfStockProducts r = [(2%N, nails)]
    ∧ InventoryReport.byCategory r !! "Tools" = Some (CategoryBucket.mk 1 700)
    ∧ InventoryReport.byCategory r !! "Uncategorized"
      = Some (CategoryBucket.mk 1 0).
Proof.
  destruct (inventory_report_over_active_products (H := storedOrder) shopDB)
    as (r & Hr & Hdata & _).
  exists r. split_and!; [done..| | | | | |];
    vm_compute in Hr; injection Hr as <-; by vm_compute.
Defined.

Lemma byCategory_counts `{DocumentSort} (db : DB) (r : InventoryReport.t) :
  getInventoryReport db = Ok r →
  sumZ (map (λ kv, CategoryBucket.count kv.2)
          (map_to_list (InventoryReport.byCategory r)))
  = Z.of_nat (length (bucketed db)).
Proof.
  unfold getInventoryReport. rewrite byCategory_fold. cbv zeta.
  intros [= <-]. cbn [InventoryReport.byCategory].
  rewrite (group_sum _ _ _ CategoryBucket.count (λ _, 1)) by done.
  rewrite sumZ_ones. f_equal. unfold bucketed.
  apply Permutation_length.
  apply (filter_Permutation
           (λ p : ObjectId * Product.t,
              categoryOf p.2 ∉ objectPrototypeMembers)).
  apply sortDocs_perm.
Qed.

(** C7, the code on a category that names a member of [Object.prototype].
    The report covers the active products, and [totalProducts] counts each of
    them; but an active product whose category is such a name ("constructor",
    "toString", "__proto__", ...) is placed in no bucket of the per-category
    rollup: [byCategory] has no entry for its category, and the counts of the
    buckets add up to less than [totalProducts]. *)
Theorem inventory_rollup_skips_object_member_categories `{DocumentSort}
    (db : DB) (id : ObjectId) (p : Product.t) :
  products db !! id = Some p → Product.isActive p = true →
  categoryOf p ∈ objectPrototypeMembers →
  ∃ r,
    getInventoryReport db = Ok r
    ∧ (id, p) ∈ InventoryReport.data r
    ∧ InventoryReport.totalProducts r = length (activeProducts db)
    ∧ InventoryReport.byCategory r !! categoryOf p = None
    ∧ sumZ (map (λ kv, CategoryBucket.count kv.2)
              (map_to_list (InventoryReport.byCategory r)))
      < Z.of_nat (InventoryReport.totalProducts r).
Proof.
  intros Hp Hactive Hmember.
  destruct (inventory_report_over_active_products db)
    as (r & Hr & _ & Hdata & Htotal & _ & _ & _ & _ & _ & _ & _ & Hbucket & _).
  exists r. split_and!; [done| |done| |].
  - by apply Hdata.
  - rewrite Hbucket. by rewrite bool_decide_eq_true_2.
  - rewrite (byCategory_counts db r Hr), Htotal. unfold bucketed.
    apply inj_lt.
    apply (length_filter_lt _ _ (id, p)); [|by intros Hno; apply Hno].
    by apply elem_of_activeProducts.
Qed.

(** The shop with the gear: two active products worth 710, one bucket of one
    product worth 700, and none for the category of the gear. *)
Lemma inventory_report_of_gear_shop :
  ∃ r,
    getInventoryReport (H := storedOrder) gearShopDB = Ok r
    ∧ InventoryReport.totalProducts r = 2%nat
    ∧ InventoryReport.totalStockValue r = 710
    ∧ map_to_list (InventoryReport.byCategory r)
      = [("Tools", CategoryBucket.mk 1 700)]
    ∧ InventoryReport.byCategory r !! "constructor" = None.
Proof.
  destruct (inventory_rollup_skips_object_member_categories
              (H := storedOrder) gearShopDB 4 gear eq_refl eq_refl)
    as (r & Hr & _ & _ & Hnone & _).
  { apply list_elem_of_here. }
  exists r. split_and!; [done| | | |done];
    vm_compute in Hr; injection Hr as <-; by vm_compute.
Defined.

(** ** The sales report *)

(** [$group] with [_id: null]: no document when nothing matched, one
    otherwise. *)
Lemma group_null {D A : Type} (init : A) (step : A → D → A) (docs : list D) :
  map_to_list (group (λ _ : D, ()) init step docs)
  = match docs with
    | [] => []
    | _ => [((), fold_left step docs init)]
    end.
Proof.
  pose proof (group_lookup (λ _ : D, ()) init step docs ()) as Hg.
  rewrite filter_all in Hg by done. destruct docs as [|d docs].
  - apply map_to_list_empty.
  - rewrite <- map_to_list_singleton. f_equal.
    apply map_eq. intros []. by rewrite Hg, lookup_singleton_eq.
Qed.

Lemma summary_fold (ds : list Sale.t) (a : Summary.t) :
  fold_left (λ a s, Summary.mk (Summary.totalSales a + 1)
                      (Summary.totalRevenue a + Sale.total s)
                      (Summary.totalVAT a + Sale.tax s)) ds a
  = Summary.mk (Summary.totalSales a + Z.of_nat (length ds))
      (Summary.totalRevenue a + sumZ (map Sale.total ds))
      (Summary.totalVAT a + sumZ (map Sale.tax ds)).
Proof.
  revert a. induction ds as [|d ds IH]; intros [n r v]; simpl fold_left.
  - simpl. f_equal; lia.
  - rewrite IH.
    cbn [Summary.totalSales Summary.totalRevenue Summary.totalVAT length map].
    unfold sumZ; cbn [foldr]. f_equal; lia.
Qed.

Lemma dayBucket_fold (ds : list Sale.t) (a : DayBucket.t) :
  fold_left (λ a s, DayBucket.mk (DayBucket.count a + 1)
                      (DayBucket.revenue a + Sale.total s)) ds a
  = DayBucket.mk (DayBucket.count a + Z.of_nat (length ds))
      (DayBucket.revenue a + sumZ (map Sale.total ds)).
Proof.
  revert a. induction ds as [|d ds IH]; intros [n r]; simpl fold_left.
  - simpl. f_equal; lia.
  - rewrite IH. cbn [DayBucket.count DayBucket.revenue length map].
    unfold sumZ; cbn [foldr]. f_equal; lia.
Qed.

(** Filling an object from rows with distinct keys gives the map of the
    rows. *)
Lemma fill_object {V : Type} (l : list (string * V)) :
  NoDup l.*1 →
  fold_left (λ (o : gmap string V) item, <[item.1 := item.2]> o) l ∅
  = list_to_map l.
Proof.
  induction l as [|[k v] l IH] using rev_ind; intros Hnd; [done|].
  rewrite fold_left_app. simpl.
  rewrite fmap_app in Hnd. apply NoDup_app in Hnd as (Hl & Hk & _).
  rewrite IH by done. symmetry. apply list_to_map_snoc.
  intros Hin. apply (Hk k Hin). simpl. apply list_elem_of_here.
Qed.

Lemma sorted_rows_object `{DocumentSort} {V : Type}
    (le : string * V → string * V → bool) (g : gmap string V) :
  fold_left (λ (o : gmap string V) item, <[item.1 := item.2]> o)
    (sortDocs le (map_to_list g)) ∅ = g.
Proof.
  pose proof (sortDocs_perm le (map_to_list g)) as Hperm.
  assert (NoDup (sortDocs le (map_to_list g)).*1) as Hnd.
  { rewrite Hperm. apply NoDup_fst_map_to_list. }
  rewrite fill_object by done.
  rewrite (list_to_map_proper _ _ Hnd Hperm). apply list_to_map_to_list.
Qed.

Lemma addProductId_keeps (items : list PItem.t) (ids : list ObjectId)
    (x : ObjectId) :
  x ∈ ids → x ∈ fold_left addProductId items ids.
Proof.
  revert ids. induction items as [|i items IH]; intros ids Hx; [done|].
  simpl. apply IH. unfold addProductId.
  destruct (PItem.product i) as [[id ?]|]; [|done].
  case_bool_decide; [done|]. apply elem_of_app. by left.
Qed.

Lemma addProductId_collects (items : list PItem.t) (ids : list ObjectId)
    (item : PItem.t) (id : ObjectId) (n : string) :
  item ∈ items → PItem.product item = Some (id, n) →
  id ∈ fold_left addProductId items ids.
Proof.
  revert ids. induction items as [|i items IH]; intros ids Hin Hp.
  - by apply elem_of_nil in Hin.
  - apply elem_of_cons in Hin as [->|Hin]; [|by apply IH].
    simpl. apply addProductId_keeps. unfold addProductId. rewrite Hp.
    case_bool_decide; [done|]. apply elem_of_app. right.
    apply list_elem_of_here.
Qed.

Lemma collectProductIds_from (sales : list PSale.t) (ids : list ObjectId) :
  (∀ x, x ∈ ids →
     x ∈ fold_left (λ productIds sale,
           fold_left addProductId (PSale.items sale) productIds) sales ids)
  ∧ (∀ sale item id n, sale ∈ sales → item ∈ PSale.items sale →
       PItem.product item = Some (id, n) →
       id ∈ fold_left (λ productIds sale,
              fold_left addProductId (PSale.items sale) productIds) sales ids).
Proof.
  revert ids. induction sales as [|s sales IH]; intros ids.
  - split; [done|]. intros ???? Hin. by apply elem_of_nil in Hin.
  - destruct (IH (fold_left addProductId (PSale.items s) ids)) as [Hk Hc].
    split.
    + intros x Hx. simpl. by apply Hk, addProductId_keeps.
    + intros sale item id n Hin Hitem Hp. simpl.
      apply elem_of_cons in Hin as [->|Hin]; [|by eapply Hc].
      by eapply Hk, addProductId_collects.
Qed.

Lemma collectProductIds_spec (sales : list PSale.t) (sale : PSale.t)
    (item : PItem.t) (id : ObjectId) (n : string) :
  sale ∈ sales → item ∈ PSale.items sale → PItem.product item = Some (id, n) →
  id ∈ collectProductIds sales.
Proof. apply collectProductIds_from. Qed.

(** [Product.find({ _id: { $in: productIds } })] put into a [Map]. *)
Lemma productMap_lookup (m : gmap ObjectId Product.t) (ids : list ObjectId)
    (id : ObjectId) :
  id ∈ ids →
  (list_to_map (filter (λ p, p.1 ∈ ids) (map_to_list m))
     : gmap ObjectId Product.t) !! id = m !! id.
Proof.
  intros Hid. apply option_eq. intros p.
  rewrite <- elem_of_list_to_map.
  - rewrite list_elem_of_filter, elem_of_map_to_list. simpl. tauto.
  - apply (sublist_NoDup _ (map_to_list m).*1).
    + apply NoDup_fst_map_to_list.
    + apply fmap_sublist, sublist_filter.
Qed.

Lemma addItemCost_sum (db : DB) (ids : list ObjectId) (items : list PItem.t)
    (a : Z) :
  (∀ item id n, item ∈ items → PItem.product item = Some (id, n) → id ∈ ids) →
  fold_left
    (addItemCost (list_to_map
       (filter (λ p, p.1 ∈ ids) (map_to_list (products db)))))
    items a
  = a + sumZ (map (itemCost db) items).
Proof.
  revert a. induction items as [|i items IH]; intros a Hids; simpl.
  - lia.
  - rewrite IH.
    2:{ intros item id n Hin. apply Hids. by apply list_elem_of_further. }
    unfold addItemCost, itemCost.
    destruct (PItem.product i) as [[id n]|] eqn:Hp; [|lia].
    rewrite productMap_lookup.
    2:{ eapply Hids; [apply list_elem_of_here|done]. }
    destruct (products db !! id); lia.
Qed.

Lemma costOfGoodsSold_from (db : DB) (ids : list ObjectId)
    (sales : list PSale.t) (a : Z) :
  (∀ sale item id n, sale ∈ sales → item ∈ PSale.items sale →
     PItem.product item = Some (id, n) → id ∈ ids) →
  fold_left (λ totalCOGS sale,
    fold_left
      (addItemCost (list_to_map
         (filter (λ p, p.1 ∈ ids) (map_to_list (products db)))))
      (PSale.items sale) totalCOGS) sales a
  = a + sumZ (map (λ sale, sumZ (map (itemCost db) (PSale.items sale))) sales).
Proof.
  revert a. induction sales as [|s sales IH]; intros a Hids; simpl.
  - lia.
  - rewrite IH.
    2:{ intros sale item id n Hin. apply Hids. by apply list_elem_of_further. }
    rewrite addItemCost_sum.
    2:{ intros item id n. apply Hids. apply list_elem_of_here. }
    lia.
Qed.

Lemma sumZ_zero {A : Type} (f : A → Z) (l : list A) :
  (∀ x, x ∈ l → f x = 0) → sumZ (map f l) = 0.
Proof.
  induction l as [|x l IH]; intros Hz; [done|]. simpl.
  rewrite Hz by apply list_elem_of_here.
  rewrite IH; [done|]. intros ??. apply Hz. by apply list_elem_of_further.
Qed.

(** The cost of goods sold is the sum, over the items of the listed sales,
    of base price times quantity for the items whose product resolves. *)
Lemma costOfGoodsSold_sum (db : DB) (sales : list PSale.t) :
  costOfGoodsSold db sales
  = sumZ (map (λ sale, sumZ (map (itemCost db) (PSale.items sale))) sales).
Proof.
  unfold costOfGoodsSold. destruct sales as [|s sales]; [done|].
  pose proof (collectProductIds_spec (s :: sales)) as Hids.
  destruct (collectProductIds (s :: sales)) as [|x ids] eqn:Hcollect.
  - symmetry. apply sumZ_zero. intros sale Hsale.
    apply sumZ_zero. intros item Hitem. unfold itemCost.
    destruct (PItem.product item) as [[id n]|] eqn:Hp; [|done].
    exfalso. eapply elem_of_nil, Hids; eauto.
  - rewrite costOfGoodsSold_from by done. lia.
Qed.

Lemma itemCost_populate (db : DB) (s : Sale.t) :
  map (itemCost db) (PSale.items (populate db s))
  = map (lineCost db) (Sale.items s).
Proof.
  unfold populate. cbn [PSale.items]. rewrite map_map. apply map_ext.
  intros i. unfold itemCost, lineCost. cbn [PItem.product PItem.quantity].
  destruct (products db !! Item.product i) eqn:Hp; [|done]. by rewrite Hp.
Qed.

Section SalesReport.
Context `{DocumentSort}.
Variables (localOffset : Z) (TZ : option string).
Variable dateToString : string → string → Date → string.

Lemma getSalesReport_eq (db : DB) (q : Query.t) (startDate endDate : Date) :
  Query.startDate q = Some startDate → Query.endDate q = Some endDate →
  getSalesReport localOffset TZ dateToString db q
  = Ok (SalesReport.mk
          (Z.of_nat (length (matchedSales localOffset db startDate endDate)))
          (sumZ (map Sale.total (matchedSales localOffset db startDate endDate)))
          (sumZ (map Sale.tax (matchedSales localOffset db startDate endDate)))
          (listedCost localOffset db startDate endDate)
          (sumZ (map Sale.total (matchedSales localOffset db startDate endDate))
           - listedCost localOffset db startDate endDate)
          (group (dayOf TZ dateToString) (DayBucket.mk 0 0)
             (λ a s, DayBucket.mk (DayBucket.count a + 1)
                       (DayBucket.revenue a + Sale.total s))
             (matchedSales localOffset db startDate endDate))
          (map (populate db) (listedSales localOffset db startDate endDate))).
Proof.
  intros Hs He. unfold getSalesReport. rewrite Hs, He. cbv zeta.
  fold (matchedSales localOffset db startDate endDate).
  fold (listedSales localOffset db startDate endDate).
  rewrite group_null, sorted_rows_object, costOfGoodsSold_sum.
  rewrite map_map.
  rewrite (map_ext (λ x, sumZ (map (itemCost db) (PSale.items (populate db x))))
             (λ s, sumZ (map (lineCost db) (Sale.items s))))
    by (intros s; by rewrite itemCost_populate).
  fold (listedCost localOffset db startDate endDate).
  destruct (matchedSales localOffset db startDate endDate) as [|s ms] eqn:Hm.
  - done.
  - rewrite summary_fold. cbn [Summary.totalSales Summary.totalRevenue
      Summary.totalVAT snd]. by rewrite !Z.add_0_l.
Qed.
End SalesReport.

Lemma setHoursEndOfDay_spec (localOffset : Z) (t : Date) :
  t ≤ setHoursEndOfDay localOffset t
  ∧ (setHoursEndOfDay localOffset t + localOffset) `div` msPerDay
    = (t + localOffset) `div` msPerDay
  ∧ (setHoursEndOfDay localOffset t + localOffset) `mod` msPerDay
    = ((23 * 60 + 59) * 60 + 59) * 1000 + 999.
Proof.
  unfold setHoursEndOfDay, msPerDay.
  pose proof (Z.div_mod (t + localOffset) 86400000 ltac:(lia)) as Hdm.
  pose proof (Z.mod_pos_bound (t + localOffset) 86400000 ltac:(lia)) as Hb.
  set (d := (t + localOffset) `div` 86400000) in *.
  replace (d * 86400000 + (86400000 - 1) - localOffset + localOffset)
    with (86399999 + d * 86400000) by lia.
  rewrite Z.div_add, Z.mod_add by lia.
  rewrite (Z.div_small 86399999), (Z.mod_small 86399999) by lia.
  split_and!; lia.
Qed.

(** C3, as the controller has it.  A sales report over [startDate] and
    [endDate] counts the sales that are not void and were created from the
    instant [startDate] itself (it is not moved to the start of its day) to
    23:59:59.999, server time, of the day of [endDate], both ends included:
    [totalSales], [totalRevenue] and [totalVAT] are their number and the sums
    of their totals and taxes, each day bucket holds the number and the
    revenue of the counted sales of that day, and every listed sale is a
    counted one.  No void sale is counted. *)
Theorem sales_report_counts_unvoided_sales_in_range `{DocumentSort}
    (localOffset : Z) (TZ : option string)
    (dateToString : string → string → Date → string)
    (db : DB) (q : Query.t) (startDate endDate : Date) :
  Query.startDate q = Some startDate → Query.endDate q = Some endDate →
  ∃ r counted,
    getSalesReport localOffset TZ dateToString db q = Ok r
    ∧ (∀ s, s ∈ counted
            ↔ s ∈ sales db ∧ Sale.isVoid s = false
              ∧ startDate ≤ Sale.createdAt s
                ≤ setHoursEndOfDay localOffset endDate)
    ∧ counted `sublist_of` sales db
    ∧ (setHoursEndOfDay localOffset endDate + localOffset) `div` msPerDay
      = (endDate + localOffset) `div` msPerDay
    ∧ (setHoursEndOfDay localOffset endDate + localOffset) `mod` msPerDay
      = ((23 * 60 + 59) * 60 + 59) * 1000 + 999
    ∧ SalesReport.totalSales r = Z.of_nat (length counted)
    ∧ SalesReport.totalRevenue r = sumZ (map Sale.total counted)
    ∧ SalesReport.totalVAT r = sumZ (map Sale.tax counted)
    ∧ (∀ day,
         SalesReport.salesByDate r !! day
         = match filter (λ s, dateToString "%Y-%m-%d" (timezone TZ)
                                (Sale.createdAt s) = day) counted with
           | [] => None
           | ds => Some (DayBucket.mk (Z.of_nat (length ds))
                           (sumZ (map Sale.total ds)))
           end)
    ∧ (∀ ps, ps ∈ SalesReport.data r → PSale.sale ps ∈ counted)
    ∧ SalesReport.totalCOGS r
      = sumZ (map (λ ps, sumZ (map (itemCost db) (PSale.items ps)))
                (SalesReport.data r))
    ∧ SalesReport.profit r
      = SalesReport.totalRevenue r - SalesReport.totalCOGS r.
Proof.
  intros Hs He.
  exists (SalesReport.mk
            (Z.of_nat (length (matchedSales localOffset db startDate endDate)))
            (sumZ (map Sale.total (matchedSales localOffset db startDate endDate)))
            (sumZ (map Sale.tax (matchedSales localOffset db startDate endDate)))
            (listedCost localOffset db startDate endDate)
            (sumZ (map Sale.total (matchedSales localOffset db startDate endDate))
             - listedCost localOffset db startDate endDate)
            (group (dayOf TZ dateToString) (DayBucket.mk 0 0)
               (λ a s, DayBucket.mk (DayBucket.count a + 1)
                         (DayBucket.revenue a + Sale.total s))
               (matchedSales localOffset db startDate endDate))
            (map (populate db) (listedSales localOffset db startDate endDate))),
    (matchedSales localOffset db startDate endDate).
  destruct (setHoursEndOfDay_spec localOffset endDate) as (_ & Hday & Hms).
  split; [by apply getSalesReport_eq|].
  cbn [SalesReport.totalSales SalesReport.totalRevenue SalesReport.totalVAT
       SalesReport.salesByDate SalesReport.data SalesReport.totalCOGS
       SalesReport.profit].
  split_and!; try done.
  - intros s. unfold matchedSales, matchSale.
    rewrite list_elem_of_filter, !andb_True, negb_True, Is_true_false.
    rewrite !Is_true_true, !Z.leb_le. tauto.
  - apply sublist_filter.
  - intros day. rewrite group_lookup. unfold dayOf.
    destruct (filter _ _) as [|d ds]; [done|].
    rewrite dayBucket_fold. cbn [DayBucket.count DayBucket.revenue].
    by rewrite !Z.add_0_l.
  - intros ps (s & -> & Hin)%list_elem_of_fmap. cbn [populate PSale.sale].
    unfold listedSales in Hin. apply elem_of_take in Hin as (i & Hi & _).
    apply list_elem_of_lookup_2 in Hi. by rewrite sortDocs_perm in Hi.
  - unfold listedCost. rewrite map_map. f_equal. apply map_ext.
    intros s. by rewrite itemCost_populate.
Qed.

(** C9, as the controller has it.  A report over no data answers with zeros
    and empty collections, not with an error: the sales report and the
    revenue trends when no sale that is not void lies in the range, the
    inventory report when no product is active, and the top products when no
    sale matches and the limit is absent or a positive number.  With any
    other limit (zero, negative, not a number) the top products answer with
    the error of the database, on no data as on any. *)
Theorem reports_over_no_data_are_zero `{DocumentSort}
    (localOffset : Z) (TZ : option string)
    (dateToString : string → string → Date → string)
    (db : DB) (q : Query.t) :
  (∀ startDate endDate,
     Query.startDate q = Some startDate → Query.endDate q = Some endDate →
     (∀ s, s ∈ sales db → Sale.isVoid s = false →
           ¬ (startDate ≤ Sale.createdAt s
              ≤ setHoursEndOfDay localOffset endDate)) →
     getSalesReport localOffset TZ dateToString db q
     = Ok (SalesReport.mk 0 0 0 0 0 ∅ [])
     ∧ getRevenueTrends localOffset TZ dateToString db q = Ok [])
  ∧ ((∀ s, s ∈ sales db → topProductsMatch localOffset q s = false) →
     (Query.limit q = None ∨ ∃ n, Query.limit q = Some (Int n) ∧ 0 < n) →
     getTopProducts localOffset db q = Ok [])
  ∧ ((∀ id p, products db !! id = Some p → Product.isActive p = false) →
     getInventoryReport db = Ok (InventoryReport.mk 0 0 0 0 ∅ [] [] []))
  ∧ (Query.limit q = Some NaN ∨ (∃ n, Query.limit q = Some (Int n) ∧ n ≤ 0) →
     getTopProducts localOffset db q = NextError).
Proof.
  assert (∀ A (le : A → A → bool), sortDocs le [] = []) as Hsort.
  { intros A le. apply Permutation_nil_r, sortDocs_perm. }
  split_and!.
  - intros startDate endDate Hs He Hnone.
    assert (matchedSales localOffset db startDate endDate = []) as Hm.
    { apply filter_none. intros s Hin Hmatch.
      unfold matchSale in Hmatch.
      rewrite !andb_True, negb_True, Is_true_false in Hmatch.
      rewrite !Is_true_true, !Z.leb_le in Hmatch.
      apply (Hnone s Hin); tauto. }
    split.
    + rewrite (getSalesReport_eq _ _ _ _ _ _ _ Hs He).
      unfold listedCost, listedSales. rewrite Hm, Hsort. done.
    + unfold getRevenueTrends. rewrite Hs, He. cbv zeta.
      fold (matchedSales localOffset db startDate endDate). rewrite Hm.
      rewrite group_nil, map_to_list_empty. simpl. by rewrite Hsort.
  - intros Hnone Hlimit. unfold getTopProducts.
    rewrite filter_none
      by (intros s Hin Hmatch; by rewrite (Hnone s Hin) in Hmatch).
    unfold topProductRows. simpl flat_map.
    rewrite group_nil, map_to_list_empty. simpl omap. rewrite Hsort.
    destruct Hlimit as [->|(n & -> & Hn)]; simpl; [done|].
    apply Z.ltb_lt in Hn. rewrite Hn. by rewrite take_nil.
  - intros Hnone. unfold getInventoryReport.
    rewrite filter_none.
    2:{ intros [id p] Hin%elem_of_map_to_list Hact. simpl in Hact.
        by rewrite (Hnone id p Hin) in Hact. }
    cbv zeta. by rewrite Hsort.
  - intros Hlimit. unfold getTopProducts. cbv zeta.
    destruct Hlimit as [->|(n & -> & Hn)]; cbn [default id]; [done|].
    by assert ((0 <? n) = false) as -> by (apply Z.ltb_ge; lia).
Qed.

(** ** Revenue trends *)

Lemma stringLt_of_le (x y : string) : String.leb x y → x ≠ y → String.ltb x y.
Proof.
  unfold String.leb, String.ltb. intros Hle Hne.
  destruct (String.compare x y) eqn:Hc; [|done..].
  by apply String.compare_eq_iff in Hc.
Qed.

Lemma StronglySorted_weaken {A : Type} (R S : A → A → Prop) (l : list A) :
  (∀ a b, R a b → S a b) → StronglySorted R l → StronglySorted S l.
Proof.
  intros HRS. induction 1 as [|a l Hl IH Ha]; constructor; [done|].
  eapply Forall_impl; [exact Ha|]. intros b. apply HRS.
Qed.

(** A list sorted by a key without repetition is strictly sorted. *)
Lemma StronglySorted_strict {A : Type} (key : A → string) (l : list A) :
  StronglySorted (λ a b, String.leb (key a) (key b)) l →
  NoDup (key <$> l) →
  StronglySorted (λ a b, String.ltb (key a) (key b)) l.
Proof.
  induction 1 as [|a l Hl IH Ha]; intros Hnd; [constructor|].
  rewrite fmap_cons in Hnd. apply NoDup_cons in Hnd as [Hnotin Hnd].
  constructor; [by apply IH|].
  rewrite Forall_forall in Ha. apply Forall_forall. intros b Hb.
  apply stringLt_of_le; [by apply Ha|].
  intros Heq. apply Hnotin. rewrite Heq. by apply list_elem_of_fmap_2.
Qed.

(** C8.  The revenue trends bucket the sales that are not void and lie in
    the range by the date string of the granularity asked for (day, week or
    month), read in the configured time zone: the zone [process.env.TZ] names,
    or Manila when it names none.  Each bucket carries the sum of the totals
    and the number of its sales, there is one row per bucket that is not
    empty, and the rows come in ascending order of the bucket key. *)
Theorem revenue_trends_buckets_ascending `{DocumentSort}
    (localOffset : Z) (TZ : option string)
    (dateToString : string → string → Date → string)
    (db : DB) (q : Query.t) (startDate endDate : Date) (zone : string) :
  Query.startDate q = Some startDate → Query.endDate q = Some endDate →
  (TZ = Some zone ∧ zone ≠ ""
   ∨ (TZ = None ∨ TZ = Some "") ∧ zone = "Asia/Manila") →
  ∃ rows,
    getRevenueTrends localOffset TZ dateToString db q = Ok rows
    ∧ StronglySorted (λ a b, String.ltb (Trend.date a) (Trend.date b)) rows
    ∧ (∀ row, row ∈ rows
         ↔ ∃ bucket,
             bucket
             = filter (λ s, dateToString (dateFormat (Query.groupBy q))
                              zone (Sale.createdAt s)
                            = Trend.date row)
                 (filter (λ s, matchSale startDate
                                 (setHoursEndOfDay localOffset endDate) s)
                    (sales db))
             ∧ bucket ≠ []
             ∧ Trend.revenue row = sumZ (map Sale.total bucket)
             ∧ Trend.sales row = Z.of_nat (length bucket))
    ∧ (∀ s, matchSale startDate (setHoursEndOfDay localOffset endDate) s
            ↔ Sale.isVoid s = false
              ∧ startDate ≤ Sale.createdAt s
                ≤ setHoursEndOfDay localOffset endDate)
    ∧ dateFormat (Some "day") = "%Y-%m-%d"
    ∧ dateFormat (Some "week") = "%Y-%U"
    ∧ dateFormat (Some "month") = "%Y-%m"
    ∧ dateFormat None = "%Y-%m-%d".
Proof.
  intros Hs He Hzone.
  assert (timezone TZ = zone) as Htz.
  { unfold timezone.
    destruct Hzone as [[-> Hne]|[[-> | ->] ->]]; [|done..].
    by rewrite decide_False. }
  unfold getRevenueTrends. rewrite Hs, He, Htz. cbv zeta.
  set (matched := filter _ (sales db)).
  set (key := λ s, dateToString (dateFormat (Query.groupBy q)) zone
                     (Sale.createdAt s)).
  set (g := group key _ _ matched).
  set (project := λ g : string * DayBucket.t,
         Trend.mk g.1 (DayBucket.revenue g.2) (DayBucket.count g.2)).
  set (le := λ a b, String.leb (Trend.date a) (Trend.date b)).
  pose proof (sortDocs_perm le (map project (map_to_list g))) as Hperm.
  eexists. split; [reflexivity|]. split_and!; try done.
  - apply StronglySorted_strict.
    + apply (sortDocs_sorted le).
      * intros x y. apply stringLe_total.
      * intros x y z. apply stringLe_trans.
    + rewrite Hperm. change (map project (map_to_list g))
        with (project <$> map_to_list g).
      rewrite <- list_fmap_compose.
      apply (NoDup_fst_map_to_list g).
  - intros [date revenue n]. rewrite Hperm.
    change (map project (map_to_list g)) with (project <$> map_to_list g).
    rewrite list_elem_of_fmap. cbn [Trend.date Trend.revenue Trend.sales].
    assert (∀ k b, (k, b) ∈ map_to_list g
              ↔ filter (λ s, key s = k) matched ≠ []
                ∧ b = DayBucket.mk
                        (Z.of_nat (length (filter (λ s, key s = k) matched)))
                        (sumZ (map Sale.total
                                 (filter (λ s, key s = k) matched)))) as Hg.
    { intros k b. rewrite elem_of_map_to_list. unfold g.
      rewrite group_lookup.
      destruct (filter (λ s, key s = k) matched) as [|d ds].
      { split; [done|]. by intros [? _]. }
      rewrite dayBucket_fold. cbn [DayBucket.count DayBucket.revenue].
      rewrite !Z.add_0_l. split; [by intros [= <-]|]. by intros [_ ->]. }
    split.
    + intros ([k b] & Heq & Hin). apply Hg in Hin as [Hne ->].
      unfold project in Heq. simpl in Heq. injection Heq as -> -> ->.
      eexists. split; [reflexivity|]. done.
    + intros (bucket & -> & Hne & -> & ->).
      exists (date, DayBucket.mk
                      (Z.of_nat (length (filter (λ s, key s = date) matched)))
                      (sumZ (map Sale.total
                               (filter (λ s, key s = date) matched)))).
      split; [done|]. by apply Hg.
  - intros s. unfold matchSale.
    rewrite !andb_True, negb_True, Is_true_false.
    rewrite !Is_true_true, !Z.leb_le. tauto.
Qed.

(** ** Top products *)





(** ** Cost of goods sold *)



Lemma populate_sale (db : DB) (l : list Sale.t) :
  PSale.sale <$> map (populate db) l = l.
Proof. induction l as [|s l IH]; [done|]. csimpl. by f_equal. Qed.


(** C3, counterexample to the claim as worded.  On a server on Manila time,
    a report for 15 January runs from the instant of
    [new Date('2024-01-15')], 08:00 in Manila, to 23:59:59.999 in Manila.  It
    counts neither a sale made at 07:00 in Manila that day, which the range
    from the start to the end of the day in Manila holds and which falls in
    the day bucket of 15 January, nor a sale made at 20:00 UTC that day,
    which the range from the start to the end of the day in UTC holds. *)
Lemma sales_report_starts_at_the_given_instant :
  getSalesReport (H := storedOrder) manilaOffset None sampleDateToString
    earlyDB jan15Query
  = Ok (SalesReport.mk 0 0 0 0 0 ∅ [])
  ∧ documentedSales manilaOffset earlyDB jan15 jan15 = [earlySale]
  ∧ documentedSales 0 earlyDB jan15 jan15 = [lateSale]
  ∧ Sale.isVoid earlySale = false ∧ Sale.isVoid lateSale = false
  ∧ sampleDateToString "%Y-%m-%d" "Asia/Manila" (Sale.createdAt earlySale)
    = "2024-01-15"
  ∧ sampleDateToString "%Y-%m-%d" "UTC" (Sale.createdAt lateSale)
    = "2024-01-15".
Proof. split_and!; by vm_compute. Qed.

(** The report of the sample shop for 15 January. *)
Lemma sales_report_of_sample_shop :
  ∃ r counted,
    getSalesReport (H := storedOrder) 0 None sampleDateToString shopDB
      jan15Query = Ok r
    ∧ SalesReport.totalSales r = Z.of_nat (length counted)
    ∧ SalesReport.totalRevenue r = sumZ (map Sale.total counted)
    ∧ SalesReport.totalVAT r = sumZ (map Sale.tax counted)
    ∧ SalesReport.totalSales r = 2.
Proof.
  destruct (sales_report_counts_unvoided_sales_in_range (H := storedOrder)
              0 None sampleDateToString shopDB jan15Query jan15 jan15
              eq_refl eq_refl)
    as (r & counted & Hr & _ & _ & _ & _ & Hn & Hrev & Hvat & _).
  exists r, counted. split_and!; try done.
  vm_compute in Hr. by injection Hr as <-.
Defined.

(** The reports of the quiet shop. *)
Lemma reports_of_quiet_shop :
  getSalesReport (H := storedOrder) 0 None sampleDateToString quietDB
    jan15Query = Ok (SalesReport.mk 0 0 0 0 0 ∅ [])
  ∧ getRevenueTrends (H := storedOrder) 0 None sampleDateToString quietDB
      jan15Query = Ok []
  ∧ getTopProducts (H := storedOrder) 0 quietDB jan15Query = Ok []
  ∧ getInventoryReport (H := storedOrder) quietDB
    = Ok (InventoryReport.mk 0 0 0 0 ∅ [] [] []).
Proof.
  destruct (reports_over_no_data_are_zero (H := storedOrder) 0 None
              sampleDateToString quietDB jan15Query)
    as (Hsales & Htop & Hinv & _).
  destruct (Hsales jan15 jan15 eq_refl eq_refl) as [Hreport Htrends].
  { intros s Hin Hvoid [_ Hend].
    apply elem_of_cons in Hin as [->|Hin]; [done|].
    apply list_elem_of_singleton in Hin as ->. by vm_compute in Hend. }
  split_and!; [done..| |].
  - apply Htop; [|by left]. intros s Hin.
    apply elem_of_cons in Hin as [->|Hin]; [done|].
    by apply list_elem_of_singleton in Hin as ->.
  - apply Hinv. intros id p Hp. unfold quietDB in Hp. cbn [products] in Hp.
    apply lookup_singleton_Some in Hp as [_ <-]. done.
Defined.

(** C9, counterexample to the claim as worded.  In the quiet shop no sale
    that is not void lies in 15 January, and none matches the query of the
    top products; asked with [limit=0], or with a limit that is no number,
    the top products answer with an error and not with an empty list. *)
Lemma top_products_of_quiet_shop_with_limit_zero :
  (∀ s, s ∈ sales quietDB →
        topProductsMatch 0 (Query.mk (Some jan15) (Some jan15) (Some (Int 0))
                              None) s = false)
  ∧ getTopProducts (H := storedOrder) 0 quietDB
      (Query.mk (Some jan15) (Some jan15) (Some (Int 0)) None) = NextError
  ∧ getTopProducts (H := storedOrder) 0 quietDB
      (Query.mk (Some jan15) (Some jan15) (Some NaN) None) = NextError
  ∧ getTopProducts (H := storedOrder) 0 quietDB
      (Query.mk (Some jan15) (Some jan15) None None) = Ok [].
Proof.
  split_and!; [|by vm_compute..].
  intros s Hin. apply elem_of_cons in Hin as [->|Hin]; [by vm_compute|].
  apply list_elem_of_singleton in Hin as ->. by vm_compute.
Qed.

(** The daily trend over a sale made at 23:00 UTC on 14 January (07:00 on
    the 15th in Manila) and one made at 20:00 UTC on the 15th (04:00 on the
    16th in Manila): with [TZ] set to UTC the days are the 14th and the 15th,
    with no [TZ] they are the 15th and the 16th. *)
Lemma revenue_trends_of_sample_shop :
  ∃ rows rows',
    getRevenueTrends (H := storedOrder) 0 (Some "UTC") sampleDateToString
      earlyDB (Query.mk (Some (jan15 - hour)) (Some jan15) None (Some "day"))
    = Ok rows
    ∧ getRevenueTrends (H := storedOrder) 0 None sampleDateToString
        earlyDB (Query.mk (Some (jan15 - hour)) (Some jan15) None (Some "day"))
      = Ok rows'
    ∧ StronglySorted (λ a b, String.ltb (Trend.date a) (Trend.date b)) rows
    ∧ rows = [Trend.mk "2024-01-14" 360 1; Trend.mk "2024-01-15" 24 1]
    ∧ rows' = [Trend.mk "2024-01-15" 360 1; Trend.mk "2024-01-16" 24 1].
Proof.
  destruct (revenue_trends_buckets_ascending (H := storedOrder) 0 (Some "UTC")
              sampleDateToString earlyDB
              (Query.mk (Some (jan15 - hour)) (Some jan15) None (Some "day"))
              (jan15 - hour) jan15 "UTC" eq_refl eq_refl)
    as (rows & Hrows & Hsorted & _); [by left|].
  destruct (revenue_trends_buckets_ascending (H := storedOrder) 0 None
              sampleDateToString earlyDB
              (Query.mk (Some (jan15 - hour)) (Some jan15) None (Some "day"))
              (jan15 - hour) jan15 "Asia/Manila" eq_refl eq_refl)
    as (rows' & Hrows' & _); [right; split; [by left|done]|].
  exists rows, rows'. split_and!; [done..| |].
  - vm_compute in Hrows. by injection Hrows as <-.
  - vm_compute in Hrows'. by injection Hrows' as <-.
Defined.





(** C2, the code at 101 sales in one day.  The report counts all 101 sales
    in the revenue, but it computes the cost of goods sold over the 100 sales
    it lists: [totalCOGS] is 500 where the sum over every line item of the
    range is 505, and the profit is 106 instead of 101. *)
Theorem sales_report_cogs_stops_at_100_sales `{DocumentSort}
    (TZ : option string) (dateToString : string → string → Date → string) :
  ∃ r,
    getSalesReport 0 TZ dateToString busyDB jan15Query = Ok r
    ∧ SalesReport.totalSales r = 101
    ∧ SalesReport.totalRevenue r = 606
    ∧ SalesReport.totalCOGS r = 500
    ∧ SalesReport.profit r = 106
    ∧ documentedCOGS 0 busyDB jan15 jan15 = 505
    ∧ SalesReport.totalRevenue r - documentedCOGS 0 busyDB jan15 jan15 = 101.
Proof.
  eexists. split; [by apply getSalesReport_eq|].
  cbn [SalesReport.totalSales SalesReport.totalRevenue SalesReport.totalCOGS
       SalesReport.profit].
  assert (matchedSales 0 busyDB jan15 jan15 = busySales) as Hm
    by (by vm_compute).
  assert (listedCost 0 busyDB jan15 jan15 = 500) as Hcost.
  { unfold listedCost, listedSales. rewrite Hm.
    pose proof (sortDocs_perm createdAtDesc busySales) as Hperm.
    assert (Forall (λ s, sumZ (map (lineCost busyDB) (Sale.items s)) = 5)
              (take 100 (sortDocs createdAtDesc busySales))) as Hall.
    { apply Forall_take. rewrite Hperm. by vm_compute; repeat constructor. }
    assert (length (take 100 (sortDocs createdAtDesc busySales)) = 100%nat)
      as Hlen.
    { rewrite length_take, Hperm. by vm_compute. }
    revert Hall Hlen.
    generalize (take 100 (sortDocs createdAtDesc busySales)). intros l Hall.
    assert (sumZ (map (λ s, sumZ (map (lineCost busyDB) (Sale.items s))) l)
            = 5 * Z.of_nat (length l)) as ->.
    { induction Hall as [|s l Hs Hl IH]; [done|].
      cbn [map sumZ foldr length]. fold (sumZ (map (λ s,
        sumZ (map (lineCost busyDB) (Sale.items s))) l)).
      rewrite Hs. unfold sumZ in IH. unfold sumZ. rewrite IH. lia. }
    intros ->. done. }
  rewrite Hcost, Hm. unfold documentedCOGS. rewrite Hm.
  split_and!; by vm_compute.
Qed.

(** ** Pricing history *)

Lemma orZero_castNumber (f : Field) (old : option Z) :
  orZero (castNumber f old) = requested f (orZero old).
Proof. by destruct f. Qed.

Lemma updateProduct_ok (now : Date) (db : DB) (id : ObjectId) (body : Body.t)
    (p p' : Product.t) :
  products db !! id = Some p →
  (updateProduct now db id body).2 = Ok p' →
  let changed :=
    negb (requested (Body.price body) (effectivePrice p) =? effectivePrice p)
    || negb (requested (Body.markupPercentage body) (effectiveMarkup p)
             =? effectiveMarkup p) in
  p' = applyBody
         (if changed then
            Body.setPricingHistory
              (match Product.pricingHistory p with
               | [] => [PricingEntry.mk (effectivePrice p) (effectiveMarkup p)
                          (default now (Product.createdAt p))]
               | h => h
               end
               ++ [PricingEntry.mk
                     (requested (Body.price body) (effectivePrice p))
                     (requested (Body.markupPercentage body)
                        (effectiveMarkup p)) now])
              body
          else body) p
  ∧ products (updateProduct now db id body).1 !! id = Some p'.
Proof.
  intros Hp. unfold updateProduct. rewrite Hp.
  destruct (match Body.supplier body with
            | Some s => bool_decide (s ∈ suppliers db)
            | None => true
            end); [|done].
  cbv zeta. cbn [fst snd]. intros [= <-].
  fold (effectivePrice p). fold (effectiveMarkup p).
  replace (match Body.price body with
           | Missing => effectivePrice p
           | _ => parseFloatOrZero (Body.price body)
           end) with (requested (Body.price body) (effectivePrice p))
    by (by destruct (Body.price body)).
  replace (match Body.markupPercentage body with
           | Missing => effectiveMarkup p
           | _ => parseFloatOrZero (Body.markupPercentage body)
           end)
    with (requested (Body.markupPercentage body) (effectiveMarkup p))
    by (by destruct (Body.markupPercentage body)).
  split; [done|]. cbn [setProducts products]. apply lookup_insert_eq.
Qed.

(** What creation and updates do to the pricing history.  A created product
    has a pricing history of one entry, which holds its price and markup.  An
    update whose price or markup differs from the current values appends one
    entry with the new values (after seeding an empty history with the old
    ones), so the history is not empty and its last entry holds the values in
    effect.  An update with unchanged values appends nothing: it leaves the
    history as it is when the body has no [pricingHistory] key, and stores
    the body's [pricingHistory] otherwise. *)
Lemma pricing_history_follows_price_changes
    (now : Date) (schemaDefault : Product.t) (db : DB) (body : Body.t) :
  (∀ id p,
     (createProduct now schemaDefault db body).2 = Ok (id, p) →
     products (createProduct now schemaDefault db body).1 !! id = Some p
     ∧ Product.pricingHistory p
       = [PricingEntry.mk (effectivePrice p) (effectiveMarkup p) now]
     ∧ historyUpToDate p)
  ∧ (∀ id p p',
       products db !! id = Some p →
       (updateProduct now db id body).2 = Ok p' →
       products (updateProduct now db id body).1 !! id = Some p'
       ∧ effectivePrice p' = requested (Body.price body) (effectivePrice p)
       ∧ effectiveMarkup p'
         = requested (Body.markupPercentage body) (effectiveMarkup p)
       ∧ (effectivePrice p' ≠ effectivePrice p
          ∨ effectiveMarkup p' ≠ effectiveMarkup p →
          Product.pricingHistory p'
          = match Product.pricingHistory p with
            | [] => [PricingEntry.mk (effectivePrice p) (effectiveMarkup p)
                       (default now (Product.createdAt p))]
            | h => h
            end
            ++ [PricingEntry.mk (effectivePrice p') (effectiveMarkup p') now]
          ∧ historyUpToDate p')
       ∧ (effectivePrice p' = effectivePrice p →
          effectiveMarkup p' = effectiveMarkup p →
          Product.pricingHistory p'
          = default (Product.pricingHistory p) (Body.pricingHistory body))
       ∧ (Body.pricingHistory body = None →
          (Product.pricingHistory p' = Product.pricingHistory p
           ↔ effectivePrice p' = effectivePrice p
             ∧ effectiveMarkup p' = effectiveMarkup p))).
Proof.
  split.
  - intros id p. unfold createProduct.
    destruct (Body.supplier body) as [supplierId|]; [|done].
    destruct (decide (supplierId ∈ suppliers db)); [|done].
    cbv zeta. cbn [fst snd]. intros [= <- <-].
    cbn [setProducts products]. rewrite lookup_insert_eq.
    split_and!; [done..|].
    eexists. by split_and!.
  - intros id p p' Hp Hok.
    destruct (updateProduct_ok now db id body p p' Hp Hok) as [Hp' Hlookup].
    cbv zeta in Hp'.
    set (newPrice := requested (Body.price body) (effectivePrice p)) in *.
    set (newMarkup :=
           requested (Body.markupPercentage body) (effectiveMarkup p)) in *.
    assert (effectivePrice p' = newPrice) as Hprice.
    { rewrite Hp'. unfold effectivePrice, newPrice.
      destruct (negb _ || negb _); cbn [applyBody Product.price];
        apply orZero_castNumber. }
    assert (effectiveMarkup p' = newMarkup) as Hmarkup.
    { rewrite Hp'. unfold effectiveMarkup, newMarkup.
      destruct (negb _ || negb _); cbn [applyBody Product.markupPercentage];
        apply orZero_castNumber. }
    assert (effectivePrice p' ≠ effectivePrice p
            ∨ effectiveMarkup p' ≠ effectiveMarkup p →
            Product.pricingHistory p'
            = match Product.pricingHistory p with
              | [] => [PricingEntry.mk (effectivePrice p) (effectiveMarkup p)
                         (default now (Product.createdAt p))]
              | h => h
              end
              ++ [PricingEntry.mk (effectivePrice p') (effectiveMarkup p')
                    now]) as Hchanged.
    { intros Hne. rewrite Hprice, Hmarkup in *.
      assert (negb (newPrice =? effectivePrice p)
              || negb (newMarkup =? effectiveMarkup p) = true) as Hb.
      { apply orb_true_iff. rewrite !negb_true_iff, !Z.eqb_neq. done. }
      rewrite Hb in Hp'. by rewrite Hp'. }
    assert (effectivePrice p' = effectivePrice p →
            effectiveMarkup p' = effectiveMarkup p →
            Product.pricingHistory p'
            = default (Product.pricingHistory p) (Body.pricingHistory body))
      as Hsame.
    { rewrite Hprice, Hmarkup. intros Hp1 Hm1.
      rewrite Hp1, Hm1, !Z.eqb_refl in Hp'. by rewrite Hp'. }
    split_and!; try done.
    + intros Hne. split; [by apply Hchanged|].
      unfold historyUpToDate. rewrite (Hchanged Hne), last_snoc.
      eexists. by split_and!.
    + intros Hnone. split.
      * intros Hh.
        destruct (decide (effectivePrice p' = effectivePrice p)) as [?|Hne1];
          [destruct (decide (effectiveMarkup p' = effectiveMarkup p))
             as [?|Hne2]; [done|]|].
        -- rewrite Hchanged in Hh by (by right). exfalso.
           apply (f_equal length) in Hh. rewrite length_app in Hh.
           simpl in Hh. destruct (Product.pricingHistory p); simpl in Hh; lia.
        -- rewrite Hchanged in Hh by (by left). exfalso.
           apply (f_equal length) in Hh. rewrite length_app in Hh.
           simpl in Hh. destruct (Product.pricingHistory p); simpl in Hh; lia.
      * intros [? ?]. rewrite Hsame by done. by rewrite Hnone.
Qed.

(** C5, the code on a body that carries a [pricingHistory] of its own.
    Creation and an update that changes price or markup both write the
    history themselves, whatever the body carries: the one entry of the new
    product, or the stored history with one entry more.  An update that
    changes neither does not: the controller leaves the body's
    [pricingHistory] in place and hands it to the model, which stores it in
    place of the history.  With unchanged values the history is then not
    left as it was, and with an empty list the product has no entry that
    holds its price. *)
Theorem unchanged_update_stores_history_of_body
    (now : Date) (schemaDefault : Product.t) (db : DB) (id : ObjectId)
    (body : Body.t) (p : Product.t) (history : list PricingEntry.t) :
  products db !! id = Some p →
  supplierKnown db body = true →
  Body.pricingHistory body = Some history →
  (∀ created,
     (createProduct now schemaDefault db body).2 = Ok created →
     Product.pricingHistory created.2
     = [PricingEntry.mk (effectivePrice created.2)
          (effectiveMarkup created.2) now])
  ∧ ∃ p',
      (updateProduct now db id body).2 = Ok p'
      ∧ products (updateProduct now db id body).1 !! id = Some p'
      ∧ (effectivePrice p' ≠ effectivePrice p
         ∨ effectiveMarkup p' ≠ effectiveMarkup p →
         Product.pricingHistory p'
         = match Product.pricingHistory p with
           | [] => [PricingEntry.mk (effectivePrice p) (effectiveMarkup p)
                      (default now (Product.createdAt p))]
           | h => h
           end
           ++ [PricingEntry.mk (effectivePrice p') (effectiveMarkup p') now])
      ∧ (effectivePrice p' = effectivePrice p →
         effectiveMarkup p' = effectiveMarkup p →
         Product.pricingHistory p' = history
         ∧ (history ≠ Product.pricingHistory p →
            Product.pricingHistory p' ≠ Product.pricingHistory p)
         ∧ (history = [] → ¬ historyUpToDate p')).
Proof.
  intros Hp Hknown Hbody.
  destruct (pricing_history_follows_price_changes now schemaDefault db body)
    as [Hcreate Hupdate].
  split.
  - intros [idc pc] Hok. by destruct (Hcreate idc pc Hok) as (_ & ? & _).
  - assert (∃ p', (updateProduct now db id body).2 = Ok p') as [p' Hok].
    { unfold updateProduct. rewrite Hp.
      unfold supplierKnown in Hknown. rewrite Hknown. cbv zeta.
      by eexists. }
    destruct (Hupdate id p p' Hp Hok)
      as (Hstored & _ & _ & Hchanged & Hsame & _).
    exists p'. split_and!; [done|done| |].
    + intros Hne. by destruct (Hchanged Hne).
    + intros Hprice Hmarkup.
      pose proof (Hsame Hprice Hmarkup) as Hhistory. rewrite Hbody in Hhistory.
      change (default (Product.pricingHistory p) (Some history))
        with history in Hhistory.
      split_and!; [done|by rewrite Hhistory|].
      intros -> (e & Hlast & _). by rewrite Hhistory in Hlast.
Qed.

(** The update sends the values the hammer already has, together with an
    empty [pricingHistory]; nothing changed in price or markup, and yet the
    history of one entry is replaced by the empty one. *)
Lemma update_with_unchanged_values_replaces_history :
  ∃ p',
    products shopDB !! 1%N = Some hammer
    ∧ (updateProduct jan15 shopDB 1 sameValuesBody).2 = Ok p'
    ∧ effectivePrice p' = effectivePrice hammer
    ∧ effectiveMarkup p' = effectiveMarkup hammer
    ∧ Product.pricingHistory hammer = [PricingEntry.mk 100 20 0]
    ∧ Product.pricingHistory p' = []
    ∧ ¬ historyUpToDate p'.
Proof.
  destruct (unchanged_update_stores_history_of_body jan15 sampleSchemaDefault
              shopDB 1 sameValuesBody hammer [] eq_refl eq_refl eq_refl)
    as (_ & p' & Hok & _ & _ & Hsame).
  assert (effectivePrice p' = effectivePrice hammer
          ∧ effectiveMarkup p' = effectiveMarkup hammer) as [Hprice Hmarkup].
  { vm_compute in Hok. injection Hok as <-. by vm_compute. }
  destruct (Hsame Hprice Hmarkup) as (Hhistory & _ & Hempty).
  exists p'. split_and!; [done..|]. by apply Hempty.
Defined.

(** Raising the hammer's price to 150. *)
Lemma pricing_history_after_raising_price :
  ∃ p',
    (updateProduct jan15 shopDB 1 raisePriceBody).2 = Ok p'
    ∧ effectivePrice p' = 150
    ∧ Product.pricingHistory p'
      = [PricingEntry.mk 100 20 0; PricingEntry.mk 150 20 jan15]
    ∧ historyUpToDate p'.
Proof.
  destruct (pricing_history_follows_price_changes jan15 oldSaw shopDB
              raisePriceBody) as [_ Hupdate].
  assert (∃ p', (updateProduct jan15 shopDB 1 raisePriceBody).2 = Ok p')
    as [p' Hok] by (eexists; by vm_compute).
  destruct (Hupdate 1%N hammer p' eq_refl Hok)
    as (_ & Hprice & Hmarkup & Hchanged & _).
  destruct Hchanged as [Hhistory Hcurrent].
  { left. rewrite Hprice. by vm_compute. }
  exists p'. split_and!; [done..| |done].
  rewrite Hhistory, Hprice, Hmarkup. done.
Defined.

(** ** The sales routes *)

Lemma trim_nonempty (code : string) : trim code ≠ "" → code ≠ "".
Proof. intros Hne ->. by apply Hne. Qed.

Lemma voidSaleErrors_nil (b : SaleBody.t) :
  voidSaleErrors b = []
  ↔ ∃ code, SaleBody.superAdminCode b = Some code ∧ trim code ≠ "".
Proof.
  unfold voidSaleErrors, rule.
  destruct (SaleBody.superAdminCode b) as [code|]; simpl.
  - destruct (trim code) eqn:Ht; simpl.
    + split; [done|]. intros (c & [= <-] & Hc). by rewrite Ht in Hc.
    + split; [|done]. intros _. exists code. by rewrite Ht.
  - split; [done|]. by intros (c & ? & _).
Qed.

(** C6.  The void route hands a request to [voidSale] exactly when its actor
    has the role admin or staff and its body carries a [superAdminCode] that
    is not empty once trimmed; a request without the code, with an empty
    one, or from any other role ends in a rejection and reaches no
    controller.  The create route admits the roles supplier, staff and
    admin: it hands a request to [createSale] exactly when the actor has one
    of them and the body passes the validation rules. *)
Theorem sales_routes_authorization (isEmail : string → bool) (req : Req.t) :
  (dispatch patchVoid req = inr voidSale
   ↔ (∃ u, Req.user req = Some u
           ∧ (User.role u = "admin" ∨ User.role u = "staff"))
     ∧ ∃ code, SaleBody.superAdminCode (Req.body req) = Some code
               ∧ trim code ≠ "" ∧ code ≠ "")
  ∧ (∀ c, dispatch patchVoid req = inr c → c = voidSale)
  ∧ (SaleBody.superAdminCode (Req.body req) = None
     ∨ SaleBody.superAdminCode (Req.body req) = Some "" →
     ∃ rejection, dispatch patchVoid req = inl rejection)
  ∧ (∀ u, Req.user req = Some u →
          User.role u ≠ "admin" → User.role u ≠ "staff" →
          dispatch patchVoid req = inl Unauthorized)
  ∧ (dispatch (postSale isEmail) req = inr createSale
     ↔ (∃ u, Req.user req = Some u
             ∧ (User.role u = "supplier" ∨ User.role u = "staff"
                ∨ User.role u = "admin"))
       ∧ createSaleErrors isEmail (Req.body req) = []).
Proof.
  assert (dispatch patchVoid req = inr voidSale
          ↔ (∃ u, Req.user req = Some u
                  ∧ (User.role u = "admin" ∨ User.role u = "staff"))
            ∧ ∃ code, SaleBody.superAdminCode (Req.body req) = Some code
                      ∧ trim code ≠ "" ∧ code ≠ "") as Hvoid.
  { unfold dispatch, patchVoid. cbn [middlewares controller runChain].
    unfold protect, authorize.
    destruct (Req.user req) as [u|].
    2:{ split; [done|]. by intros [(u & ? & _) _]. }
    case_bool_decide as Hrole.
    2:{ split; [done|]. intros [(u' & [= <-] & Hr) _]. exfalso.
        apply Hrole. rewrite !elem_of_cons. tauto. }
    unfold handleValidationErrors.
    destruct (voidSaleErrors (Req.body req)) eqn:He.
    - apply voidSaleErrors_nil in He as (code & Hc & Ht).
      split; [|done]. intros _. split.
      + exists u. split; [done|].
        rewrite !elem_of_cons, elem_of_nil in Hrole. tauto.
      + exists code. split_and!; [done..|]. by apply trim_nonempty.
    - split; [done|]. intros [_ (code & Hc & Ht & _)].
      assert (voidSaleErrors (Req.body req) = []) as Hnil
        by (apply voidSaleErrors_nil; eauto).
      by rewrite Hnil in He. }
  split_and!.
  - exact Hvoid.
  - intros c. unfold dispatch. destruct (runChain _ req); [done|].
    by intros [= <-].
  - intros Hcode.
    destruct (dispatch patchVoid req) as [rejection|c] eqn:Hd; [eauto|].
    exfalso.
    assert (c = voidSale) as ->.
    { unfold dispatch in Hd. destruct (runChain _ req); [done|].
      by injection Hd as <-. }
    destruct Hvoid as [Hv _].
    destruct (Hv eq_refl) as [_ (code & Hc & _ & Hne)].
    destruct Hcode as [Hn|Hn]; rewrite Hn in Hc; [done|].
    by injection Hc as <-.
  - intros u Hu Hadmin Hstaff.
    unfold dispatch, patchVoid. cbn [middlewares controller runChain].
    unfold protect, authorize. rewrite Hu.
    rewrite bool_decide_false; [done|].
    rewrite !elem_of_cons, elem_of_nil. tauto.
  - unfold dispatch, postSale. cbn [middlewares controller runChain].
    unfold protect, authorize.
    destruct (Req.user req) as [u|].
    2:{ split; [done|]. by intros [(u & ? & _) _]. }
    case_bool_decide as Hrole.
    2:{ split; [done|]. intros [(u' & [= <-] & Hr) _]. exfalso.
        apply Hrole. rewrite !elem_of_cons. tauto. }
    unfold handleValidationErrors.
    destruct (createSaleErrors isEmail (Req.body req)) eqn:He.
    + split; [|done]. intros _. split; [|done].
      exists u. split; [done|].
      rewrite !elem_of_cons, elem_of_nil in Hrole. tauto.
    + split; [done|]. by intros [_ ?].
Qed.

(** Void requests of a staff member with and without the code, and of a
    supplier. *)
Lemma void_requests_of_sample_users :
  dispatch patchVoid (voidRequest "staff" (Some " 4321 ")) = inr voidSale
  ∧ dispatch patchVoid (voidRequest "supplier" (Some "4321"))
    = inl Unauthorized
  ∧ ∃ rejection,
      dispatch patchVoid (voidRequest "staff" None) = inl rejection.
Proof.
  split_and!.
  - apply (sales_routes_authorization (λ _, true)
             (voidRequest "staff" (Some " 4321 "))).
    split.
    + eexists. split; [reflexivity|]. by right.
    + eexists. split_and!; [reflexivity|by vm_compute|done].
  - by apply (sales_routes_authorization (λ _, true)
                (voidRequest "supplier" (Some "4321")) ) with (u := User.mk 9 "supplier").
  - apply (sales_routes_authorization (λ _, true) (voidRequest "staff" None)).
    by left.
Defined.

(** ** The sale transaction *)

Module SaleEngineFacts.
Import SaleEngine.

Lemma setStock_setStock (a b : Z) (p : Product.t) :
  setStock a (setStock b p) = setStock a p.
Proof. done. Qed.

Lemma setStock_same (p : Product.t) (a : Z) :
  a = Product.stockQuantity p → setStock a p = p.
Proof. intros ->. by destruct p. Qed.

(** Giving back what a successful decrement took restores the stock map. *)
Lemma increment_undoes_decrement (productId : ObjectId) (quantity : Z)
    (ps ps' : gmap ObjectId Product.t) :
  reserveAndDecrement productId quantity ps = inr ps' →
  increment productId quantity ps' = ps.
Proof.
  unfold reserveAndDecrement, increment.
  destruct (ps !! productId) as [p|] eqn:Hp; [|done].
  destruct (Product.isActive p); [|done].
  destruct (quantity <=? Product.stockQuantity p); [|done].
  intros [= <-]. rewrite lookup_insert_eq, insert_insert_eq.
  rewrite setStock_setStock. cbn [setStock Product.stockQuantity].
  rewrite setStock_same by lia. by apply insert_id.
Qed.

Lemma decrementLines_failure (ls applied : list Line.t)
    (ps ps0 ps' : gmap ObjectId Product.t) (e : Error) :
  rollback applied ps = ps0 →
  decrementLines ls applied ps = (ps', Some e) →
  ps' = ps0.
Proof.
  revert applied ps. induction ls as [|l ls IH]; intros applied ps Hback.
  - done.
  - simpl.
    destruct (reserveAndDecrement (Line.productId l) (Line.quantity l) ps)
      as [e'|ps1] eqn:Hd.
    + by intros [= <- _].
    + apply IH. unfold rollback. simpl. fold (rollback applied).
      by rewrite (increment_undoes_decrement _ _ _ _ Hd).
Qed.

End SaleEngineFacts.

(** C1.  When [createSale] fails, at whatever step (a product that does not
    resolve, a line above the stock, a negative total, or a decrement that
    fails at commit after earlier lines were decremented), the store it
    leaves is the store it found: no sale is added and every product has the
    stock it had. *)
Theorem createSale_failure_leaves_store_unchanged
    (saleNumber : string) (now : Date) (db db' : DB)
    (req : SaleEngine.SaleRequest.t) (e : SaleEngine.Error) :
  SaleEngine.createSale saleNumber now db req = (db', inl e) →
  db' = db
  ∧ sales db' = sales db
  ∧ ∀ id, Product.stockQuantity <$> products db' !! id
          = Product.stockQuantity <$> products db !! id.
Proof.
  intros Hfail. assert (db' = db) as ->; [|done].
  revert Hfail. unfold SaleEngine.createSale.
  destruct (SaleEngine.priceLines _ _) as [e1|items]; [by intros [= <- _]|].
  cbv zeta. destruct (_ <? 0); [by intros [= <- _]|].
  destruct (SaleEngine.decrementLines _ _ _) as [ps [e2|]] eqn:Hd; [|done].
  intros [= <- _].
  apply (SaleEngineFacts.decrementLines_failure _ _ _ (products db)) in Hd;
    [|done].
  subst ps. by destruct db.
Qed.

Lemma sale_of_two_lines_is_rolled_back :
  ∃ db',
    SaleEngine.createSale "S-9" jan15 shopDB twoLinesOfHammers
    = (db', inl (SaleEngine.InsufficientStock 1 1))
    ∧ SaleEngine.priceLines (products shopDB)
        (SaleEngine.SaleRequest.items twoLinesOfHammers)
      = inr [Item.mk 1 4 120 480; Item.mk 1 4 120 480]
    ∧ db' = shopDB.
Proof.
  assert (∃ db', SaleEngine.createSale "S-9" jan15 shopDB twoLinesOfHammers
                 = (db', inl (SaleEngine.InsufficientStock 1 1)))
    as [db' Hfail] by (eexists; by vm_compute).
  exists db'. split; [done|]. split; [by vm_compute|].
  apply (createSale_failure_leaves_store_unchanged _ _ _ _ _ _ Hfail).
Defined.

(** The other ways to fail: a product that does not resolve, a line above
    the stock, a discount above the subtotal, and an inactive product that
    passes the stock check and is refused at commit after the line before it
    was decremented.  The store comes back as it was each time. *)
Lemma sales_that_fail_leave_sample_shop :
  SaleEngine.createSale "S-9" jan15 shopDB
    (SaleEngine.SaleRequest.mk [SaleEngine.Line.mk 8 1] 0 0 9)
  = (shopDB, inl (SaleEngine.ProductNotFound 8))
  ∧ SaleEngine.createSale "S-9" jan15 shopDB
      (SaleEngine.SaleRequest.mk
         [SaleEngine.Line.mk 1 2; SaleEngine.Line.mk 2 1] 0 0 9)
    = (shopDB, inl (SaleEngine.InsufficientStock 2 1))
  ∧ SaleEngine.createSale "S-9" jan15 shopDB
      (SaleEngine.SaleRequest.mk [SaleEngine.Line.mk 1 1] 500 0 9)
    = (shopDB, inl SaleEngine.InvalidAmount)
  ∧ SaleEngine.createSale "S-9" jan15 shopDB
      (SaleEngine.SaleRequest.mk
         [SaleEngine.Line.mk 1 2; SaleEngine.Line.mk 3 1] 0 0 9)
    = (shopDB, inl (SaleEngine.ProductNotFound 3)).
Proof. split_and!; by vm_compute. Qed.

(** A sale of three hammers goes through: the stock goes from 7 to 4 and the
    sale is kept, not void. *)
Lemma sale_of_three_hammers_commits :
  ∃ db' sale,
    SaleEngine.createSale "S-9" jan15 shopDB
      (SaleEngine.SaleRequest.mk [SaleEngine.Line.mk 1 3] 0 0 9)
    = (db', inr sale)
    ∧ Sale.total sale = 360 ∧ Sale.isVoid sale = false
    ∧ Product.stockQuantity <$> products db' !! 1%N = Some 4
    ∧ sales db' = sales shopDB ++ [sale].
Proof. eexists _, _. split_and!; by vm_compute. Qed.

(** * More of the code *)

(** ** Product writes and reads *)

Lemma setProducts_same (db : DB) : setProducts (products db) db = db.
Proof. by destruct db. Qed.

Lemma createProduct_ok (now : Date) (schemaDefault : Product.t) (db : DB)
    (body : Body.t) (id : ObjectId) (p : Product.t) :
  (createProduct now schemaDefault db body).2 = Ok (id, p) →
  id = fresh (dom (products db))
  ∧ products db !! id = None
  ∧ (createProduct now schemaDefault db body).1
    = setProducts (<[id := p]> (products db)) db.
Proof.
  unfold createProduct.
  destruct (Body.supplier body) as [supplierId|]; [|done].
  destruct (decide (supplierId ∈ suppliers db)); [|done].
  cbv zeta. cbn [fst snd]. intros [= <- <-]. split_and!; [done| |done].
  apply not_elem_of_dom, is_fresh.
Qed.

(** X1.  Deleting a product right after it was created gives back the
    database as it was before the creation: the id was not in use, and
    nothing but the products collection was written. *)
Theorem create_then_delete_restores_database
    (now : Date) (schemaDefault : Product.t) (db : DB) (body : Body.t)
    (id : ObjectId) (p : Product.t) :
  (createProduct now schemaDefault db body).2 = Ok (id, p) →
  products db !! id = None
  ∧ deleteProduct (createProduct now schemaDefault db body).1 id
    = (db, Ok ()).
Proof.
  intros Hok. destruct (createProduct_ok _ _ _ _ _ _ Hok) as (_ & Hfresh & ->).
  split; [done|]. unfold deleteProduct. cbn [setProducts products].
  rewrite lookup_insert_eq. cbn [suppliers sales].
  rewrite delete_insert_id by done. by destruct db.
Qed.

(** X2.  A created product can be read back under its new id, and the
    creation changes nothing else: every other id reads as before, one
    product more is stored, and suppliers and sales are as they were. *)
Theorem created_product_is_read_back
    (now : Date) (schemaDefault : Product.t) (db : DB) (body : Body.t)
    (id : ObjectId) (p : Product.t) :
  (createProduct now schemaDefault db body).2 = Ok (id, p) →
  getProduct (createProduct now schemaDefault db body).1 id = Ok p
  ∧ (∀ id', id' ≠ id →
       getProduct (createProduct now schemaDefault db body).1 id'
       = getProduct db id')
  ∧ size (products (createProduct now schemaDefault db body).1)
    = S (size (products db))
  ∧ suppliers (createProduct now schemaDefault db body).1 = suppliers db
  ∧ sales (createProduct now schemaDefault db body).1 = sales db.
Proof.
  intros Hok. destruct (createProduct_ok _ _ _ _ _ _ Hok) as (_ & Hfresh & ->).
  unfold getProduct. cbn [setProducts products suppliers sales].
  split_and!; [|intros id' Hne| |done..].
  - by rewrite lookup_insert_eq.
  - by rewrite lookup_insert_ne.
  - by apply map_size_insert_None.
Qed.

Lemma updateProduct_suppliers (now : Date) (db : DB) (id : ObjectId)
    (body : Body.t) :
  suppliers (updateProduct now db id body).1 = suppliers db.
Proof.
  unfold updateProduct. destruct (products db !! id); [|done].
  by destruct (match Body.supplier body with
               | Some s => bool_decide (s ∈ suppliers db)
               | None => true
               end).
Qed.

(** X4.  An update writes the addressed product and nothing else, whether it
    succeeds or not: the set of product ids, every other product, the
    suppliers and the sales are as before, and the product keeps its
    creation date. *)
Theorem update_touches_one_product
    (now : Date) (db : DB) (id : ObjectId) (body : Body.t) :
  dom (products (updateProduct now db id body).1) = dom (products db)
  ∧ (∀ id', id' ≠ id →
       products (updateProduct now db id body).1 !! id' = products db !! id')
  ∧ suppliers (updateProduct now db id body).1 = suppliers db
  ∧ sales (updateProduct now db id body).1 = sales db
  ∧ (∀ p p', products db !! id = Some p →
       products (updateProduct now db id body).1 !! id = Some p' →
       Product.createdAt p' = Product.createdAt p).
Proof.
  unfold updateProduct.
  destruct (products db !! id) as [p|] eqn:Hp.
  2:{ cbn [fst]. split_and!; try done. }
  destruct (match Body.supplier body with
            | Some s => bool_decide (s ∈ suppliers db)
            | None => true
            end).
  2:{ cbn [fst]. split_and!; try done; intros p1 p' [= <-]; rewrite Hp;
        by intros [= <-]. }
  cbv zeta. cbn [fst setProducts products suppliers sales].
  split_and!; try done.
  - rewrite dom_insert_L. apply elem_of_dom_2 in Hp.
    apply subseteq_union_1_L. by apply singleton_subseteq_l.
  - intros id' Hne. by rewrite lookup_insert_ne.
  - intros p1 p' [= <-]. rewrite lookup_insert_eq. intros [= <-].
    by destruct (negb _ || negb _).
Qed.

Lemma updateProduct_eq (now : Date) (db : DB) (id : ObjectId) (body : Body.t)
    (p : Product.t) :
  products db !! id = Some p →
  updateProduct now db id body
  = if supplierKnown db body
    then (setProducts (<[id := updated now body p]> (products db)) db,
          Ok (updated now body p))
    else (db, Fail 404 "Supplier not found").
Proof.
  intros Hp. unfold updateProduct, supplierKnown, updated. rewrite Hp.
  destruct (match Body.supplier body with
            | Some s => bool_decide (s ∈ suppliers db)
            | None => true
            end); [|done].
  cbv zeta. fold (effectivePrice p). fold (effectiveMarkup p).
  by destruct (Body.price body), (Body.markupPercentage body).
Qed.

Lemma effectivePrice_updated (now : Date) (body : Body.t) (p : Product.t) :
  effectivePrice (updated now body p)
  = requested (Body.price body) (effectivePrice p).
Proof.
  unfold updated, effectivePrice.
  destruct (negb _ || negb _); cbn [applyBody Product.price];
    apply orZero_castNumber.
Qed.

Lemma effectiveMarkup_updated (now : Date) (body : Body.t) (p : Product.t) :
  effectiveMarkup (updated now body p)
  = requested (Body.markupPercentage body) (effectiveMarkup p).
Proof.
  unfold updated, effectiveMarkup.
  destruct (negb _ || negb _); cbn [applyBody Product.markupPercentage];
    apply orZero_castNumber.
Qed.

Lemma castNumber_twice (f : Field) (old : option Z) :
  castNumber f (castNumber f old) = castNumber f old.
Proof. by destruct f. Qed.

Lemma requested_twice (f : Field) (current : Z) :
  requested f (requested f current) = requested f current.
Proof. by destruct f. Qed.

Lemma applyBody_twice (body body' : Body.t) (p : Product.t) :
  Body.pricingHistory body = None →
  Body.supplier body' = Body.supplier body →
  Body.name body' = Body.name body →
  Body.category body' = Body.category body →
  Body.price body' = Body.price body →
  Body.markupPercentage body' = Body.markupPercentage body →
  Body.stockQuantity body' = Body.stockQuantity body →
  Body.lowStockThreshold body' = Body.lowStockThreshold body →
  Body.isActive body' = Body.isActive body →
  applyBody body (applyBody body' p) = applyBody body' p.
Proof.
  intros Hh Hs Hn Hc Hp Hm Hq Ht Ha. unfold applyBody.
  cbn [Product.name Product.category Product.supplier Product.price
       Product.markupPercentage Product.stockQuantity
       Product.lowStockThreshold Product.isActive Product.pricingHistory
       Product.createdAt].
  rewrite Hh, Hs, Hn, Hc, Hp, Hm, Hq, Ht, Ha, !castNumber_twice.
  cbn [default]. f_equal.
  - by destruct (Body.name body).
  - by destruct (Body.category body).
  - by destruct (Body.supplier body).
  - by destruct (Body.stockQuantity body).
  - by destruct (Body.lowStockThreshold body).
  - by destruct (Body.isActive body).
Qed.

(** X5.  Sending the same update twice is the same as sending it once, for a
    body without a [pricingHistory] key: the second request finds price and
    markup unchanged, appends nothing to the history and leaves the database
    as the first one left it, whenever it is made. *)
Theorem update_twice_is_update_once
    (now now' : Date) (db : DB) (id : ObjectId) (body : Body.t)
    (p' : Product.t) :
  Body.pricingHistory body = None →
  (updateProduct now db id body).2 = Ok p' →
  updateProduct now' (updateProduct now db id body).1 id body
  = ((updateProduct now db id body).1, Ok p').
Proof.
  intros Hnone Hok.
  destruct (products db !! id) as [p|] eqn:Hp.
  2:{ unfold updateProduct in Hok. by rewrite Hp in Hok. }
  rewrite (updateProduct_eq now db id body p Hp) in *.
  destruct (supplierKnown db body) eqn:Hknown; [|done].
  cbn [fst snd] in *. injection Hok as <-.
  rewrite (updateProduct_eq now' _ id body (updated now body p))
    by (cbn [setProducts products]; apply lookup_insert_eq).
  unfold supplierKnown in *. cbn [setProducts suppliers]. rewrite Hknown.
  assert (updated now' body (updated now body p) = updated now body p) as ->.
  { unfold updated at 1.
    rewrite effectivePrice_updated, effectiveMarkup_updated, !requested_twice.
    rewrite !Z.eqb_refl. cbn [negb orb]. unfold updated.
    destruct (negb _ || negb _); by apply applyBody_twice. }
  unfold setProducts. cbn [products suppliers sales].
  by rewrite insert_insert_eq.
Qed.

Lemma pricingHistory_updated (now : Date) (body : Body.t) (p : Product.t) :
  Body.pricingHistory body = None →
  Product.pricingHistory (updated now body p)
  = if negb (requested (Body.price body) (effectivePrice p)
             =? effectivePrice p)
       || negb (requested (Body.markupPercentage body) (effectiveMarkup p)
                =? effectiveMarkup p)
    then match Product.pricingHistory p with
         | [] => [PricingEntry.mk (effectivePrice p) (effectiveMarkup p)
                    (default now (Product.createdAt p))]
         | h => h
         end
         ++ [PricingEntry.mk
               (requested (Body.price body) (effectivePrice p))
               (requested (Body.markupPercentage body) (effectiveMarkup p))
               now]
    else Product.pricingHistory p.
Proof.
  intros Hnone. unfold updated.
  destruct (negb _ || negb _); cbn [applyBody Product.pricingHistory]; [done|].
  by rewrite Hnone.
Qed.

(** X6.  Updates whose body has no [pricingHistory] key only ever append to
    the history: the old history is a prefix of the new one, which is longer
    by at most one entry (two when the history had to be seeded).  And if
    the last entry held the price and markup in effect before the update, the
    last entry holds the ones in effect after it. *)
Theorem update_only_appends_to_history
    (now : Date) (db : DB) (id : ObjectId) (body : Body.t)
    (p p' : Product.t) :
  Body.pricingHistory body = None →
  products db !! id = Some p →
  (updateProduct now db id body).2 = Ok p' →
  Product.pricingHistory p `prefix_of` Product.pricingHistory p'
  ∧ (length (Product.pricingHistory p')
     ≤ length (Product.pricingHistory p) + 2)%nat
  ∧ (Product.pricingHistory p ≠ [] →
     (length (Product.pricingHistory p')
      ≤ length (Product.pricingHistory p) + 1)%nat)
  ∧ (historyUpToDate p → historyUpToDate p').
Proof.
  intros Hnone Hp Hok. rewrite (updateProduct_eq now db id body p Hp) in Hok.
  destruct (supplierKnown db body); [|done]. cbn [snd] in Hok.
  injection Hok as <-.
  pose proof (pricingHistory_updated now body p Hnone) as Hh.
  pose proof (effectivePrice_updated now body p) as Hprice.
  pose proof (effectiveMarkup_updated now body p) as Hmarkup.
  destruct (negb _ || negb _) eqn:Hchanged.
  - rewrite Hh. split_and!.
    + destruct (Product.pricingHistory p); [apply prefix_nil|].
      by apply prefix_app_r.
    + rewrite length_app. destruct (Product.pricingHistory p); simpl; lia.
    + rewrite length_app. destruct (Product.pricingHistory p); simpl; [done|].
      lia.
    + intros _. unfold historyUpToDate. rewrite Hh, last_snoc.
      eexists. by split_and!.
  - rewrite Hh. split_and!; [done|lia|lia|].
    apply orb_false_iff in Hchanged as [H1 H2].
    apply negb_false_iff, Z.eqb_eq in H1, H2.
    unfold historyUpToDate. rewrite Hh, Hprice, Hmarkup, H1, H2. done.
Qed.

Lemma productFilter_spec (q : ProductQuery.t) (p : Product.t) :
  productFilter q p
  ↔ (∀ s, ProductQuery.supplier q = Some s → Product.supplier p = s)
    ∧ (∀ c, ProductQuery.category q = Some c → c ≠ "" →
            Product.category p = Some c)
    ∧ (∀ a, ProductQuery.isActive q = Some a →
            (Product.isActive p = true ↔ a = "true"))
    ∧ (ProductQuery.lowStock q = Some "true" →
       Product.stockQuantity p ≤ Product.lowStockThreshold p).
Proof.
  unfold productFilter. rewrite !andb_True.
  assert (Is_true (match ProductQuery.supplier q with
          | Some supplier => bool_decide (Product.supplier p = supplier)
          | None => true
          end)
          ↔ ∀ s, ProductQuery.supplier q = Some s → Product.supplier p = s)
    as ->.
  { destruct (ProductQuery.supplier q) as [s|].
    - rewrite bool_decide_spec. split; [by intros -> ? [= <-]|].
      intros Hs. by apply Hs.
    - split; [done|]. by intros _. }
  assert (Is_true (match ProductQuery.category q with
          | Some category =>
            if decide (category = "") then true
            else bool_decide (Product.category p = Some category)
          | None => true
          end)
          ↔ ∀ c, ProductQuery.category q = Some c → c ≠ "" →
                 Product.category p = Some c) as ->.
  { destruct (ProductQuery.category q) as [c|].
    - destruct (decide (c = "")) as [->|Hne].
      + split; [|done]. by intros _ ? [= <-].
      + rewrite bool_decide_spec. split; [by intros -> ? [= <-]|].
        intros Hc. by apply Hc.
    - split; [done|]. by intros _. }
  assert (Is_true (match ProductQuery.isActive q with
          | Some isActive =>
            bool_decide (Product.isActive p = bool_decide (isActive = "true"))
          | None => true
          end)
          ↔ ∀ a, ProductQuery.isActive q = Some a →
                 (Product.isActive p = true ↔ a = "true")) as ->.
  { destruct (ProductQuery.isActive q) as [a|].
    - rewrite bool_decide_spec. split.
      + intros -> ? [= <-]. by rewrite bool_decide_eq_true.
      + intros Ha. specialize (Ha a eq_refl).
        destruct (Product.isActive p); case_bool_decide; try done.
        * exfalso. tauto.
        * destruct Ha as [_ Ha]. by specialize (Ha ltac:(done)).
    - split; [done|]. by intros _. }
  assert (Is_true (if decide (ProductQuery.lowStock q = Some "true")
                   then Product.stockQuantity p
                        <=? Product.lowStockThreshold p
                   else true)
          ↔ (ProductQuery.lowStock q = Some "true" →
             Product.stockQuantity p ≤ Product.lowStockThreshold p)) as ->.
  { destruct (decide (ProductQuery.lowStock q = Some "true")) as [Hl|Hl].
    - rewrite Is_true_true, Z.leb_le. split; [done|]. intros Hs. by apply Hs.
    - split; [done|]. by intros _. }
  tauto.
Qed.

(** X7.  The product list holds exactly the stored products that pass every
    filter of the query (the supplier, the category when it is not empty,
    active or not as [isActive] says, stock at or below the threshold when
    [lowStock] is 'true'), each once, in ascending order of name, and [count]
    is their number. *)
Theorem product_list_is_filtered_and_sorted `{DocumentSort}
    (db : DB) (q : ProductQuery.t) :
  ∃ r,
    getProducts db q = Ok r
    ∧ ProductList.count r = length (ProductList.data r)
    ∧ NoDup (ProductList.data r)
    ∧ StronglySorted
        (λ a b, String.leb (Product.name a.2) (Product.name b.2))
        (ProductList.data r)
    ∧ (∀ id p,
         (id, p) ∈ ProductList.data r
         ↔ products db !! id = Some p
           ∧ (∀ s, ProductQuery.supplier q = Some s → Product.supplier p = s)
           ∧ (∀ c, ProductQuery.category q = Some c → c ≠ "" →
                   Product.category p = Some c)
           ∧ (∀ a, ProductQuery.isActive q = Some a →
                   (Product.isActive p = true ↔ a = "true"))
           ∧ (ProductQuery.lowStock q = Some "true" →
              Product.stockQuantity p ≤ Product.lowStockThreshold p)).
Proof.
  unfold getProducts. cbv zeta. eexists. split; [reflexivity|].
  cbn [ProductList.count ProductList.data].
  set (found := filter _ (map_to_list (products db))).
  pose proof (sortDocs_perm nameLe found) as Hperm.
  split_and!.
  - done.
  - rewrite Hperm. apply NoDup_filter, NoDup_map_to_list.
  - apply (sortDocs_sorted nameLe).
    + intros x y. apply stringLe_total.
    + intros x y z. apply stringLe_trans.
  - intros id p. rewrite Hperm. unfold found.
    rewrite list_elem_of_filter, elem_of_map_to_list. cbn [snd].
    rewrite productFilter_spec. tauto.
Qed.

(** X8.  The odd values of the query parameters: any [isActive] other than
    'true' lists the inactive products, as 'false' does; any [lowStock]
    other than 'true' is no filter, and neither is an empty [category]. *)
Theorem product_list_reads_flags_loosely `{DocumentSort}
    (db : DB) (q : ProductQuery.t) :
  (∀ a, ProductQuery.isActive q = Some a → a ≠ "true" →
        getProducts db q
        = getProducts db
            (ProductQuery.mk (ProductQuery.category q)
               (ProductQuery.supplier q) (ProductQuery.lowStock q)
               (Some "false")))
  ∧ (ProductQuery.lowStock q ≠ Some "true" →
     getProducts db q
     = getProducts db
         (ProductQuery.mk (ProductQuery.category q) (ProductQuery.supplier q)
            None (ProductQuery.isActive q)))
  ∧ (ProductQuery.category q = Some "" →
     getProducts db q
     = getProducts db
         (ProductQuery.mk None (ProductQuery.supplier q)
            (ProductQuery.lowStock q) (ProductQuery.isActive q))).
Proof.
  assert (∀ q', (∀ p, productFilter q p = productFilter q' p) →
                getProducts db q = getProducts db q') as Hext.
  { intros q' Heq. unfold getProducts. cbv zeta.
    assert (filter (λ p : ObjectId * Product.t, productFilter q p.2)
              (map_to_list (products db))
            = filter (λ p : ObjectId * Product.t, productFilter q' p.2)
                (map_to_list (products db))) as ->; [|done].
    apply list_filter_iff. intros [id p]. cbn [snd]. by rewrite Heq. }
  split_and!.
  - intros a Ha Hne. apply Hext. intros p. unfold productFilter.
    cbn [ProductQuery.supplier ProductQuery.category ProductQuery.isActive
         ProductQuery.lowStock].
    rewrite Ha. by rewrite (bool_decide_eq_false_2 (a = "true")).
  - intros Hl. apply Hext. intros p. unfold productFilter.
    cbn [ProductQuery.supplier ProductQuery.category ProductQuery.isActive
         ProductQuery.lowStock].
    by rewrite decide_False.
  - intros Hc. apply Hext. intros p. unfold productFilter.
    cbn [ProductQuery.supplier ProductQuery.category ProductQuery.isActive
         ProductQuery.lowStock].
    by rewrite Hc.
Qed.

(** ** Reports, more *)



Lemma getSalesReport_ok_dates `{DocumentSort} (localOffset : Z)
    (TZ : option string) (dateToString : string → string → Date → string)
    (db : DB) (q : Query.t) (r : SalesReport.t) :
  getSalesReport localOffset TZ dateToString db q = Ok r →
  ∃ startDate endDate,
    Query.startDate q = Some startDate ∧ Query.endDate q = Some endDate.
Proof.
  unfold getSalesReport.
  destruct (Query.startDate q) as [s|]; [|done].
  destruct (Query.endDate q) as [e|]; [|done]. eauto.
Qed.

Lemma dayBuckets_sum {K : Type} `{Countable K} (key : Sale.t → K)
    (docs : list Sale.t) :
  sumZ (map (λ kv, DayBucket.count kv.2)
          (map_to_list
             (group key (DayBucket.mk 0 0)
                (λ a s, DayBucket.mk (DayBucket.count a + 1)
                          (DayBucket.revenue a + Sale.total s)) docs)))
  = Z.of_nat (length docs).
Proof.
  rewrite (group_sum key _ _ DayBucket.count (λ _, 1)) by done.
  apply sumZ_ones.
Qed.

Lemma dayBuckets_inhabited {K : Type} `{Countable K} (key : Sale.t → K)
    (docs : list Sale.t) (k : K) (bucket : DayBucket.t) :
  group key (DayBucket.mk 0 0)
    (λ a s, DayBucket.mk (DayBucket.count a + 1)
              (DayBucket.revenue a + Sale.total s)) docs !! k = Some bucket →
  1 ≤ DayBucket.count bucket.
Proof.
  rewrite group_lookup.
  destruct (filter (λ d, key d = k) docs) as [|d ds]; [done|].
  rewrite dayBucket_fold. intros [= <-].
  cbn [DayBucket.count length]. lia.
Qed.

(** X9.  The day buckets of a sales report split the counted sales: every
    bucket holds at least one sale, and the counts of the buckets add up to
    [totalSales]. *)
Theorem sales_report_buckets_add_up `{DocumentSort}
    (localOffset : Z) (TZ : option string)
    (dateToString : string → string → Date → string)
    (db : DB) (q : Query.t) (r : SalesReport.t) :
  getSalesReport localOffset TZ dateToString db q = Ok r →
  sumZ (map (λ kv, DayBucket.count kv.2)
          (map_to_list (SalesReport.salesByDate r)))
  = SalesReport.totalSales r
  ∧ ∀ day bucket,
      SalesReport.salesByDate r !! day = Some bucket →
      1 ≤ DayBucket.count bucket.
Proof.
  intros Hr.
  destruct (getSalesReport_ok_dates _ _ _ _ _ _ Hr) as (s & e & Hs & He).
  rewrite (getSalesReport_eq _ _ _ _ _ _ _ Hs He) in Hr.
  injection Hr as <-.
  cbn [SalesReport.salesByDate SalesReport.totalSales].
  split; [apply dayBuckets_sum|].
  intros day bucket. apply dayBuckets_inhabited.
Qed.

(** X10.  The revenue trends and the sales report of one query count the
    same sales: at any granularity every row of the trend holds at least one
    sale, and the numbers of sales of the rows add up to the report's
    [totalSales]. *)
Theorem revenue_trends_add_up_to_sales_report `{DocumentSort}
    (localOffset : Z) (TZ : option string)
    (dateToString : string → string → Date → string)
    (db : DB) (q : Query.t) (r : SalesReport.t) :
  getSalesReport localOffset TZ dateToString db q = Ok r →
  ∃ rows,
    getRevenueTrends localOffset TZ dateToString db q = Ok rows
    ∧ sumZ (map Trend.sales rows) = SalesReport.totalSales r
    ∧ ∀ row, row ∈ rows → 1 ≤ Trend.sales row.
Proof.
  intros Hr.
  destruct (getSalesReport_ok_dates _ _ _ _ _ _ Hr) as (s & e & Hs & He).
  rewrite (getSalesReport_eq _ _ _ _ _ _ _ Hs He) in Hr.
  injection Hr as <-.
  cbn [SalesReport.totalSales].
  unfold getRevenueTrends. rewrite Hs, He. cbv zeta.
  fold (matchedSales localOffset db s e).
  eexists. split; [reflexivity|].
  set (g := group _ _ _ (matchedSales localOffset db s e)).
  set (project := λ g : string * DayBucket.t,
         Trend.mk g.1 (DayBucket.revenue g.2) (DayBucket.count g.2)).
  set (le := λ a b, String.leb (Trend.date a) (Trend.date b)).
  pose proof (sortDocs_perm le (map project (map_to_list g))) as Hperm.
  split.
  - rewrite (sumZ_perm _ _ (Permutation_map Trend.sales Hperm)).
    rewrite !map_map. cbn [project Trend.sales].
    apply dayBuckets_sum.
  - intros row. rewrite Hperm.
    change (map project) with (fmap (M := list) project).
    intros ([k bucket] & -> & Hin)%list_elem_of_fmap.
    apply elem_of_map_to_list in Hin. cbn [project Trend.sales snd].
    by eapply dayBuckets_inhabited.
Qed.

(** X16.  The buckets of the inventory report split the active products
    whose category gets a bucket (every category but the names of the members
    of [Object.prototype]): their counts add up to the number of these
    products, each of which is counted in the bucket of its category.  So the
    counts never add up to more than [totalProducts], and to less exactly when
    an active product has such a name for category. *)
Theorem inventory_categories_add_up `{DocumentSort} (db : DB)
    (r : InventoryReport.t) :
  getInventoryReport db = Ok r →
  sumZ (map (λ kv, CategoryBucket.count kv.2)
          (map_to_list (InventoryReport.byCategory r)))
  = Z.of_nat (length (bucketed db))
  ∧ (∀ id p, (id, p) ∈ bucketed db
             ↔ products db !! id = Some p ∧ Product.isActive p = true
               ∧ categoryOf p ∉ objectPrototypeMembers)
  ∧ (∀ id p, (id, p) ∈ bucketed db →
       ∃ bucket, InventoryReport.byCategory r !! categoryOf p = Some bucket
                 ∧ 1 ≤ CategoryBucket.count bucket)
  ∧ sumZ (map (λ kv, CategoryBucket.count kv.2)
            (map_to_list (InventoryReport.byCategory r)))
    ≤ Z.of_nat (InventoryReport.totalProducts r)
  ∧ (sumZ (map (λ kv, CategoryBucket.count kv.2)
             (map_to_list (InventoryReport.byCategory r)))
     = Z.of_nat (InventoryReport.totalProducts r)
     ↔ ∀ id p, products db !! id = Some p → Product.isActive p = true →
               categoryOf p ∉ objectPrototypeMembers).
Proof.
  intros Hr. rewrite (byCategory_counts db r Hr).
  destruct (inventory_report_over_active_products db)
    as (r' & Hr' & _ & _ & Htotal & _ & _ & _ & _ & _ & _ & _ & Hbucket & _).
  rewrite Hr in Hr'. injection Hr' as <-. rewrite Htotal.
  assert (∀ id p, (id, p) ∈ bucketed db
                  ↔ products db !! id = Some p ∧ Product.isActive p = true
                    ∧ categoryOf p ∉ objectPrototypeMembers) as Hin.
  { intros id p. unfold bucketed.
    rewrite list_elem_of_filter, elem_of_activeProducts. cbn [snd]. tauto. }
  split_and!.
  - done.
  - exact Hin.
  - intros id p Hp. rewrite Hbucket.
    apply Hin in Hp as (Hp & Hactive & Hno).
    rewrite bool_decide_eq_false_2 by done.
    assert ((id, p) ∈ filter (λ p' : ObjectId * Product.t,
                                categoryOf p'.2 = categoryOf p)
                        (activeProducts db)) as Hfilter.
    { apply list_elem_of_filter. split; [done|].
      by apply elem_of_activeProducts. }
    destruct (filter _ (activeProducts db)) as [|d ds];
      [by apply elem_of_nil in Hfilter|].
    eexists. split; [reflexivity|]. cbn [CategoryBucket.count length]. lia.
  - apply inj_le. unfold bucketed. apply length_filter.
  - unfold bucketed. split.
    + intros Heq id p Hp Hactive Hmember.
      apply Nat2Z.inj in Heq.
      assert (length (filter (λ p' : ObjectId * Product.t,
                                categoryOf p'.2 ∉ objectPrototypeMembers)
                        (activeProducts db))
              < length (activeProducts db))%nat; [|lia].
      apply (length_filter_lt _ _ (id, p)); [|by intros Hno; apply Hno].
      by apply elem_of_activeProducts.
    + intros Hall. f_equal. f_equal. apply filter_all_elem.
      intros [id p] Hp. apply elem_of_activeProducts in Hp as [Hp Hactive].
      by apply (Hall id p).
Qed.

Lemma StronglySorted_take {A : Type} (R : relation A) (n : nat) (l : list A) :
  StronglySorted R l →
  StronglySorted R (take n l)
  ∧ ∀ x y, x ∈ take n l → y ∈ l → y ∉ take n l → R x y.
Proof.
  intros Hs. rewrite <- (take_drop n l) in Hs at 1.
  apply StronglySorted_app in Hs as (Hcross & Hl & _).
  split; [done|]. intros x y Hx Hy Hny. apply Hcross; [done|].
  rewrite <- (take_drop n l) in Hy. apply elem_of_app in Hy as [Hy|Hy]; done.
Qed.

Lemma createdAtDesc_sorted `{DocumentSort} (l : list Sale.t) :
  StronglySorted (λ a b, Sale.createdAt b ≤ Sale.createdAt a)
    (sortDocs createdAtDesc l).
Proof.
  eapply StronglySorted_weaken;
    [|apply (sortDocs_sorted createdAtDesc l)].
  - intros a b Hab. unfold createdAtDesc in Hab.
    by apply Is_true_true, Z.leb_le in Hab.
  - intros x y. unfold createdAtDesc.
    destruct (Z.le_ge_cases (Sale.createdAt x) (Sale.createdAt y)).
    + right. by apply Is_true_true, Z.leb_le.
    + left. by apply Is_true_true, Z.leb_le.
  - intros x y z. unfold createdAtDesc.
    rewrite !Is_true_true, !Z.leb_le. lia.
Qed.

(** X11.  The sales a sales report lists are the newest counted ones: at most
    100, all of them when fewer are counted, in descending order of creation,
    and no counted sale that is left out is newer than a listed one.  Each
    listed sale carries its own line items, the product of an item being
    resolved to its id and name when it still exists. *)
Theorem sales_report_lists_newest_hundred `{DocumentSort}
    (localOffset : Z) (TZ : option string)
    (dateToString : string → string → Date → string)
    (db : DB) (q : Query.t) (startDate endDate : Date) (r : SalesReport.t) :
  Query.startDate q = Some startDate → Query.endDate q = Some endDate →
  getSalesReport localOffset TZ dateToString db q = Ok r →
  length (SalesReport.data r)
  = (100 `min` Z.to_nat (SalesReport.totalSales r))%nat
  ∧ StronglySorted
      (λ a b, Sale.createdAt (PSale.sale b) ≤ Sale.createdAt (PSale.sale a))
      (SalesReport.data r)
  ∧ (PSale.sale <$> SalesReport.data r)
      ⊆+ matchedSales localOffset db startDate endDate
  ∧ (∀ listed s,
       listed ∈ SalesReport.data r →
       s ∈ matchedSales localOffset db startDate endDate →
       s ∉ (PSale.sale <$> SalesReport.data r) →
       Sale.createdAt s ≤ Sale.createdAt (PSale.sale listed))
  ∧ (∀ listed, listed ∈ SalesReport.data r →
       Forall2 (λ (item : PItem.t) (i : Item.t),
                  PItem.quantity item = Item.quantity i
                  ∧ PItem.subtotal item = Item.subtotal i
                  ∧ PItem.product item
                    = (λ p, (Item.product i, Product.name p))
                        <$> products db !! Item.product i)
         (PSale.items listed) (Sale.items (PSale.sale listed))).
Proof.
  intros Hs He Hr.
  rewrite (getSalesReport_eq _ _ _ _ _ _ _ Hs He) in Hr.
  injection Hr as <-.
  cbn [SalesReport.data SalesReport.totalSales].
  unfold listedSales.
  set (counted := matchedSales localOffset db startDate endDate).
  pose proof (sortDocs_perm createdAtDesc counted) as Hperm.
  destruct (StronglySorted_take _ 100 _ (createdAtDesc_sorted counted))
    as [Hsorted Hnewest].
  split_and!.
  - rewrite length_map, length_take, Nat2Z.id.
    by rewrite (Permutation_length Hperm).
  - change (map (populate db)) with (fmap (M := list) (populate db)).
    by apply (StronglySorted_fmap _
                (λ a b, Sale.createdAt b ≤ Sale.createdAt a)).
  - rewrite populate_sale.
    transitivity (sortDocs createdAtDesc counted).
    + apply sublist_submseteq, sublist_take.
    + by apply Permutation_submseteq.
  - intros listed s Hl Hin Hout. rewrite populate_sale in Hout.
    apply list_elem_of_fmap in Hl as (s' & -> & Hs').
    cbn [populate PSale.sale].
    apply Hnewest; [done| |done]. by rewrite Hperm.
  - intros listed Hl. apply list_elem_of_fmap in Hl as (s' & -> & _).
    cbn [populate PSale.sale PSale.items].
    induction (Sale.items s') as [|i l IH]; [constructor|].
    cbn [map]. constructor; [|done].
    cbn [PItem.quantity PItem.subtotal PItem.product].
    split_and!; [done|done|]. by destruct (products db !! Item.product i).
Qed.

Lemma totalQuantityDesc_sorted `{DocumentSort} (l : list TopRow.t) :
  StronglySorted (λ a b, TopRow.totalQuantity b ≤ TopRow.totalQuantity a)
    (sortDocs totalQuantityDesc l).
Proof.
  eapply StronglySorted_weaken;
    [|apply (sortDocs_sorted totalQuantityDesc l)].
  - intros a b Hab. unfold totalQuantityDesc in Hab.
    by apply Is_true_true, Z.leb_le in Hab.
  - intros x y. unfold totalQuantityDesc.
    destruct (Z.le_ge_cases (TopRow.totalQuantity x) (TopRow.totalQuantity y)).
    + right. by apply Is_true_true, Z.leb_le.
    + left. by apply Is_true_true, Z.leb_le.
  - intros x y z. unfold totalQuantityDesc.
    rewrite !Is_true_true, !Z.leb_le. lia.
Qed.

(** X14.  Asking the top products for fewer rows cuts the same ranking
    shorter, however the database orders products that sold the same in
    either request: for limits [0 < n ≤ m] the quantities of the answer for
    [n] are the first [n] quantities of the answer for [m], the answer for
    [n] has at most [n] rows, and no row of the longer answer that it leaves
    out has sold more than a row it keeps.  (The rows themselves may differ
    where quantities tie.)  A limit that is not a positive number gives no
    list at all but the error of the database. *)
Theorem top_products_limit_is_a_prefix (H1 H2 : DocumentSort)
    (localOffset : Z) (db : DB) (startDate endDate : option Date)
    (groupBy : option string) :
  (∀ n m, 0 < n ≤ m →
     ∃ short long,
       getTopProducts (H := H1) localOffset db
         (Query.mk startDate endDate (Some (Int n)) groupBy) = Ok short
       ∧ getTopProducts (H := H2) localOffset db
           (Query.mk startDate endDate (Some (Int m)) groupBy) = Ok long
       ∧ TopRow.totalQuantity <$> short
         = take (Z.to_nat n) (TopRow.totalQuantity <$> long)
       ∧ Z.of_nat (length short) ≤ n
       ∧ ∀ kept left, kept ∈ short → left ∈ long → left ∉ short →
           TopRow.totalQuantity left ≤ TopRow.totalQuantity kept)
  ∧ (∀ n, n ≤ 0 →
       getTopProducts (H := H1) localOffset db
         (Query.mk startDate endDate (Some (Int n)) groupBy) = NextError)
  ∧ getTopProducts (H := H1) localOffset db
      (Query.mk startDate endDate (Some NaN) groupBy) = NextError.
Proof.
  split_and!.
  - intros n m [Hn Hm]. unfold getTopProducts. cbv zeta.
    cbn [Query.limit default id].
    change (topProductsMatch localOffset
              (Query.mk startDate endDate (Some (Int m)) groupBy))
      with (topProductsMatch localOffset
              (Query.mk startDate endDate (Some (Int n)) groupBy)).
    set (rows := topProductRows db _).
    set (sorted1 := sortDocs (DocumentSort := H1) totalQuantityDesc rows).
    set (sorted2 := sortDocs (DocumentSort := H2) totalQuantityDesc rows).
    assert ((0 <? n) = true) as -> by (apply Z.ltb_lt; lia).
    assert ((0 <? m) = true) as -> by (apply Z.ltb_lt; lia).
    pose proof (totalQuantityDesc_sorted (H := H1) rows) as Hsorted1.
    pose proof (totalQuantityDesc_sorted (H := H2) rows) as Hsorted2.
    fold sorted1 in Hsorted1. fold sorted2 in Hsorted2.
    assert (sorted1 ≡ₚ sorted2) as Hperm.
    { unfold sorted1, sorted2. by rewrite !sortDocs_perm. }
    assert (TopRow.totalQuantity <$> sorted1
            = TopRow.totalQuantity <$> sorted2) as Hquantities.
    { assert (AntiSymm (=) (λ a b : Z, b ≤ a)) as Hanti
        by (intros a b ? ?; lia).
      apply (StronglySorted_unique (λ a b : Z, b ≤ a)).
      - by apply (StronglySorted_fmap _
                    (λ a b, TopRow.totalQuantity b ≤ TopRow.totalQuantity a)).
      - by apply (StronglySorted_fmap _
                    (λ a b, TopRow.totalQuantity b ≤ TopRow.totalQuantity a)).
      - by apply fmap_Permutation. }
    eexists _, _. split_and!; [reflexivity|reflexivity| | |].
    + rewrite !fmap_take, Hquantities, take_take. f_equal. lia.
    + rewrite length_take. lia.
    + intros kept left Hk Hl Hnl.
      destruct (StronglySorted_take _ (Z.to_nat n) _ Hsorted1) as [_ Hcross].
      apply Hcross; [done| |done].
      rewrite Hperm. by eapply subseteq_take.
  - intros n Hn. unfold getTopProducts. cbv zeta.
    cbn [Query.limit default id].
    by assert ((0 <? n) = false) as -> by (apply Z.ltb_ge; lia).
  - done.
Qed.

Lemma filter_without {A : Type} (P : A → Prop) `{∀ x, Decision (P x)}
    (before after : list A) (x : A) :
  ¬ P x → filter P (before ++ x :: after) = filter P (before ++ after).
Proof. intros Hx. by rewrite !filter_app, filter_cons_False. Qed.

(** X12.  A void sale is as good as absent to the reports: with a void sale
    anywhere in the collection, the sales report, the revenue trends and the
    top products answer exactly what they answer without it. *)
Theorem void_sale_changes_no_report `{DocumentSort}
    (localOffset : Z) (TZ : option string)
    (dateToString : string → string → Date → string)
    (db : DB) (before after : list Sale.t) (s : Sale.t) (q : Query.t) :
  sales db = before ++ after →
  Sale.isVoid s = true →
  getSalesReport localOffset TZ dateToString
    (mkDB (products db) (suppliers db) (before ++ s :: after)) q
  = getSalesReport localOffset TZ dateToString db q
  ∧ getRevenueTrends localOffset TZ dateToString
      (mkDB (products db) (suppliers db) (before ++ s :: after)) q
    = getRevenueTrends localOffset TZ dateToString db q
  ∧ getTopProducts localOffset
      (mkDB (products db) (suppliers db) (before ++ s :: after)) q
    = getTopProducts localOffset db q.
Proof.
  intros Hdb Hvoid.
  assert (∀ a b, ¬ matchSale a b s) as Hmatch.
  { intros a b. unfold matchSale. rewrite Hvoid. cbn [negb].
    rewrite andb_false_r. by intros []. }
  assert (¬ topProductsMatch localOffset q s) as Htop.
  { unfold topProductsMatch.
    destruct (Query.startDate q), (Query.endDate q);
      try apply Hmatch; rewrite Hvoid; by intros []. }
  split_and!.
  - unfold getSalesReport.
    destruct (Query.startDate q) as [startDate|]; [|done].
    destruct (Query.endDate q) as [endDate|]; [|done].
    cbv zeta. unfold costOfGoodsSold, populate. cbn [sales products].
    rewrite Hdb. by rewrite filter_without by apply Hmatch.
  - unfold getRevenueTrends.
    destruct (Query.startDate q) as [startDate|]; [|done].
    destruct (Query.endDate q) as [endDate|]; [|done].
    cbv zeta. cbn [sales]. rewrite Hdb.
    by rewrite filter_without by apply Hmatch.
  - unfold getTopProducts, topProductRows. cbv zeta. cbn [sales products].
    rewrite Hdb. by rewrite filter_without by apply Htop.
Qed.

(** X13.  The dates of a report.  The sales report and the revenue trends
    answer 400 exactly when one of the two dates is missing, and a report
    otherwise.  The top products never answer 400: given one date only they
    ignore it and rank the sales of all time, as with no date at all. *)
Theorem reports_with_missing_dates `{DocumentSort}
    (localOffset : Z) (TZ : option string)
    (dateToString : string → string → Date → string)
    (db : DB) (q : Query.t) :
  (getSalesReport localOffset TZ dateToString db q
   = Fail 400 "Start date and end date are required"
   ↔ Query.startDate q = None ∨ Query.endDate q = None)
  ∧ (getRevenueTrends localOffset TZ dateToString db q
     = Fail 400 "Start date and end date are required"
     ↔ Query.startDate q = None ∨ Query.endDate q = None)
  ∧ (Query.startDate q ≠ None ∧ Query.endDate q ≠ None
     ↔ (∃ r, getSalesReport localOffset TZ dateToString db q = Ok r)
       ∧ ∃ rows, getRevenueTrends localOffset TZ dateToString db q = Ok rows)
  ∧ (∀ status message, getTopProducts localOffset db q ≠ Fail status message)
  ∧ (Query.startDate q = None ∨ Query.endDate q = None →
     getTopProducts localOffset db q
     = getTopProducts localOffset db
         (Query.mk None None (Query.limit q) (Query.groupBy q)))
  ∧ (Query.startDate q = None ∨ Query.endDate q = None →
     ∀ s, s ∈ sales db → Sale.isVoid s = false →
          topProductsMatch localOffset q s).
Proof.
  split_and!.
  - unfold getSalesReport.
    destruct (Query.startDate q), (Query.endDate q); cbv zeta;
      (split; [try done; intros _; by eauto | try done; by intros [|]]).
  - unfold getRevenueTrends.
    destruct (Query.startDate q), (Query.endDate q); cbv zeta;
      (split; [try done; intros _; by eauto | try done; by intros [|]]).
  - unfold getSalesReport, getRevenueTrends.
    destruct (Query.startDate q), (Query.endDate q); cbv zeta;
      split; try (intros [? ?]; done); try (intros [[? ?] _]; done).
    intros _. eauto.
  - intros status message. unfold getTopProducts. cbv zeta.
    destruct (default (Int 10) (Query.limit q)) as [|n]; [done|].
    by destruct (0 <? n).
  - intros Hnone. unfold getTopProducts, topProductsMatch. cbv zeta.
    cbn [Query.startDate Query.endDate Query.limit].
    by destruct Hnone as [-> | ->]; destruct (Query.startDate q).
  - intros Hnone s _ Hs. unfold topProductsMatch.
    by destruct Hnone as [-> | ->]; destruct (Query.startDate q);
      rewrite Hs.
Qed.

Lemma setHoursEndOfDay_same_day (localOffset : Z) (t t' : Date) :
  (t + localOffset) `div` msPerDay = (t' + localOffset) `div` msPerDay →
  setHoursEndOfDay localOffset t = setHoursEndOfDay localOffset t'.
Proof. intros Hday. unfold setHoursEndOfDay. by rewrite Hday. Qed.

(** X18.  The end of a range counts by its day, the start by its instant:
    two end dates on the same day of the server's calendar give the same sales
    report, revenue trends and top products, whatever their hours.  For the
    start date only the instant matters: a sale made before it on the same
    day is not counted. *)
Theorem end_date_counts_by_day `{DocumentSort}
    (localOffset : Z) (TZ : option string)
    (dateToString : string → string → Date → string)
    (db : DB) (startDate : option Date) (endDate endDate' : Date)
    (limit : option Parsed) (groupBy : option string) :
  (endDate + localOffset) `div` msPerDay
  = (endDate' + localOffset) `div` msPerDay →
  getSalesReport localOffset TZ dateToString db
    (Query.mk startDate (Some endDate) limit groupBy)
  = getSalesReport localOffset TZ dateToString db
      (Query.mk startDate (Some endDate') limit groupBy)
  ∧ getRevenueTrends localOffset TZ dateToString db
      (Query.mk startDate (Some endDate) limit groupBy)
    = getRevenueTrends localOffset TZ dateToString db
        (Query.mk startDate (Some endDate') limit groupBy)
  ∧ getTopProducts localOffset db
      (Query.mk startDate (Some endDate) limit groupBy)
    = getTopProducts localOffset db
        (Query.mk startDate (Some endDate') limit groupBy)
  ∧ (∀ start s, startDate = Some start → Sale.createdAt s < start →
       topProductsMatch localOffset
         (Query.mk startDate (Some endDate) limit groupBy) s = false).
Proof.
  intros Hday. apply setHoursEndOfDay_same_day in Hday.
  split_and!.
  - unfold getSalesReport. cbn [Query.startDate Query.endDate].
    by rewrite Hday.
  - unfold getRevenueTrends. cbn [Query.startDate Query.endDate Query.groupBy].
    by rewrite Hday.
  - unfold getTopProducts, topProductsMatch.
    cbn [Query.startDate Query.endDate Query.limit].
    by rewrite Hday.
  - intros start s -> Hlt. unfold topProductsMatch, matchSale.
    cbn [Query.startDate Query.endDate].
    by assert ((start <=? Sale.createdAt s) = false) as ->
      by (apply Z.leb_gt; lia).
Qed.

Lemma dateFormat_day (groupBy : option string) :
  groupBy ≠ Some "week" → groupBy ≠ Some "month" →
  dateFormat groupBy = "%Y-%m-%d".
Proof.
  intros Hw Hm. unfold dateFormat. destruct groupBy as [g|]; [|done].
  cbn [default id]. repeat case_decide; congruence.
Qed.

(** X19.  The daily revenue trends are the day buckets of the sales report:
    for the same dates, and a [groupBy] that is neither 'week' nor 'month'
    (absent, 'day' or anything else, which is read as 'day'), the trend has
    one row per bucket of [salesByDate], with its date, revenue and count. *)
Theorem daily_trends_are_the_report_buckets `{DocumentSort}
    (localOffset : Z) (TZ : option string)
    (dateToString : string → string → Date → string)
    (db : DB) (q : Query.t) (r : SalesReport.t) :
  getSalesReport localOffset TZ dateToString db q = Ok r →
  Query.groupBy q ≠ Some "week" → Query.groupBy q ≠ Some "month" →
  ∃ rows,
    getRevenueTrends localOffset TZ dateToString db q = Ok rows
    ∧ length rows = size (SalesReport.salesByDate r)
    ∧ ∀ row, row ∈ rows
        ↔ SalesReport.salesByDate r !! Trend.date row
          = Some (DayBucket.mk (Trend.sales row) (Trend.revenue row)).
Proof.
  intros Hr Hw Hm.
  destruct (getSalesReport_ok_dates _ _ _ _ _ _ Hr) as (s & e & Hs & He).
  rewrite (getSalesReport_eq _ _ _ _ _ _ _ Hs He) in Hr.
  injection Hr as <-.
  cbn [SalesReport.salesByDate].
  unfold getRevenueTrends. rewrite Hs, He. cbv zeta.
  rewrite (dateFormat_day _ Hw Hm).
  fold (matchedSales localOffset db s e).
  change (λ s0 : Sale.t,
            dateToString "%Y-%m-%d" (timezone TZ) (Sale.createdAt s0))
    with (dayOf TZ dateToString).
  set (g := group _ _ _ (matchedSales localOffset db s e)).
  set (project := λ g : string * DayBucket.t,
         Trend.mk g.1 (DayBucket.revenue g.2) (DayBucket.count g.2)).
  set (le := λ a b, String.leb (Trend.date a) (Trend.date b)).
  pose proof (sortDocs_perm le (map project (map_to_list g))) as Hperm.
  eexists. split; [reflexivity|]. split.
  - by rewrite (Permutation_length Hperm), length_map, length_map_to_list.
  - intros row. rewrite Hperm.
    change (map project) with (fmap (M := list) project).
    rewrite list_elem_of_fmap. split.
    + intros ([day [count revenue]] & -> & Hin).
      by apply elem_of_map_to_list in Hin.
    + intros Hin. apply elem_of_map_to_list in Hin.
      eexists. split; [|exact Hin]. by destruct row.
Qed.

Lemma optionStringLe_total (a b : option string) :
  optionStringLe a b ∨ optionStringLe b a.
Proof.
  destruct a as [x|], b as [y|]; cbn; auto. apply stringLe_total.
Qed.

Lemma optionStringLe_trans (a b c : option string) :
  optionStringLe a b → optionStringLe b c → optionStringLe a c.
Proof.
  destruct a as [x|], b as [y|], c as [z|]; cbn; try done.
  apply stringLe_trans.
Qed.

Lemma optionStringLe_antisym (a b : option string) :
  optionStringLe a b → optionStringLe b a → a = b.
Proof.
  destruct a as [x|], b as [y|]; cbn; try done.
  intros Hxy Hyx. f_equal. exact (anti_symm String.le x y Hxy Hyx).
Qed.

Lemma categoryNameLe_total (a b : ObjectId * Product.t) :
  categoryNameLe a b ∨ categoryNameLe b a.
Proof.
  unfold categoryNameLe. repeat case_decide; try congruence.
  - apply stringLe_total.
  - apply optionStringLe_total.
Qed.

Lemma categoryNameLe_trans (a b c : ObjectId * Product.t) :
  categoryNameLe a b → categoryNameLe b c → categoryNameLe a c.
Proof.
  unfold categoryNameLe.
  destruct (decide (Product.category a.2 = Product.category b.2)) as [Hab|Hab],
    (decide (Product.category b.2 = Product.category c.2)) as [Hbc|Hbc],
    (decide (Product.category a.2 = Product.category c.2)) as [Hac|Hac];
    try congruence.
  - apply stringLe_trans.
  - intros H1 H2. destruct Hab. apply optionStringLe_antisym; [done|].
    by rewrite Hac.
  - apply optionStringLe_trans.
Qed.

Lemma filter_iff_elem {A : Type} (P Q : A → Prop) `{∀ x, Decision (P x)}
    `{∀ x, Decision (Q x)} (l : list A) :
  (∀ x, x ∈ l → (P x ↔ Q x)) → filter P l = filter Q l.
Proof.
  intros HPQ. induction l as [|x l IH]; [done|].
  rewrite !filter_cons.
  rewrite IH by (intros y Hy; apply HPQ; by apply list_elem_of_further).
  apply decide_ext, HPQ, list_elem_of_here.
Qed.

(** X17.  The lists of the inventory report come in one order, by category
    (products without one first) and by name inside a category; the low-stock
    and the out-of-stock lists are taken from the product list in that order,
    so neither count exceeds [totalProducts].  Where no active product has a
    negative threshold, every out-of-stock product is also listed as low on
    stock. *)
Theorem inventory_lists_are_ordered `{DocumentSort} (db : DB)
    (r : InventoryReport.t) :
  getInventoryReport db = Ok r →
  StronglySorted
    (λ a b, optionStringLe (Product.category a.2) (Product.category b.2)
            ∧ (Product.category a.2 = Product.category b.2 →
               String.leb (Product.name a.2) (Product.name b.2)))
    (InventoryReport.data r)
  ∧ InventoryReport.lowStockProducts r `sublist_of` InventoryReport.data r
  ∧ InventoryReport.outOfStockProducts r `sublist_of` InventoryReport.data r
  ∧ (InventoryReport.lowStockCount r ≤ InventoryReport.totalProducts r)%nat
  ∧ (InventoryReport.outOfStockCount r ≤ InventoryReport.totalProducts r)%nat
  ∧ ((∀ id p, products db !! id = Some p → Product.isActive p = true →
              0 ≤ Product.lowStockThreshold p) →
     InventoryReport.outOfStockProducts r
       `sublist_of` InventoryReport.lowStockProducts r
     ∧ (InventoryReport.outOfStockCount r
        ≤ InventoryReport.lowStockCount r)%nat).
Proof.
  unfold getInventoryReport. cbv zeta. intros [= <-].
  cbn [InventoryReport.data InventoryReport.lowStockProducts
       InventoryReport.outOfStockProducts InventoryReport.lowStockCount
       InventoryReport.outOfStockCount InventoryReport.totalProducts].
  fold (activeProducts db).
  set (sorted := sortDocs categoryNameLe (activeProducts db)).
  pose proof (sortDocs_perm categoryNameLe (activeProducts db)) as Hperm.
  fold sorted in Hperm.
  split_and!.
  - eapply StronglySorted_weaken;
      [|apply (sortDocs_sorted categoryNameLe (activeProducts db));
        [apply categoryNameLe_total|apply categoryNameLe_trans]].
    intros a b. unfold categoryNameLe. case_decide as Hc.
    + intros Hn. split; [|done]. rewrite Hc.
      destruct (Product.category b.2) as [c|]; [|done].
      cbn. destruct (stringLe_total c c); done.
    + intros Hle. split; [done|]. by intros Heq.
  - apply sublist_filter.
  - apply sublist_filter.
  - apply sublist_length, sublist_filter.
  - apply sublist_length, sublist_filter.
  - intros Hthreshold.
    assert (filter (λ p : ObjectId * Product.t, Product.stockQuantity p.2 = 0)
              sorted
            = filter (λ p : ObjectId * Product.t,
                        Product.stockQuantity p.2 = 0)
                (filter (λ p : ObjectId * Product.t,
                           Product.stockQuantity p.2
                           ≤ Product.lowStockThreshold p.2) sorted)) as ->.
    { rewrite list_filter_filter. apply filter_iff_elem.
      intros [id p] Hin. cbn [snd].
      split; [|by intros [? _]]. intros Hzero. split; [done|].
      rewrite Hzero. rewrite Hperm in Hin.
      apply elem_of_activeProducts in Hin as [Hp Hactive].
      by eapply Hthreshold. }
    split; [apply sublist_filter|apply sublist_length, sublist_filter].
Qed.

(** ** The sales routes, more *)

Lemma rule_nil (holds : bool) (message : string) :
  rule holds message = [] ↔ holds.
Proof. unfold rule. by destruct holds. Qed.

Lemma flat_map_rule_nil {A : Type} (holds : A → bool) (message : string)
    (l : list A) :
  flat_map (λ x, rule (holds x) message) l = [] ↔ Forall (λ x, holds x) l.
Proof.
  induction l as [|x l IH]; [by split; [constructor|]|].
  cbn [flat_map]. rewrite app_nil, rule_nil, IH, Forall_cons. tauto.
Qed.

Lemma isMongoId_spec (s : string) : isMongoId s ↔ mongoId s.
Proof.
  unfold isMongoId, mongoId, isHexadecimal, hexDigits.
  rewrite andb_True, orb_True, (Is_true_true (_ =? _)%nat), Nat.eqb_eq.
  split.
  - intros [Hhex Hlen]. split; [done|]. destruct Hhex as [Hhex|Hhex].
    + left. by apply andb_True in Hhex as [_ ?].
    + right. destruct s as [|zero [|c rest]]; [done..|].
      rewrite !andb_True, !bool_decide_spec in Hhex.
      destruct Hhex as [[-> Hc] [_ Hrest]]. by exists c, rest.
  - intros [Hlen Hhex]. split; [|done]. destruct Hhex as [Hhex|Hhex].
    + left. apply andb_True. split; [|done]. by rewrite Hlen.
    + right. destruct Hhex as (c & rest & -> & Hc & Hrest).
      rewrite !andb_True, !bool_decide_spec. split_and!; [done..| |done].
      cbn [String.length] in Hlen.
      by assert (String.length rest = 22%nat) as -> by lia.
Qed.

(** X20.  A body passes the validation of the create route exactly when: the
    email, if present, is one; the phone, if present, is 1 to 11 digits once
    trimmed; [items] is an array that is not empty, each item with an integer
    quantity of at least 1 and a product of 24 characters that are
    hexadecimal digits (the first two may also be [0x] or [0h]: such an id
    passes the validation, though it is no ObjectId); the payment method is
    one of the four; discount and tax, if present, are numbers not below 0.
    [customerName] is never a cause of rejection. *)
Theorem create_sale_validation (isEmail : string → bool) (b : SaleBody.t) :
  (createSaleErrors isEmail b = []
   ↔ (∀ e, SaleBody.customerEmail b = Some e → isEmail e)
     ∧ (∀ p, SaleBody.customerPhone b = Some p →
             (1 ≤ String.length (trim p) ≤ 11)%nat
             ∧ forallb isDigit (list_ascii_of_string (trim p)))
     ∧ (∃ l, SaleBody.items b = Some l ∧ l ≠ []
             ∧ Forall (λ i, mongoId (ItemBody.product i)
                            ∧ ∃ n, ItemBody.quantity i = Some n ∧ 1 ≤ n) l)
     ∧ (∃ m, SaleBody.paymentMethod b = Some m
             ∧ m ∈ ["cash"; "card"; "mobile_payment"; "other"])
     ∧ (∀ d, SaleBody.discount b = Some d → ∃ x, d = Some x ∧ 0 ≤ x)
     ∧ (∀ t, SaleBody.tax b = Some t → ∃ x, t = Some x ∧ 0 ≤ x))
  ∧ (∀ name,
       createSaleErrors isEmail b
       = createSaleErrors isEmail
           (SaleBody.mk name (SaleBody.customerEmail b)
              (SaleBody.customerPhone b) (SaleBody.items b)
              (SaleBody.paymentMethod b) (SaleBody.discount b)
              (SaleBody.tax b) (SaleBody.superAdminCode b))).
Proof.
  split; [|done].
  unfold createSaleErrors. rewrite !app_nil, !rule_nil, !flat_map_rule_nil.
  assert (match SaleBody.customerEmail b with
          | Some e => rule (isEmail e) "Please provide a valid email"
          | None => []
          end = []
          ↔ ∀ e, SaleBody.customerEmail b = Some e → isEmail e) as ->.
  { destruct (SaleBody.customerEmail b) as [e|].
    - rewrite rule_nil. split; [by intros ? ? [= <-]|]. intros He. by apply He.
    - split; [|done]. by intros _ ?. }
  assert (match SaleBody.customerPhone b with
          | Some p =>
            rule (String.length (trim p) <=? 11)%nat
              "Phone number must be maximum 11 digits"
            ++ rule (allDigits (trim p))
                 "Phone number must contain only digits"
          | None => []
          end = []
          ↔ ∀ p, SaleBody.customerPhone b = Some p →
                 (1 ≤ String.length (trim p) ≤ 11)%nat
                 ∧ forallb isDigit (list_ascii_of_string (trim p))) as ->.
  { assert (∀ p,
      rule (String.length (trim p) <=? 11)%nat
        "Phone number must be maximum 11 digits"
      ++ rule (allDigits (trim p)) "Phone number must contain only digits"
      = []
      ↔ (1 ≤ String.length (trim p) ≤ 11)%nat
        ∧ forallb isDigit (list_ascii_of_string (trim p))) as Hphone.
    { intros p. rewrite app_nil, !rule_nil. unfold allDigits.
      rewrite andb_True, negb_True.
      rewrite (Is_true_true (_ <=? _)%nat), Nat.leb_le.
      rewrite (Is_true_true (_ =? _)%nat), Nat.eqb_eq.
      intuition lia. }
    destruct (SaleBody.customerPhone b) as [p|].
    - rewrite Hphone. split; [by intros ? ? [= <-]|]. intros Hp. by apply Hp.
    - split; [|done]. by intros _ ?. }
  assert (Is_true (match SaleBody.items b with
                   | Some l => (1 <=? length l)%nat
                   | None => false
                   end)
          ∧ Forall (λ x, isMongoId (ItemBody.product x))
              (default [] (SaleBody.items b))
          ∧ Forall (λ x, Is_true (match ItemBody.quantity x with
                                  | Some n => 1 <=? n
                                  | None => false
                                  end)) (default [] (SaleBody.items b))
          ↔ ∃ l, SaleBody.items b = Some l ∧ l ≠ []
                 ∧ Forall (λ i, mongoId (ItemBody.product i)
                                ∧ ∃ n, ItemBody.quantity i = Some n ∧ 1 ≤ n)
                     l) as Hitems.
  { assert (∀ i, Is_true (match ItemBody.quantity i with
                          | Some n => 1 <=? n
                          | None => false
                          end)
                 ↔ ∃ n, ItemBody.quantity i = Some n ∧ 1 ≤ n) as Hq.
    { intros i. destruct (ItemBody.quantity i) as [n|].
      - rewrite Is_true_true, Z.leb_le. split; [by eauto|].
        by intros (? & [= <-] & ?).
      - split; [done|]. by intros (? & ? & _). }
    destruct (SaleBody.items b) as [l|]; cbn [default id].
    - rewrite Is_true_true, Nat.leb_le, <- Forall_and. split.
      + intros [Hlen Hall]. exists l. split_and!; [done| |].
        * intros ->. cbn in Hlen. lia.
        * eapply Forall_impl; [exact Hall|]. intros i [? ?].
          by rewrite <- Hq, <- isMongoId_spec.
      + intros (l' & [= <-] & Hne & Hall). split.
        * destruct l; [done|]. cbn. lia.
        * eapply Forall_impl; [exact Hall|]. intros i [? ?].
          by rewrite Hq, isMongoId_spec.
    - split; [by intros [[] _]|]. by intros (? & ? & _). }
  assert (Is_true (match SaleBody.paymentMethod b with
                   | Some m =>
                     bool_decide
                       (m ∈ ["cash"; "card"; "mobile_payment"; "other"])
                   | None => false
                   end)
          ↔ ∃ m, SaleBody.paymentMethod b = Some m
                 ∧ m ∈ ["cash"; "card"; "mobile_payment"; "other"]) as ->.
  { destruct (SaleBody.paymentMethod b) as [m|].
    - rewrite bool_decide_spec. split; [by eauto|]. by intros (? & [= <-] & ?).
    - split; [done|]. by intros (? & ? & _). }
  assert (∀ (f : option (option Z)) (message : string),
    match f with
    | Some d => rule (match d with Some x => 0 <=? x | None => false end)
                  message
    | None => []
    end = []
    ↔ ∀ d, f = Some d → ∃ x, d = Some x ∧ 0 ≤ x) as Hnumber.
  { intros f message. destruct f as [[x|]|].
    - rewrite rule_nil, Is_true_true, Z.leb_le. split.
      + intros Hx d [= <-]. eauto.
      + intros Hd. by destruct (Hd _ eq_refl) as (? & [= <-] & ?).
    - rewrite rule_nil. split; [done|].
      intros Hd. by destruct (Hd _ eq_refl) as (? & ? & _).
    - split; [|done]. by intros _ ?. }
  rewrite !Hnumber. rewrite <- Hitems. tauto.
Qed.

(** ** Product units *)

Lemma standard_units_table :
  Forall (λ u,
    getUnitAbbreviation (Unit.value u) = Unit.abbreviation u
    ∧ getUnitAbbreviation (Unit.abbreviation u) = Unit.abbreviation u
    ∧ (String.length (Unit.abbreviation u) <=? String.length (Unit.value u))%nat
      = true) STANDARD_UNITS.
Proof. unfold STANDARD_UNITS. repeat (constructor; [by vm_compute|]). constructor. Qed.

Lemma getUnitAbbreviation_cases (unitValue : string) :
  (∃ u, u ∈ STANDARD_UNITS ∧ Unit.value u = unitValue
        ∧ getUnitAbbreviation unitValue = Unit.abbreviation u)
  ∨ ((∀ u, u ∈ STANDARD_UNITS → Unit.value u ≠ unitValue)
     ∧ getUnitAbbreviation unitValue = unitValue).
Proof.
  unfold getUnitAbbreviation.
  destruct (find _ STANDARD_UNITS) as [u|] eqn:Hfind.
  - left. apply find_some in Hfind as [Hin Hu].
    apply bool_decide_eq_true in Hu. exists u.
    by rewrite list_elem_of_In.
  - right. split; [|done]. intros u Hin Hu.
    rewrite list_elem_of_In in Hin.
    pose proof (find_none _ _ Hfind u Hin) as Hno. cbn in Hno.
    by apply bool_decide_eq_false in Hno.
Qed.

(** X21.  The abbreviation of a unit: a standard unit gives its abbreviation,
    any other value comes back as it is; the result is never longer than the
    value, abbreviating it again changes nothing, and two standard units
    never share an abbreviation. *)
Theorem unit_abbreviation (unitValue : string) :
  (∀ u, u ∈ STANDARD_UNITS → Unit.value u = unitValue →
        getUnitAbbreviation unitValue = Unit.abbreviation u)
  ∧ ((∀ u, u ∈ STANDARD_UNITS → Unit.value u ≠ unitValue) →
     getUnitAbbreviation unitValue = unitValue)
  ∧ (String.length (getUnitAbbreviation unitValue) ≤ String.length unitValue)%nat
  ∧ getUnitAbbreviation (getUnitAbbreviation unitValue)
    = getUnitAbbreviation unitValue
  ∧ (∀ u u', u ∈ STANDARD_UNITS → u' ∈ STANDARD_UNITS →
             Unit.abbreviation u = Unit.abbreviation u' → u = u').
Proof.
  pose proof standard_units_table as Htable.
  rewrite Forall_forall in Htable.
  split_and!.
  - intros u Hin <-. by apply Htable.
  - intros Hno.
    destruct (getUnitAbbreviation_cases unitValue) as [(u & Hin & Hv & _)|[_ ?]];
      [|done].
    by destruct (Hno u Hin).
  - destruct (getUnitAbbreviation_cases unitValue)
      as [(u & Hin & <- & ->)|[_ ->]]; [|done].
    destruct (Htable u Hin) as (_ & _ & Hlen). by apply Nat.leb_le.
  - destruct (getUnitAbbreviation_cases unitValue)
      as [(u & Hin & <- & ->)|[_ Hsame]]; [|by rewrite !Hsame].
    by destruct (Htable u Hin) as (_ & ? & _).
  - intros u u' Hu Hu' Heq. revert u' Hu' Heq.
    unfold STANDARD_UNITS in *.
    repeat (apply elem_of_cons in Hu as [->|Hu]);
      try (by apply elem_of_nil in Hu);
      intros u' Hu';
      repeat (apply elem_of_cons in Hu' as [->|Hu']);
      try (by apply elem_of_nil in Hu'); cbn; congruence.
Qed.

Lemma append_empty_r (s : string) : s +:+ "" = s.
Proof.
  induction s as [|c s IH]; [done|].
  change (String c s +:+ "") with (String c (s +:+ "")). by f_equal.
Qed.

Lemma append_assoc (a b c : string) : (a +:+ b) +:+ c = a +:+ b +:+ c.
Proof.
  induction a as [|x a IH]; [done|].
  change (String x ((a +:+ b) +:+ c) = String x (a +:+ b +:+ c)).
  by f_equal.
Qed.

Lemma append_nonempty_l (s t : string) : s ≠ "" → s +:+ t ≠ "".
Proof. by destruct s. Qed.

Lemma append_nonempty_r (s t : string) : t ≠ "" → s +:+ t ≠ "".
Proof. destruct s; [done|]. by intros _. Qed.

(** X22.  The description of a product is empty exactly when the product has
    no name.  Otherwise it is the name, preceded by the amount and the
    abbreviated unit when the product has both (an amount of 0 counts as
    none) and followed by the sub-category in brackets when it has one. *)
Theorem product_description (product : Described.t) :
  (formatProductDescription product = ""
   ↔ Described.name product = None ∨ Described.name product = Some "")
  ∧ (∀ name, Described.name product = Some name → name ≠ "" →
       formatProductDescription product
       = match Described.amount product, Described.unit product with
         | Some amount, Some unit =>
           if decide (amount = 0 ∨ unit = "") then ""
           else pretty amount +:+ getUnitAbbreviation unit +:+ " "
         | _, _ => ""
         end
         +:+ name
         +:+ match Described.subCategory product with
             | Some subCategory =>
               if decide (subCategory = "") then ""
               else " (" +:+ subCategory +:+ ")"
             | None => ""
             end)
  ∧ (∀ name,
       Described.name product = Some name →
       (Described.amount product = None ∨ Described.amount product = Some 0
        ∨ Described.unit product = None ∨ Described.unit product = Some "") →
       (Described.subCategory product = None
        ∨ Described.subCategory product = Some "") →
       formatProductDescription product = name).
Proof.
  assert (∀ name, Described.name product = Some name → name ≠ "" →
    formatProductDescription product
    = match Described.amount product, Described.unit product with
      | Some amount, Some unit =>
        if decide (amount = 0 ∨ unit = "") then ""
        else pretty amount +:+ getUnitAbbreviation unit +:+ " "
      | _, _ => ""
      end
      +:+ name
      +:+ match Described.subCategory product with
          | Some subCategory =>
            if decide (subCategory = "") then ""
            else " (" +:+ subCategory +:+ ")"
          | None => ""
          end) as Hform.
  { intros name Hname Hne. unfold formatProductDescription.
    rewrite Hname. cbn [truthyString default id].
    rewrite bool_decide_eq_false_2 by done. cbn [negb]. cbv zeta.
    pose proof append_empty_r as Hnil. pose proof append_assoc as Hassoc.
    destruct (Described.amount product) as [amount|],
      (Described.unit product) as [unit|],
      (Described.subCategory product) as [subCategory|];
      cbn [truthyNumber truthyString andb default id];
      repeat case_decide; repeat case_bool_decide;
      try (destruct (Z.eqb_spec amount 0)); cbn [negb andb app join];
      rewrite ?Hnil, ?Hassoc; try done; try tauto;
      try (by destruct name). }
  split_and!.
  - destruct (Described.name product) as [name|] eqn:Hname.
    + destruct (decide (name = "")) as [->|Hne].
      * split; [by right|]. intros _. unfold formatProductDescription.
        by rewrite Hname.
      * rewrite (Hform name) by done. split.
        -- intros Hempty. exfalso. revert Hempty.
           apply append_nonempty_r, append_nonempty_l, Hne.
        -- intros [|[= ?]]; done.
    + split; [by left|]. intros _. unfold formatProductDescription.
      by rewrite Hname.
  - exact Hform.
  - intros name Hname Hamount Hsub.
    destruct (decide (name = "")) as [->|Hne].
    { unfold formatProductDescription. by rewrite Hname. }
    rewrite (Hform name) by done.
    pose proof append_empty_r as Hnil.
    destruct Hsub as [-> | ->]; cbn [decide];
      destruct (Described.amount product) as [amount|],
        (Described.unit product) as [unit|];
      rewrite ?decide_True by done; rewrite ?Hnil; try done;
      rewrite decide_True; rewrite ?Hnil; try done;
      destruct Hamount as [|[[= ->]|[|[= ->]]]]; try done; by auto.
Qed.

(** ** The stock history *)

Lemma requiredString_nil (path : string) (v : option string) :
  requiredString path v = [] ↔ ∃ s, v = Some s ∧ trim s ≠ "".
Proof.
  unfold requiredString. destruct v as [s|].
  - case_decide as Hs.
    + split; [done|]. by intros (? & [= <-] & ?).
    + split; [by eauto|done].
  - split; [done|]. by intros (? & ? & _).
Qed.

Lemma requiredValue_nil {A : Type} (path : string) (message : option string)
    (v : option A) :
  requiredValue path message v = [] ↔ ∃ x, v = Some x.
Proof.
  unfold requiredValue. destruct v as [x|].
  - split; [by eauto|done].
  - split; [done|]. by intros (? & ?).
Qed.

Lemma minNumber_nil (path : string) (bound : Z) (message : string)
    (v : option Z) :
  minNumber path bound message v = [] ↔ ∀ n, v = Some n → bound ≤ n.
Proof.
  unfold minNumber. destruct v as [n|].
  - destruct (Z.ltb_spec n bound).
    + split; [done|]. intros Hn. specialize (Hn n eq_refl). lia.
    + split; [|done]. by intros _ ? [= <-].
  - split; [|done]. by intros _ ?.
Qed.

Lemma validateStockHistory_nil (d : StockHistoryInput.t) :
  validateStockHistory d = []
  ↔ ∃ transactionId product productName stockQuantity dateDelivered
      totalCost addedBy,
      d = StockHistoryInput.mk (Some transactionId) (Some product)
            (Some productName) (Some stockQuantity) (Some dateDelivered)
            (Some totalCost) (Some addedBy)
      ∧ trim transactionId ≠ "" ∧ trim productName ≠ ""
      ∧ 1 ≤ stockQuantity ∧ 0 ≤ totalCost.
Proof.
  unfold validateStockHistory.
  rewrite !app_nil, !requiredString_nil, !requiredValue_nil, !minNumber_nil.
  destruct d as [transactionId product productName stockQuantity
                 dateDelivered totalCost addedBy].
  cbn [StockHistoryInput.transactionId StockHistoryInput.product
       StockHistoryInput.productName StockHistoryInput.stockQuantity
       StockHistoryInput.dateDelivered StockHistoryInput.totalCost
       StockHistoryInput.addedBy].
  split.
  - intros ((t & -> & Ht) & (p & ->) & (n & -> & Hn) & (q & ->) & Hq
            & (dd & ->) & (c & ->) & Hc & (a & ->)).
    exists t, p, n, q, dd, c, a. split_and!; [done|done|done| |].
    + by apply Hq.
    + by apply Hc.
  - intros (t & p & n & q & dd & c & a & [= -> -> -> -> -> -> ->]
            & Ht & Hn & Hq & Hc).
    split_and!; eauto; by intros ? [= <-].
Qed.

Lemma createStockHistory_cases (now : Date) (stored : list StockHistory.t)
    (d : StockHistoryInput.t) :
  (∃ errors, errors ≠ []
     ∧ createStockHistory now stored d = (stored, inl errors))
  ∨ (∃ transactionId product productName stockQuantity dateDelivered
       totalCost addedBy,
       d = StockHistoryInput.mk (Some transactionId) (Some product)
             (Some productName) (Some stockQuantity) (Some dateDelivered)
             (Some totalCost) (Some addedBy)
       ∧ trim transactionId ≠ "" ∧ trim productName ≠ ""
       ∧ 1 ≤ stockQuantity ∧ 0 ≤ totalCost
       ∧ (trim transactionId ∉ map StockHistory.transactionId stored)
       ∧ createStockHistory now stored d
         = (stored
            ++ [StockHistory.mk (trim transactionId) product
                  (trim productName) stockQuantity dateDelivered totalCost
                  addedBy now now],
            inr (StockHistory.mk (trim transactionId) product
                   (trim productName) stockQuantity dateDelivered totalCost
                   addedBy now now))).
Proof.
  unfold createStockHistory.
  destruct (validateStockHistory d) as [|e errors] eqn:Hvalid.
  - apply validateStockHistory_nil in Hvalid
      as (t & p & n & q & dd & c & a & -> & Ht & Hn & Hq & Hc).
    cbn [StockHistoryInput.transactionId StockHistoryInput.product
         StockHistoryInput.productName StockHistoryInput.stockQuantity
         StockHistoryInput.dateDelivered StockHistoryInput.totalCost
         StockHistoryInput.addedBy].
    case_bool_decide as Hdup.
    + left. exists [DuplicateKey "transactionId"]. by split.
    + right. exists t, p, n, q, dd, c, a. by split_and!.
  - left. exists (e :: errors). by split.
Qed.

(** X23.  Creating a stock-history record keeps the collection as the schema
    wants it: no two records with one [transactionId], no empty id or product
    name, quantities of at least 1, costs not below 0.  A refused record
    leaves the collection as it was; an accepted one is added at its end,
    with both timestamps at the time of creation. *)
Theorem stock_history_keeps_schema (now : Date) (stored : list StockHistory.t)
    (d : StockHistoryInput.t) :
  schemaHolds stored →
  schemaHolds (createStockHistory now stored d).1
  ∧ (∀ errors, (createStockHistory now stored d).2 = inl errors →
       errors ≠ [] ∧ (createStockHistory now stored d).1 = stored)
  ∧ (∀ doc, (createStockHistory now stored d).2 = inr doc →
       (createStockHistory now stored d).1 = stored ++ [doc]
       ∧ StockHistory.createdAt doc = now
       ∧ StockHistory.updatedAt doc = now
       ∧ Some (StockHistory.stockQuantity doc)
         = StockHistoryInput.stockQuantity d
       ∧ Some (StockHistory.totalCost doc) = StockHistoryInput.totalCost d
       ∧ Some (StockHistory.product doc) = StockHistoryInput.product d).
Proof.
  intros [Hnodup Hall].
  destruct (createStockHistory_cases now stored d)
    as [(errors & Hne & ->)
       |(t & p & n & q & dd & c & a & -> & Ht & Hn & Hq & Hc & Hnew & ->)];
    cbn [fst snd].
  - split_and!; [done| |done]. by intros ? [= <-].
  - split_and!; [|done|by intros ? [= <-]].
    split.
    + rewrite map_app. cbn [map StockHistory.transactionId].
      apply NoDup_app. split_and!; [done| |apply NoDup_singleton].
      intros x Hx Hx'. apply list_elem_of_singleton in Hx' as ->. done.
    + apply Forall_app. split; [done|]. by repeat constructor.
Qed.

(** X24.  A stock-history record is accepted exactly when every field is
    given, the id and the product name are not blank, the quantity is at
    least 1, the cost is not below 0 and the trimmed id is not stored yet.
    So an id that differs from a stored one only by the blanks around it is
    refused as a duplicate. *)
Theorem stock_history_acceptance (now : Date) (stored : list StockHistory.t)
    (d : StockHistoryInput.t) :
  ((∃ doc, (createStockHistory now stored d).2 = inr doc)
   ↔ ∃ transactionId product productName stockQuantity dateDelivered
       totalCost addedBy,
       d = StockHistoryInput.mk (Some transactionId) (Some product)
             (Some productName) (Some stockQuantity) (Some dateDelivered)
             (Some totalCost) (Some addedBy)
       ∧ trim transactionId ≠ "" ∧ trim productName ≠ ""
       ∧ 1 ≤ stockQuantity ∧ 0 ≤ totalCost
       ∧ trim transactionId ∉ map StockHistory.transactionId stored)
  ∧ (∀ doc later d' transactionId,
       (createStockHistory now stored d).2 = inr doc →
       StockHistoryInput.transactionId d' = Some transactionId →
       trim transactionId = StockHistory.transactionId doc →
       ∃ errors,
         createStockHistory later (createStockHistory now stored d).1 d'
         = ((createStockHistory now stored d).1, inl errors)).
Proof.
  split.
  - split.
    + intros [doc Hdoc].
      destruct (createStockHistory_cases now stored d)
        as [(errors & _ & Hc)
           |(t & p & n & q & dd & c & a & -> & Ht & Hn & Hq & Hc & Hnew & _)].
      * by rewrite Hc in Hdoc.
      * exists t, p, n, q, dd, c, a. by split_and!.
    + intros (t & p & n & q & dd & c & a & -> & Ht & Hn & Hq & Hc & Hnew).
      unfold createStockHistory.
      assert (validateStockHistory
                (StockHistoryInput.mk (Some t) (Some p) (Some n) (Some q)
                   (Some dd) (Some c) (Some a)) = []) as ->.
      { apply validateStockHistory_nil.
        exists t, p, n, q, dd, c, a. by split_and!. }
      cbn [StockHistoryInput.transactionId StockHistoryInput.product
           StockHistoryInput.productName StockHistoryInput.stockQuantity
           StockHistoryInput.dateDelivered StockHistoryInput.totalCost
           StockHistoryInput.addedBy].
      rewrite bool_decide_eq_false_2 by done. by eexists.
  - intros doc later d' t' Hdoc Ht' Htrim.
    set (stored' := (createStockHistory now stored d).1).
    assert (StockHistory.transactionId doc
            ∈ map StockHistory.transactionId stored') as Hin.
    { unfold stored'.
      destruct (createStockHistory_cases now stored d)
        as [(errors & _ & Hc)|(? & ? & ? & ? & ? & ? & ? & _ & _ & _ & _ & _
                               & _ & Hc)];
        rewrite Hc in Hdoc |- *; cbn [fst snd] in Hdoc |- *; [done|].
      injection Hdoc as <-. rewrite map_app, elem_of_app. right.
      apply list_elem_of_here. }
    destruct (createStockHistory_cases later stored' d')
      as [(errors & _ & Hc)|(t & ? & ? & ? & ? & ? & ? & -> & _ & _ & _ & _
                             & Hnew & _)].
    + by eexists.
    + cbn [StockHistoryInput.transactionId] in Ht'. injection Ht' as ->.
      by rewrite Htrim in Hnew.
Qed.

(** ** The profile page *)

Module ProfileFacts.
Import Profile.

Lemma length_string_of_list_ascii (l : list ascii) :
  String.length (string_of_list_ascii l) = length l.
Proof. induction l as [|c l IH]; [done|]. cbn. by rewrite IH. Qed.

Lemma forallb_filter_same {A : Type} (f : A → bool) (l : list A) :
  forallb f (List.filter f l) = true.
Proof.
  induction l as [|x l IH]; [done|]. cbn.
  destruct (f x) eqn:Hx; [|done]. cbn. by rewrite Hx.
Qed.

Lemma digitsOnly_digits (value : string) :
  forallb isDigit (list_ascii_of_string (digitsOnly value)) = true.
Proof.
  unfold digitsOnly. rewrite list_ascii_of_string_of_list_ascii.
  apply forallb_filter_same.
Qed.

Lemma handleInputChange_valid (name value : string) (st : State) :
  validPhone (formData st) →
  validPhone (formData (handleInputChange name value st)).
Proof.
  intros Hvalid. unfold handleInputChange.
  destruct (decide (name = "phone")) as [->|Hname]; cbv zeta.
  - destruct (Nat.leb_spec (String.length (digitsOnly value)) 11); [|done].
    cbn [setFormData formData]. intros phone. rewrite lookup_insert_eq.
    intros [= <-]. split; [done|]. by rewrite digitsOnly_digits.
  - cbn [setFormData formData]. intros phone.
    rewrite lookup_insert_ne by done. apply Hvalid.
Qed.

Lemma handleInputChange_rest (name value : string) (st : State) :
  isEditing (handleInputChange name value st) = isEditing st
  ∧ isPasswordModalOpen (handleInputChange name value st)
    = isPasswordModalOpen st
  ∧ loading (handleInputChange name value st) = loading st
  ∧ passwordLoading (handleInputChange name value st) = passwordLoading st
  ∧ passwordData (handleInputChange name value st) = passwordData st.
Proof.
  unfold handleInputChange.
  destruct (decide (name = "phone")); cbv zeta; [|done].
  by destruct (_ <=? _)%nat.
Qed.

Lemma typeAll_rest (changes : list (string * string)) (st : State) :
  isEditing (typeAll changes st) = isEditing st
  ∧ isPasswordModalOpen (typeAll changes st) = isPasswordModalOpen st
  ∧ loading (typeAll changes st) = loading st
  ∧ passwordLoading (typeAll changes st) = passwordLoading st
  ∧ passwordData (typeAll changes st) = passwordData st.
Proof.
  revert st. induction changes as [|[name value] changes IH]; intros st;
    [done|].
  change (typeAll ((name, value) :: changes) st)
    with (typeAll changes (Profile.handleInputChange name value st)).
  destruct (IH (handleInputChange name value st)) as (-> & -> & -> & -> & ->).
  apply handleInputChange_rest.
Qed.

Lemma phoneNumber_filled (f : gmap string string) :
  phoneNumber (orEmpty (f !! "phone"))
  ↔ (filled f "phone" && (11 <? String.length (orEmpty (f !! "phone")))%nat
     = false)
    ∧ (filled f "phone" && negb (allDigits (orEmpty (f !! "phone")))
       = false).
Proof.
  unfold phoneNumber, filled, allDigits.
  set (phone := orEmpty (f !! "phone")).
  destruct (decide (phone = "")) as [Hempty|Hne].
  - rewrite Hempty. rewrite bool_decide_eq_true_2 by done. cbn.
    split; [done|]. intros _. split; [lia|done].
  - rewrite bool_decide_eq_false_2 by done. cbn [negb andb].
    assert ((String.length phone =? 0)%nat = false) as ->.
    { apply Nat.eqb_neq. by destruct phone. }
    cbn [negb andb]. rewrite Nat.ltb_ge, negb_false_iff, Is_true_true.
    tauto.
Qed.

End ProfileFacts.

(** X25.  Typing keeps the phone of the profile form valid: whatever is
    typed into whatever fields, a phone of at most 11 digits stays one (a
    change of the phone is stripped of everything but digits, and dropped
    when more than 11 remain).  Typing touches nothing but the form. *)
Theorem profile_typing_keeps_phone_valid
    (changes : list (string * string)) (st : Profile.State) :
  validPhone (Profile.formData st) →
  validPhone (Profile.formData (typeAll changes st))
  ∧ Profile.isEditing (typeAll changes st) = Profile.isEditing st
  ∧ Profile.isPasswordModalOpen (typeAll changes st)
    = Profile.isPasswordModalOpen st
  ∧ Profile.loading (typeAll changes st) = Profile.loading st
  ∧ Profile.passwordLoading (typeAll changes st) = Profile.passwordLoading st
  ∧ Profile.passwordData (typeAll changes st) = Profile.passwordData st.
Proof.
  intros Hvalid. split; [|apply ProfileFacts.typeAll_rest].
  revert st Hvalid.
  induction changes as [|[name value] changes IH]; intros st Hvalid; [done|].
  change (typeAll ((name, value) :: changes) st)
    with (typeAll changes (Profile.handleInputChange name value st)).
  by apply IH, ProfileFacts.handleInputChange_valid.
Qed.

(** X26.  Saving the profile sends the form exactly when its phone is empty
    or at most 11 digits: then [updateProfile] is called once, with the form
    as it stands, the form is kept, [loading] ends false, and the page leaves
    the edit mode and reloads the user exactly when the update succeeded.
    Otherwise nothing is sent and nothing changes but an error shown. *)
Theorem profile_save_sends_valid_form
    (updateProfile fetchUser : Profile.Outcome) (st : Profile.State) :
  (phoneNumber (Profile.orEmpty (Profile.formData st !! "phone")) →
   ∃ st' rest,
     Profile.handleSave updateProfile fetchUser st
     = (st', Profile.UpdateProfile (Profile.formData st) :: rest)
     ∧ (∀ f, Profile.UpdateProfile f ∉ rest)
     ∧ (Profile.FetchUser ∈ rest ↔ updateProfile = Profile.Succeeded)
     ∧ Profile.formData st' = Profile.formData st
     ∧ Profile.passwordData st' = Profile.passwordData st
     ∧ Profile.loading st' = false
     ∧ Profile.isEditing st'
       = match updateProfile with
         | Profile.Succeeded => false
         | _ => Profile.isEditing st
         end)
  ∧ (¬ phoneNumber (Profile.orEmpty (Profile.formData st !! "phone")) →
     ∃ message,
       Profile.handleSave updateProfile fetchUser st
       = (st, [Profile.Toast message])).
Proof.
  unfold Profile.handleSave. cbv zeta.
  pose proof (ProfileFacts.phoneNumber_filled (Profile.formData st)) as Hphone.
  destruct (Profile.filled (Profile.formData st) "phone"
            && (11 <? String.length
                        (Profile.orEmpty (Profile.formData st !! "phone")))%nat)
    eqn:Hlong.
  { split; [|by eauto]. intros Hvalid. apply Hphone in Hvalid as [? _]. done. }
  destruct (Profile.filled (Profile.formData st) "phone"
            && negb (allDigits
                       (Profile.orEmpty (Profile.formData st !! "phone"))))
    eqn:Hdigits.
  { split; [|by eauto]. intros Hvalid. apply Hphone in Hvalid as [_ ?]. done. }
  split; [|intros Hinvalid; destruct Hinvalid; by apply Hphone].
  intros _.
  destruct updateProfile as [|message|]; [destruct fetchUser| |];
    eexists _, _; cbn [app Profile.formData Profile.passwordData
                       Profile.loading Profile.isEditing];
    (split_and!; [reflexivity| | |done..]);
    try (intros f Hin; repeat (apply elem_of_cons in Hin as [?|Hin]);
         try done; by apply elem_of_nil in Hin);
    try (split; [done|]; intros _; apply list_elem_of_here);
    try (split; [|done]; intros Hin;
         repeat (apply elem_of_cons in Hin as [?|Hin]); try done;
         by apply elem_of_nil in Hin).
Qed.

(** X27.  Resetting the password calls [resetPassword] exactly when the three
    fields are filled, the new password has at least 8 characters and the
    confirmation equals it; it is then called once, with the current and the
    new password.  On success the modal closes and the three fields are
    cleared, so that a second reset is refused; on failure they stay as
    typed.  When a check fails nothing is called and nothing changes.  The
    profile form is never touched. *)
Theorem profile_password_reset
    (resetPassword : Profile.Outcome) (st : Profile.State) :
  let currentPassword :=
    Profile.orEmpty (Profile.passwordData st !! "currentPassword") in
  let newPassword :=
    Profile.orEmpty (Profile.passwordData st !! "newPassword") in
  let confirmPassword :=
    Profile.orEmpty (Profile.passwordData st !! "confirmPassword") in
  let accepted :=
    currentPassword ≠ "" ∧ newPassword ≠ "" ∧ confirmPassword ≠ ""
    ∧ (8 ≤ String.length newPassword)%nat ∧ newPassword = confirmPassword in
  (accepted →
   ∃ st' rest,
     Profile.handleResetPassword resetPassword st
     = (st', Profile.ResetPassword currentPassword newPassword :: rest)
     ∧ (∀ a b, Profile.ResetPassword a b ∉ rest)
     ∧ Profile.formData st' = Profile.formData st
     ∧ Profile.passwordLoading st' = false
     ∧ (resetPassword = Profile.Succeeded →
        rest = [] ∧ Profile.isPasswordModalOpen st' = false
        ∧ Profile.passwordData st' = Profile.emptyPasswordData
        ∧ ∀ again, Profile.handleResetPassword again st'
                   = (st', [Profile.Toast "All password fields are required"]))
     ∧ (resetPassword ≠ Profile.Succeeded →
        (∃ message, rest = [Profile.Toast message])
        ∧ Profile.isPasswordModalOpen st' = Profile.isPasswordModalOpen st
        ∧ Profile.passwordData st' = Profile.passwordData st))
  ∧ (¬ accepted →
     ∃ message,
       Profile.handleResetPassword resetPassword st
       = (st, [Profile.Toast message])).
Proof.
  cbv zeta. unfold Profile.handleResetPassword, Profile.filled. cbv zeta.
  set (currentPassword :=
         Profile.orEmpty (Profile.passwordData st !! "currentPassword")).
  set (newPassword :=
         Profile.orEmpty (Profile.passwordData st !! "newPassword")).
  set (confirmPassword :=
         Profile.orEmpty (Profile.passwordData st !! "confirmPassword")).
  destruct (decide (currentPassword = "")) as [Hc|Hc].
  { rewrite (bool_decide_eq_true_2 _ Hc). cbn [negb orb].
    split; [by intros (? & _)|]. by eauto. }
  rewrite (bool_decide_eq_false_2 _ Hc).
  destruct (decide (newPassword = "")) as [Hn|Hn].
  { rewrite (bool_decide_eq_true_2 _ Hn). cbn [negb orb].
    split; [by intros (_ & ? & _)|]. by eauto. }
  rewrite (bool_decide_eq_false_2 _ Hn).
  destruct (decide (confirmPassword = "")) as [Hf|Hf].
  { rewrite (bool_decide_eq_true_2 _ Hf). cbn [negb orb].
    split; [by intros (_ & _ & ? & _)|]. by eauto. }
  rewrite (bool_decide_eq_false_2 _ Hf). cbn [negb orb].
  destruct (Nat.ltb_spec (String.length newPassword) 8) as [Hlen|Hlen].
  { split; [intros (_ & _ & _ & ? & _); lia|]. by eauto. }
  destruct (decide (newPassword = confirmPassword)) as [Heq|Heq].
  2:{ rewrite (bool_decide_eq_false_2 _ Heq). cbn [negb].
      split; [by intros (_ & _ & _ & _ & ?)|]. by eauto. }
  rewrite (bool_decide_eq_true_2 _ Heq). cbn [negb].
  split; [|intros Hno; destruct Hno; by split_and!].
  intros _.
  assert (∀ message a b,
            Profile.ResetPassword a b ∉ [Profile.Toast message]) as Htoast.
  { intros message a b Hin. apply list_elem_of_singleton in Hin. done. }
  destruct resetPassword as [|message|]; eexists _, _;
    cbn [app Profile.formData Profile.passwordData Profile.passwordLoading
         Profile.isPasswordModalOpen];
    (split_and!; [reflexivity| |done|done| |]); try done;
    try apply Htoast.
  - intros a b Hin. by apply elem_of_nil in Hin.
  - intros _. split_and!; [by eauto|done..].
  - intros _. split_and!; [by eauto|done..].
Qed.

(** X28.  Cancelling discards what was typed: with a user in the session the
    form is the user's own data again and the edit mode is left, whatever
    was typed before.  Without a user the form stays as typed.  Closing the
    password modal clears its three fields, whatever they held. *)
Theorem profile_cancel_discards_edits
    (user : Profile.AuthUser.t) (changes : list (string * string))
    (st : Profile.State) :
  Profile.handleCancel (Some user) (typeAll changes st)
  = Profile.handleCancel (Some user) st
  ∧ Profile.formData (Profile.handleCancel (Some user) st)
    = Profile.formOfUser user
  ∧ Profile.isEditing (Profile.handleCancel (Some user) st) = false
  ∧ Profile.formData (Profile.handleCancel None (typeAll changes st))
    = Profile.formData (typeAll changes st)
  ∧ (∀ name value,
       Profile.handleClosePasswordModal
         (Profile.handlePasswordChange name value st)
       = Profile.handleClosePasswordModal st)
  ∧ Profile.passwordData (Profile.handleClosePasswordModal st)
    = Profile.emptyPasswordData
  ∧ Profile.isPasswordModalOpen (Profile.handleClosePasswordModal st) = false.
Proof.
  split_and!; try done.
  unfold Profile.handleCancel, Profile.syncUser, Profile.setFormData.
  cbv zeta.
  cbn [Profile.isEditing Profile.isPasswordModalOpen Profile.loading
       Profile.passwordLoading Profile.formData Profile.passwordData].
  by destruct (ProfileFacts.typeAll_rest changes st) as (_ & -> & -> & -> & ->).
Qed.

(** ** Product writes that are refused, and deletion *)

(** X3.  A product write that does not succeed changes nothing.  Creation
    answers 404 exactly when the body names no supplier or one that is not
    stored; an update answers 404 for the product exactly when it is not
    stored, and 404 for the supplier exactly when the product is stored and
    the body names a supplier that is not; a deletion answers 404 exactly
    when the product is not stored.  In each case the database stays as it
    was. *)
Theorem refused_product_write_changes_nothing
    (now : Date) (schemaDefault : Product.t) (db : DB) (id : ObjectId)
    (body : Body.t) :
  ((∀ created, (createProduct now schemaDefault db body).2 ≠ Ok created) →
   (createProduct now schemaDefault db body).1 = db)
  ∧ (createProduct now schemaDefault db body
     = (db, Fail 404 "Supplier not found")
     ↔ ∀ s, Body.supplier body = Some s → s ∉ suppliers db)
  ∧ ((∀ p, (updateProduct now db id body).2 ≠ Ok p) →
     (updateProduct now db id body).1 = db)
  ∧ (updateProduct now db id body = (db, Fail 404 "Product not found")
     ↔ products db !! id = None)
  ∧ (updateProduct now db id body = (db, Fail 404 "Supplier not found")
     ↔ products db !! id ≠ None
       ∧ ∃ s, Body.supplier body = Some s ∧ s ∉ suppliers db)
  ∧ ((deleteProduct db id).2 ≠ Ok () → (deleteProduct db id).1 = db)
  ∧ (deleteProduct db id = (db, Fail 404 "Product not found")
     ↔ products db !! id = None).
Proof.
  split_and!.
  - unfold createProduct. destruct (Body.supplier body) as [s|]; [|done].
    destruct (decide (s ∈ suppliers db)); [|done].
    cbv zeta. cbn [fst snd]. intros Hno. by destruct (Hno _ eq_refl).
  - unfold createProduct. destruct (Body.supplier body) as [s|].
    + destruct (decide (s ∈ suppliers db)) as [Hin|Hout]; cbv zeta.
      * split; [done|]. intros Hno. by destruct (Hno s eq_refl).
      * split; [|done]. by intros _ ? [= <-].
    + split; [|done]. by intros _ ?.
  - destruct (products db !! id) as [p|] eqn:Hp.
    + rewrite (updateProduct_eq _ _ _ _ _ Hp).
      destruct (supplierKnown db body); [|done].
      cbn [fst snd]. intros Hno. by destruct (Hno _ eq_refl).
    + unfold updateProduct. by rewrite Hp.
  - destruct (products db !! id) as [p|] eqn:Hp.
    + rewrite (updateProduct_eq _ _ _ _ _ Hp).
      by destruct (supplierKnown db body).
    + unfold updateProduct. by rewrite Hp.
  - destruct (products db !! id) as [p|] eqn:Hp.
    + rewrite (updateProduct_eq _ _ _ _ _ Hp). unfold supplierKnown.
      destruct (Body.supplier body) as [s|].
      * case_bool_decide as Hs.
        -- split; [done|]. by intros (_ & ? & [= <-] & ?).
        -- split; [|done]. intros _. split; [done|]. by exists s.
      * split; [done|]. by intros (_ & ? & ? & _).
    + unfold updateProduct. rewrite Hp. split; [done|]. by intros [? _].
  - unfold deleteProduct. destruct (products db !! id); [|done].
    cbn [fst snd]. intros Hno. by destruct Hno.
  - unfold deleteProduct. by destruct (products db !! id).
Qed.

(** X15.  A deleted product is gone: after a deletion that succeeded, reading,
    updating or deleting the same id answers 404, every other product reads
    as before, and suppliers and sales are untouched (so the line items that
    name the product stay in the sales). *)
Theorem deleted_product_is_gone (now : Date) (db : DB) (id : ObjectId)
    (body : Body.t) :
  (deleteProduct db id).2 = Ok () →
  getProduct (deleteProduct db id).1 id = Fail 404 "Product not found"
  ∧ updateProduct now (deleteProduct db id).1 id body
    = ((deleteProduct db id).1, Fail 404 "Product not found")
  ∧ deleteProduct (deleteProduct db id).1 id
    = ((deleteProduct db id).1, Fail 404 "Product not found")
  ∧ (∀ id', id' ≠ id →
       getProduct (deleteProduct db id).1 id' = getProduct db id')
  ∧ (∃ p, products db !! id = Some p
          ∧ size (products db)
            = S (size (products (deleteProduct db id).1)))
  ∧ suppliers (deleteProduct db id).1 = suppliers db
  ∧ sales (deleteProduct db id).1 = sales db.
Proof.
  unfold deleteProduct at 1.
  destruct (products db !! id) as [p|] eqn:Hp; [|done]. intros _.
  assert (deleteProduct db id
          = (setProducts (delete id (products db)) db, Ok ())) as ->.
  { unfold deleteProduct. by rewrite Hp. }
  cbn [fst]. unfold getProduct, updateProduct, deleteProduct.
  cbn [setProducts products suppliers sales].
  rewrite lookup_delete_eq.
  split_and!; try done.
  - intros id' Hne. by rewrite lookup_delete_ne.
  - exists p. split; [done|].
    rewrite <- (insert_delete_id (products db) id p Hp) at 1.
    rewrite map_size_insert_None by apply lookup_delete_eq. done.
Qed.

(** ** The properties on the sample shop *)

(** A chisel is created in the sample shop and deleted again. *)
Lemma chisel_created_then_deleted :
  ∃ id p,
    (createProduct jan15 sampleSchemaDefault shopDB chiselBody).2 = Ok (id, p)
    ∧ products shopDB !! id = None
    ∧ deleteProduct (createProduct jan15 sampleSchemaDefault shopDB chiselBody).1
        id
      = (shopDB, Ok ()).
Proof.
  assert (∃ c, (createProduct jan15 sampleSchemaDefault shopDB chiselBody).2
               = Ok c) as [[id p] Hok] by (eexists; by vm_compute).
  destruct (create_then_delete_restores_database jan15 sampleSchemaDefault
              shopDB chiselBody id p Hok) as [Hfresh Hdelete].
  by exists id, p.
Defined.

(** The chisel is read back as it was sent. *)
Lemma chisel_is_read_back :
  ∃ id p,
    getProduct (createProduct jan15 sampleSchemaDefault shopDB chiselBody).1 id
    = Ok p
    ∧ Product.name p = "Chisel" ∧ Product.price p = Some 60
    ∧ Product.stockQuantity p = 4
    ∧ Product.pricingHistory p = [PricingEntry.mk 60 25 jan15]
    ∧ getProduct (createProduct jan15 sampleSchemaDefault shopDB chiselBody).1
        1
      = Ok hammer.
Proof.
  assert (∃ c, (createProduct jan15 sampleSchemaDefault shopDB chiselBody).2
               = Ok c) as [[id p] Hok] by (eexists; by vm_compute).
  destruct (created_product_is_read_back jan15 sampleSchemaDefault shopDB
              chiselBody id p Hok) as (Hread & Hother & _).
  exists id, p. vm_compute in Hok. injection Hok as <- <-.
  split_and!; [done..|]. by vm_compute.
Defined.

(** The hammer's price is raised twice by the same request. *)
Lemma price_raised_twice :
  ∃ p',
    (updateProduct jan15 shopDB 1 raisePriceBody).2 = Ok p'
    ∧ updateProduct (jan15 + hour)
        (updateProduct jan15 shopDB 1 raisePriceBody).1 1 raisePriceBody
      = ((updateProduct jan15 shopDB 1 raisePriceBody).1, Ok p')
    ∧ length (Product.pricingHistory p') = 2%nat.
Proof.
  assert (∃ p', (updateProduct jan15 shopDB 1 raisePriceBody).2 = Ok p')
    as [p' Hok] by (eexists; by vm_compute).
  pose proof (update_twice_is_update_once jan15 (jan15 + hour) shopDB 1
                raisePriceBody p' eq_refl Hok) as Htwice.
  exists p'. split_and!; [done..|].
  vm_compute in Hok. by injection Hok as <-.
Defined.

(** The history of the hammer after its price was raised. *)
Lemma history_of_hammer_grows :
  ∃ p',
    (updateProduct jan15 shopDB 1 raisePriceBody).2 = Ok p'
    ∧ Product.pricingHistory hammer `prefix_of` Product.pricingHistory p'
    ∧ historyUpToDate p'.
Proof.
  assert (∃ p', (updateProduct jan15 shopDB 1 raisePriceBody).2 = Ok p')
    as [p' Hok] by (eexists; by vm_compute).
  destruct (update_only_appends_to_history jan15 shopDB 1 raisePriceBody
              hammer p' eq_refl eq_refl Hok) as (Hprefix & _ & _ & Hcurrent).
  exists p'. split_and!; [done..|]. apply Hcurrent.
  exists (PricingEntry.mk 100 20 0). by vm_compute.
Defined.

(** A flag spelled 'yes' lists the inactive products of the sample shop. *)
Lemma flags_of_sample_query :
  getProducts (H := storedOrder) shopDB yesQuery
  = Ok (ProductList.mk 1 [(3%N, oldSaw)]).
Proof.
  destruct (product_list_reads_flags_loosely (H := storedOrder) shopDB yesQuery)
    as (Hactive & Hlow & _).
  rewrite (Hactive "yes" eq_refl) by done. by vm_compute.
Defined.

(** The day buckets of the sample shop on 15 January. *)
Lemma buckets_of_sample_shop :
  ∃ r,
    getSalesReport (H := storedOrder) 0 None sampleDateToString shopDB
      jan15Query = Ok r
    ∧ sumZ (map (λ kv, DayBucket.count kv.2)
              (map_to_list (SalesReport.salesByDate r))) = 2.
Proof.
  assert (∃ r, getSalesReport (H := storedOrder) 0 None sampleDateToString
                 shopDB jan15Query = Ok r) as [r Hr]
    by (eexists; by vm_compute).
  destruct (sales_report_buckets_add_up (H := storedOrder) 0 None
              sampleDateToString shopDB jan15Query r Hr) as [Hcount _].
  exists r. rewrite Hcount. split; [done|].
  vm_compute in Hr. by injection Hr as <-.
Defined.

(** The weekly trend of the sample shop counts the sales of its report. *)
Lemma weekly_trend_of_sample_shop :
  ∃ r rows,
    getSalesReport (H := storedOrder) 0 None sampleDateToString shopDB
      (Query.mk (Some jan15) (Some (jan15 + 24 * hour)) None (Some "week"))
    = Ok r
    ∧ getRevenueTrends (H := storedOrder) 0 None sampleDateToString shopDB
        (Query.mk (Some jan15) (Some (jan15 + 24 * hour)) None (Some "week"))
      = Ok rows
    ∧ sumZ (map Trend.sales rows) = 3.
Proof.
  assert (∃ r, getSalesReport (H := storedOrder) 0 None sampleDateToString
                 shopDB
                 (Query.mk (Some jan15) (Some (jan15 + 24 * hour)) None
                    (Some "week")) = Ok r) as [r Hr]
    by (eexists; by vm_compute).
  destruct (revenue_trends_add_up_to_sales_report (H := storedOrder) 0 None
              sampleDateToString shopDB _ r Hr)
    as (rows & Hrows & Hsales & _).
  exists r, rows. rewrite Hsales. split_and!; [done..|].
  vm_compute in Hr. by injection Hr as <-.
Defined.

(** The busy day lists its newest hundred sales. *)
Lemma busy_day_lists_hundred :
  ∃ r,
    getSalesReport (H := storedOrder) 0 None sampleDateToString busyDB
      jan15Query = Ok r
    ∧ SalesReport.totalSales r = 101
    ∧ length (SalesReport.data r) = 100%nat.
Proof.
  assert (∃ r, getSalesReport (H := storedOrder) 0 None sampleDateToString
                 busyDB jan15Query = Ok r) as [r Hr]
    by (eexists; by vm_compute).
  destruct (sales_report_lists_newest_hundred (H := storedOrder) 0 None
              sampleDateToString busyDB jan15Query jan15 jan15 r
              eq_refl eq_refl Hr) as (Hlength & _).
  exists r. rewrite Hlength. split_and!; [done|..];
    vm_compute in Hr; by injection Hr as <-.
Defined.

(** A voided sale put among the sales of the sample shop. *)
Lemma voided_sale_in_sample_shop :
  getSalesReport (H := storedOrder) 0 None sampleDateToString
    (mkDB shopProducts {[7%N]} (take 2 shopSales ++ voidedSale :: drop 2 shopSales))
    jan15Query
  = getSalesReport (H := storedOrder) 0 None sampleDateToString shopDB
      jan15Query.
Proof.
  by destruct (void_sale_changes_no_report (H := storedOrder) 0 None
                 sampleDateToString shopDB (take 2 shopSales)
                 (drop 2 shopSales) voidedSale jan15Query eq_refl eq_refl)
    as [Hreport _].
Defined.

(** In the sample shop nails and hammers both sold 5 on 15 January.  The
    server that sorts the groups as stored ranks nails first, the one that
    reads them backwards ranks hammers first: the one row the first gives for
    [limit=1] is not the first row the second gives for [limit=10], but the
    quantities agree. *)
Lemma top_seller_of_sample_shop :
  ∃ short long,
    getTopProducts (H := storedOrder) 0 shopDB
      (Query.mk (Some jan15) (Some jan15) (Some (Int 1)) None) = Ok short
    ∧ getTopProducts (H := backwardsOrder) 0 shopDB
        (Query.mk (Some jan15) (Some jan15) (Some (Int 10)) None) = Ok long
    ∧ TopRow.totalQuantity <$> short
      = take 1 (TopRow.totalQuantity <$> long)
    ∧ TopRow.productName <$> short = ["Nails"]
    ∧ TopRow.productName <$> long = ["Hammer"; "Nails"]
    ∧ TopRow.totalQuantity <$> long = [5; 5].
Proof.
  destruct (top_products_limit_is_a_prefix storedOrder backwardsOrder 0 shopDB
              (Some jan15) (Some jan15) None) as (Hprefix & _).
  destruct (Hprefix 1 10 ltac:(lia))
    as (short & long & Hshort & Hlong & Htake & _).
  exists short, long. split_and!; [done..| | |].
  - vm_compute in Hshort. by injection Hshort as <-.
  - vm_compute in Hlong. by injection Hlong as <-.
  - vm_compute in Hlong. by injection Hlong as <-.
Defined.

(** The hammer is deleted from the sample shop. *)
Lemma hammer_deleted_from_sample_shop :
  getProduct (deleteProduct shopDB 1).1 1 = Fail 404 "Product not found"
  ∧ getProduct (deleteProduct shopDB 1).1 2 = Ok nails
  ∧ sales (deleteProduct shopDB 1).1 = shopSales.
Proof.
  destruct (deleted_product_is_gone jan15 shopDB 1 raisePriceBody eq_refl)
    as (Hread & _ & _ & Hother & _ & _ & Hsales).
  split_and!; [done| |done]. by rewrite Hother.
Defined.

(** The categories of the sample shop, and of the shop with the gear. *)
Lemma categories_of_sample_shop :
  ∃ r r',
    getInventoryReport (H := storedOrder) shopDB = Ok r
    ∧ getInventoryReport (H := storedOrder) gearShopDB = Ok r'
    ∧ sumZ (map (λ kv, CategoryBucket.count kv.2)
              (map_to_list (InventoryReport.byCategory r))) = 2
    ∧ InventoryReport.totalProducts r = 2%nat
    ∧ sumZ (map (λ kv, CategoryBucket.count kv.2)
              (map_to_list (InventoryReport.byCategory r'))) = 1
    ∧ InventoryReport.totalProducts r' = 2%nat.
Proof.
  assert (∃ r, getInventoryReport (H := storedOrder) shopDB = Ok r)
    as [r Hr] by (eexists; by vm_compute).
  assert (∃ r, getInventoryReport (H := storedOrder) gearShopDB = Ok r)
    as [r' Hr'] by (eexists; by vm_compute).
  destruct (inventory_categories_add_up (H := storedOrder) shopDB r Hr)
    as (Hcount & _).
  destruct (inventory_categories_add_up (H := storedOrder) gearShopDB r' Hr')
    as (Hcount' & _).
  exists r, r'. rewrite Hcount, Hcount'. split_and!; [done|done|..].
  - by vm_compute.
  - vm_compute in Hr. by injection Hr as <-.
  - by vm_compute.
  - vm_compute in Hr'. by injection Hr' as <-.
Defined.

(** The inventory lists of the sample shop. *)
Lemma inventory_lists_of_sample_shop :
  ∃ r,
    getInventoryReport (H := storedOrder) shopDB = Ok r
    ∧ InventoryReport.data r = [(2%N, nails); (1%N, hammer)]
    ∧ InventoryReport.outOfStockProducts r
        `sublist_of` InventoryReport.lowStockProducts r.
Proof.
  assert (∃ r, getInventoryReport (H := storedOrder) shopDB = Ok r)
    as [r Hr] by (eexists; by vm_compute).
  destruct (inventory_lists_are_ordered (H := storedOrder) shopDB r Hr)
    as (_ & _ & _ & _ & _ & Hthreshold).
  destruct Hthreshold as [Hsub _].
  { intros id p Hp _.
    assert (Forall (λ kv : ObjectId * Product.t,
                      0 ≤ Product.lowStockThreshold kv.2)
              (map_to_list (products shopDB))) as Hall
      by (vm_compute; repeat constructor; by intros ?).
    rewrite Forall_forall in Hall.
    by apply (Hall (id, p)), elem_of_map_to_list. }
  exists r. split_and!; [done| |done].
  vm_compute in Hr. by injection Hr as <-.
Defined.

(** Two hours of 15 January as the end of the range. *)
Lemma end_dates_of_one_day :
  getSalesReport (H := storedOrder) 0 None sampleDateToString shopDB
    (Query.mk (Some jan15) (Some (jan15 + hour)) None None)
  = getSalesReport (H := storedOrder) 0 None sampleDateToString shopDB
      (Query.mk (Some jan15) (Some (jan15 + 23 * hour)) None None).
Proof.
  by destruct (end_date_counts_by_day (H := storedOrder) 0 None
                 sampleDateToString shopDB (Some jan15) (jan15 + hour)
                 (jan15 + 23 * hour) None None eq_refl) as [Hreport _].
Defined.

(** The daily trend of the sample shop on 15 January. *)
Lemma daily_trend_of_sample_shop :
  ∃ r rows,
    getSalesReport (H := storedOrder) 0 None sampleDateToString shopDB
      jan15Query = Ok r
    ∧ getRevenueTrends (H := storedOrder) 0 None sampleDateToString shopDB
        jan15Query = Ok rows
    ∧ rows = [Trend.mk "2024-01-15" 640 2]
    ∧ SalesReport.salesByDate r !! "2024-01-15" = Some (DayBucket.mk 2 640).
Proof.
  assert (∃ r, getSalesReport (H := storedOrder) 0 None sampleDateToString
                 shopDB jan15Query = Ok r) as [r Hr]
    by (eexists; by vm_compute).
  destruct (daily_trends_are_the_report_buckets (H := storedOrder) 0 None
              sampleDateToString shopDB jan15Query r Hr)
    as (rows & Hrows & _ & Hrow); [done..|].
  assert (rows = [Trend.mk "2024-01-15" 640 2]) as Heq.
  { vm_compute in Hrows. by injection Hrows as <-. }
  exists r, rows. split_and!; [done..|].
  apply (Hrow (Trend.mk "2024-01-15" 640 2)). rewrite Heq.
  apply list_elem_of_here.
Defined.

(** A delivery is recorded, and its id is refused the second time. *)
Lemma delivery_recorded_once :
  ∃ doc,
    createStockHistory jan15 [] nailsDelivery = ([doc], inr doc)
    ∧ StockHistory.transactionId doc = "T-1"
    ∧ schemaHolds [doc]
    ∧ createStockHistory (jan15 + hour) [doc] sameIdDelivery
      = ([doc], inl [DuplicateKey "transactionId"]).
Proof.
  assert (schemaHolds []) as Hempty by (split; constructor).
  destruct (stock_history_keeps_schema jan15 [] nailsDelivery Hempty)
    as (Hkeeps & _ & _).
  assert (∃ doc, createStockHistory jan15 [] nailsDelivery = ([doc], inr doc))
    as [doc Hdoc] by (eexists; by vm_compute).
  rewrite Hdoc in Hkeeps. exists doc. split_and!; [done| |done|].
  - vm_compute in Hdoc. by injection Hdoc as <-.
  - vm_compute in Hdoc. injection Hdoc as <-. by vm_compute.
Defined.

(** What stays of the phone after the sample changes were typed. *)
Lemma phone_after_typing :
  validPhone (Profile.formData (typeAll typedChanges Profile.initialState))
  ∧ Profile.formData (typeAll typedChanges Profile.initialState) !! "phone"
    = Some "09175551234".
Proof.
  assert (validPhone (Profile.formData Profile.initialState)) as Hinitial.
  { intros phone Hphone. vm_compute in Hphone. injection Hphone as <-.
    split; [cbn; lia|done]. }
  destruct (profile_typing_keeps_phone_valid typedChanges Profile.initialState
              Hinitial) as (Hvalid & _).
  split; [done|]. by vm_compute.
Defined.

(** A product of an unknown supplier is refused. *)
Lemma stranger_is_refused :
  createProduct jan15 sampleSchemaDefault shopDB strangerBody
  = (shopDB, Fail 404 "Supplier not found")
  ∧ updateProduct jan15 shopDB 1 strangerBody
    = (shopDB, Fail 404 "Supplier not found")
  ∧ deleteProduct shopDB 9 = (shopDB, Fail 404 "Product not found").
Proof.
  destruct (refused_product_write_changes_nothing jan15 sampleSchemaDefault
              shopDB 1 strangerBody) as (_ & Hcreate & _ & _ & Hupdate & _).
  destruct (refused_product_write_changes_nothing jan15 sampleSchemaDefault
              shopDB 9 strangerBody) as (_ & _ & _ & _ & _ & _ & Hdelete).
  split_and!.
  - apply Hcreate. intros s [= <-]. by vm_compute.
  - apply Hupdate. split; [done|]. exists 8%N. split; [done|]. by vm_compute.
  - by apply Hdelete.
Defined.

(** The top products of the sample shop from a start date on, no end given. *)
Lemma top_products_with_start_only :
  getTopProducts (H := storedOrder) 0 shopDB
    (Query.mk (Some (jan15 + 24 * hour)) None None None)
  = getTopProducts (H := storedOrder) 0 shopDB (Query.mk None None None None)
  ∧ getSalesReport (H := storedOrder) 0 None sampleDateToString shopDB
      (Query.mk (Some (jan15 + 24 * hour)) None None None)
    = Fail 400 "Start date and end date are required".
Proof.
  destruct (reports_with_missing_dates (H := storedOrder) 0 None
              sampleDateToString shopDB
              (Query.mk (Some (jan15 + 24 * hour)) None None None))
    as (Hreport & _ & _ & _ & Htop & _).
  split.
  - apply Htop. by right.
  - apply Hreport. by right.
Defined.

(** A sale of one hammer for cash passes the validation with a phone of
    digits, and not with a phone that is empty; it also passes with a product
    id of [0x] and 22 digits. *)
Lemma cash_sale_validation :
  createSaleErrors (λ _, true) (cashSale " 09175551234 ") = []
  ∧ createSaleErrors (λ _, true) (cashSale "") ≠ []
  ∧ createSaleErrors (λ _, true) prefixedSale = [].
Proof.
  destruct (create_sale_validation (λ _, true) (cashSale " 09175551234 "))
    as [Hvalid _].
  destruct (create_sale_validation (λ _, true) (cashSale "")) as [Hempty _].
  destruct (create_sale_validation (λ _, true) prefixedSale) as [Hprefixed _].
  split_and!.
  - apply Hvalid. split_and!; try done.
    + intros p [= <-]. split; [vm_compute; lia|by vm_compute].
    + eexists. split_and!; [done|done|].
      apply Forall_cons. split; [|constructor]. split; [|by eexists].
      split; [done|]. by left.
    + exists "cash". split; [done|]. apply list_elem_of_here.
  - intros Hnil. apply Hempty in Hnil as (_ & Hphone & _).
    destruct (Hphone "" eq_refl) as [[Hlen _] _]. vm_compute in Hlen. lia.
  - apply Hprefixed. split_and!; try done.
    + eexists. split_and!; [done|done|].
      apply Forall_cons. split; [|constructor]. split; [|by eexists].
      split; [done|]. right. eexists _, _. split_and!; [done| |done].
      apply list_elem_of_here.
    + exists "cash". split; [done|]. apply list_elem_of_here.
Defined.

(** Kilograms and an unknown unit; the description of the cement. *)
Lemma abbreviation_of_kilogram :
  getUnitAbbreviation "Kilogram" = "Kg"
  ∧ getUnitAbbreviation "Sack" = "Sack".
Proof.
  destruct (unit_abbreviation "Kilogram") as (Hstandard & _).
  destruct (unit_abbreviation "Sack") as (_ & Hother & _).
  split.
  - apply (Hstandard (Unit.mk "Kilogram" "Kilogram (Kg)" "Kg")); [|done].
    apply list_elem_of_here.
  - apply Hother. intros u Hu.
    assert (Forall (λ u, Unit.value u ≠ "Sack") STANDARD_UNITS) as Hall
      by (repeat constructor; by intros ?).
    rewrite Forall_forall in Hall. by apply Hall.
Defined.

Lemma description_of_cement :
  formatProductDescription cement = "5Kg Cement (Bag)".
Proof.
  destruct (product_description cement) as (_ & Hform & _).
  by rewrite (Hform "Cement" eq_refl).
Defined.

(** The nails delivery is accepted into an empty collection. *)
Lemma delivery_is_accepted :
  ∃ doc, (createStockHistory jan15 [] nailsDelivery).2 = inr doc.
Proof.
  destruct (stock_history_acceptance jan15 [] nailsDelivery) as [Haccept _].
  apply Haccept.
  exists " T-1 ", 2%N, "Nails", 50, jan15, 200, 9%N.
  split_and!; try done. by intros Hin%elem_of_nil.
Defined.

(** Saving the form after the sample changes were typed. *)
Lemma save_after_typing :
  ∃ st' rest,
    Profile.handleSave Profile.Succeeded Profile.Succeeded
      (typeAll typedChanges Profile.initialState)
    = (st', Profile.UpdateProfile
              (Profile.formData (typeAll typedChanges Profile.initialState))
            :: rest)
    ∧ Profile.isEditing st' = false.
Proof.
  destruct (profile_save_sends_valid_form Profile.Succeeded Profile.Succeeded
              (typeAll typedChanges Profile.initialState)) as [Hsend _].
  destruct Hsend as (st' & rest & Hsave & _ & _ & _ & _ & _ & Hediting).
  { split; [vm_compute; lia|by vm_compute]. }
  by exists st', rest.
Defined.

(** A password reset with the confirmation typed right, and typed wrong. *)
Lemma password_reset_of_sample :
  (∃ st',
     Profile.handleResetPassword Profile.Succeeded
       (typedPasswords "new-secret")
     = (st', [Profile.ResetPassword "old-secret" "new-secret"])
     ∧ Profile.isPasswordModalOpen st' = false)
  ∧ ∃ message,
      Profile.handleResetPassword Profile.Succeeded (typedPasswords "new-secrt")
      = (typedPasswords "new-secrt", [Profile.Toast message]).
Proof.
  destruct (profile_password_reset Profile.Succeeded
              (typedPasswords "new-secret")) as [Haccepted _].
  destruct (profile_password_reset Profile.Succeeded
              (typedPasswords "new-secrt")) as [_ Hrefused].
  split.
  - destruct Haccepted as (st' & rest & Hreset & _ & _ & _ & Hdone & _).
    { split_and!; try done. vm_compute. lia. }
    destruct (Hdone eq_refl) as (-> & Hclosed & _). by exists st'.
  - apply Hrefused. by intros (_ & _ & _ & _ & ?).
Defined.

(** Cancelling after the sample changes were typed. *)
Lemma cancel_after_typing :
  Profile.formData
    (Profile.handleCancel (Some ana)
       (typeAll typedChanges Profile.initialState))
  = Profile.formOfUser ana.
Proof.
  destruct (profile_cancel_discards_edits ana typedChanges
              Profile.initialState) as (-> & Hform & _).
  exact Hform.
Defined.
